(** * Blockchain research collectors: a shallow embedding and its properties

    The development follows the Python sources file by file:
    - [Py]: the few Python built-ins the sources rely on (string splitting,
      substring tests, [int()] on text, [pathlib] joins);
    - [UnifiedDataset]: [unified_dataset.py] (record schema, [deduplicate],
      [generate_stats]);
    - [PrepareDataset]: [prepare_dataset.py] ([_load_all_metadata]);
    - [World]: the clock, the disk, the trace, and the HTTP answers both
      collectors look at;
    - [RobustCollector]: [robust_collector.py] (rate limiter, endpoint
      fallback, [save_inscription], [collect]);
    - [ArweaveCollector]: [arweave_collector.py] (gateway fallback,
      [save_transaction], [collect_by_type]);
    - [OvernightCollect]: [overnight_collect.py] ([should_continue],
      [collect_bitcoin_ordinals]).

    For the collectors, time is a rational number of seconds, the file
    system is a finite map from path to contents (directories are implicit
    in the paths), and what a run does to the outside world (requests,
    file writes, pauses, console and log lines) is appended to a trace.
    The servers and SHA-256 are parameters of the model. *)

From Stdlib Require Import ZArith QArith Qround Lqa Floats Ascii String.
From stdpp Require Import gmap strings list fin_maps pretty.

#[local] Open Scope Z_scope.

(** ** Python built-ins *)

Module Py.

(** A [bytes] value. *)
Definition bytes : Type := list Byte.byte.

(** [s.split(sep)[0]]: the text before the first [sep] (all of [s] when
    [sep] does not occur). *)
Fixpoint split_head (sep : ascii) (s : string) : string :=
  match s with
  | EmptyString => EmptyString
  | String c rest =>
      if Ascii.eqb c sep then EmptyString else String c (split_head sep rest)
  end.

(** [c in s] for a one-character [c]. *)
Fixpoint char_in (c : ascii) (s : string) : bool :=
  match s with
  | EmptyString => false
  | String d rest => Ascii.eqb c d || char_in c rest
  end.

(** [sub in s]. *)
Fixpoint str_contains (sub s : string) : bool :=
  String.prefix sub s
  || match s with
     | EmptyString => false
     | String _ rest => str_contains sub rest
     end.

(** [s[:n]]. *)
Definition slice_to (n : nat) (s : string) : string := String.substring 0 n s.

(** [str(n)] and [f"{n}"] for an [int]. The limit CPython 3.11 puts on the
    conversion (4300 digits) is not modelled: the numbers the sources
    format are inscription numbers, block heights and counts. *)
Definition str_of_int (n : Z) : string := pretty n.

(** [l[:n]] on a list: a negative [n] counts from the end. *)
Definition list_slice_to {A} (n : Z) (l : list A) : list A :=
  if 0 <=? n then take (Z.to_nat n) l
  else take (Z.to_nat (Z.of_nat (length l) + n)) l.

(** [len(l)]. *)
Definition len {A} (l : list A) : Z := Z.of_nat (length l).

(** [pathlib]: [base / part]. An empty part or a single dot leaves the path
    as it is; the parts the sources join never start with a slash. *)
Definition path_join (base part : string) : string :=
  if decide (part = "" ∨ part = ".") then base else base +:+ "/" +:+ part.

(** *** [int(text)] in base ten, for ASCII text

    What [int] does with text outside ASCII (it also reads the decimal
    digits and skips the spaces of other scripts) and CPython 3.11's limit
    of 4300 digits are not modelled. *)

(** The white space [int] skips at both ends of ASCII text: the blank and
    the characters 9 to 13. *)
Definition is_space (c : ascii) : bool :=
  let n := nat_of_ascii c in
  (n =? 32)%nat || ((9 <=? n)%nat && (n <=? 13)%nat).

Definition digit_of (c : ascii) : option Z :=
  let n := nat_of_ascii c in
  if ((48 <=? n)%nat && (n <=? 57)%nat)%bool
  then Some (Z.of_nat (n - 48)) else None.

Fixpoint lstrip (s : string) : string :=
  match s with
  | String c rest => if is_space c then lstrip rest else s
  | EmptyString => EmptyString
  end.

Definition strip (s : string) : string :=
  String.rev (lstrip (String.rev (lstrip s))).

(** Digits with single underscores between them; [prev_digit] says whether
    the character before was a digit (an underscore needs one on each
    side). *)
Fixpoint digits_value (s : string) (prev_digit : bool) (acc : Z) : option Z :=
  match s with
  | EmptyString => if prev_digit then Some acc else None
  | String c rest =>
      match digit_of c with
      | Some d => digits_value rest true (10 * acc + d)
      | None =>
          if (Ascii.eqb c "_" && prev_digit)%bool
          then match rest with
               | String c' _ =>
                   if digit_of c' is Some _
                   then digits_value rest false acc else None
               | EmptyString => None
               end
          else None
      end
  end.

(** [int(s)] for a [str] of ASCII text: [None] stands for [ValueError]. *)
Definition int_of_str (s : string) : option Z :=
  match strip s with
  | String "-" rest => Z.opp <$> digits_value rest false 0
  | String "+" rest => digits_value rest false 0
  | body => digits_value body false 0
  end.

End Py.

(** ** [unified_dataset.py] *)

Module UnifiedDataset.

(** The dataclass [UnifiedRecord], field for field. *)
Record UnifiedRecord := {
  id : string;
  chain : string;
  chain_id : string;
  content_type : string;
  content_hash : string;
  content_length : Z;
  local_path : string;
  block_height : Z;
  timestamp : Z;
  inscription_number : Z;
  collection : string;
  name : string;
  protocol : string;
  is_recursive : bool;
  is_nft : bool;
  is_protocol_data : bool;
  price_usd : float;
  rarity_score : float;
}.

(** [key = f"{record.chain}:{record.content_hash}"]. *)
Definition dedup_key (record : UnifiedRecord) : string :=
  chain record +:+ ":" +:+ content_hash record.

(** The loop of [deduplicate]: [seen] and [unique] are its two locals. *)
Fixpoint deduplicate_loop (records : list UnifiedRecord)
    (seen : gset string) (unique : list UnifiedRecord) : list UnifiedRecord :=
  match records with
  | [] => unique
  | record :: rest =>
      let key := dedup_key record in
      if decide (key ∈ seen)
      then deduplicate_loop rest seen unique
      else deduplicate_loop rest ({[key]} ∪ seen) (unique ++ [record])
  end.

(** [UnifiedDatasetGenerator.deduplicate]: the new value of [self.records]. *)
Definition deduplicate (records : list UnifiedRecord) : list UnifiedRecord :=
  deduplicate_loop records ∅ [].

(** One entry of [stats['by_chain']]. *)
Record ChainStats := { count : Z; bytes : Z }.

(** The mapping [generate_stats] returns. [total_mb] is the exact quotient;
    the rounding of Python's float division is not modelled. *)
Record Stats := {
  generated_at : string;
  total_records : Z;
  total_bytes : Z;
  by_chain : gmap string ChainStats;
  by_content_type : gmap string Z;
  nft_count : Z;
  protocol_data_count : Z;
  recursive_count : Z;
  total_mb : Q;
}.

(** [sum(r.content_length for r in self.records)]. *)
Definition sum_content_length (records : list UnifiedRecord) : Z :=
  foldr (λ r acc, content_length r + acc) 0 records.

(** The by-chain part of one loop iteration. *)
Definition bump_chain (record : UnifiedRecord)
    (m : gmap string ChainStats) : gmap string ChainStats :=
  let m0 :=
    match m !! chain record with
    | None => <[chain record := {| count := 0; bytes := 0 |}]> m
    | Some _ => m
    end in
  let m1 :=
    alter (λ s, {| count := count s + 1; bytes := bytes s |}) (chain record) m0 in
  alter (λ s, {| count := count s; bytes := bytes s + content_length record |})
    (chain record) m1.

(** The by-content-type part of one loop iteration. *)
Definition bump_content_type (record : UnifiedRecord)
    (m : gmap string Z) : gmap string Z :=
  let ct := Py.split_head ";" (content_type record) in
  let m0 := match m !! ct with None => <[ct := 0]> m | Some _ => m end in
  alter (λ n, n + 1) ct m0.

(** One iteration of the loop of [generate_stats]. *)
Definition stats_step (stats : Stats) (record : UnifiedRecord) : Stats :=
  {| generated_at := generated_at stats;
     total_records := total_records stats;
     total_bytes := total_bytes stats;
     by_chain := bump_chain record (by_chain stats);
     by_content_type := bump_content_type record (by_content_type stats);
     nft_count :=
       if is_nft record then nft_count stats + 1 else nft_count stats;
     protocol_data_count :=
       if is_protocol_data record
       then protocol_data_count stats + 1 else protocol_data_count stats;
     recursive_count :=
       if is_recursive record
       then recursive_count stats + 1 else recursive_count stats;
     total_mb := total_mb stats |}.

(** [UnifiedDatasetGenerator.generate_stats]; [now_iso] is what
    [datetime.now().isoformat()] returns at the call. *)
Definition generate_stats (now_iso : string)
    (records : list UnifiedRecord) : Stats :=
  let stats0 :=
    {| generated_at := now_iso;
       total_records := Py.len records;
       total_bytes := sum_content_length records;
       by_chain := ∅;
       by_content_type := ∅;
       nft_count := 0;
       protocol_data_count := 0;
       recursive_count := 0;
       total_mb := 0 |} in
  let stats := foldl stats_step stats0 records in
  {| generated_at := generated_at stats;
     total_records := total_records stats;
     total_bytes := total_bytes stats;
     by_chain := by_chain stats;
     by_content_type := by_content_type stats;
     nft_count := nft_count stats;
     protocol_data_count := protocol_data_count stats;
     recursive_count := recursive_count stats;
     total_mb := (inject_Z (total_bytes stats) / inject_Z (1024 * 1024))%Q |}.

(** The sums a reader of the report takes over the values of a breakdown. *)
Definition sum_values {V : Type} (g : V → Z) (m : gmap string V) : Z :=
  map_fold (λ _ v acc, g v + acc) 0 m.

Definition sum_chain_counts (m : gmap string ChainStats) : Z :=
  sum_values count m.

Definition sum_chain_bytes (m : gmap string ChainStats) : Z :=
  sum_values bytes m.

Definition sum_type_counts (m : gmap string Z) : Z :=
  sum_values (λ n, n) m.

(** One iteration of the loop of [export] that fills [chains]. *)
Definition add_to_chain (chains : gmap string (list UnifiedRecord))
    (record : UnifiedRecord) : gmap string (list UnifiedRecord) :=
  let chains0 :=
    match chains !! chain record with
    | None => <[chain record := []]> chains
    | Some _ => chains
    end in
  alter (λ l, l ++ [record]) (chain record) chains0.

(** The dict [chains] of [export]: the lines of each per-chain file. The
    order in which the dict holds its keys is not modelled. *)
Definition export_chains (records : list UnifiedRecord)
    : gmap string (list UnifiedRecord) :=
  foldl add_to_chain ∅ records.

End UnifiedDataset.

(** ** [prepare_dataset.py] *)

Module PrepareDataset.

(** The values an ['id'] takes in the metadata files: text, or [null] or a
    number where an upstream API gave one. The other fields of a record are
    carried along untouched, so the same type serves for them. *)
Inductive jval := JNull | JInt (n : Z) | JStr (s : string).

#[export] Instance jval_eq_dec : EqDecision jval.
Proof. solve_decision. Defined.

#[export] Instance jval_countable : Countable jval.
Proof.
  refine (inj_countable'
    (λ v, match v with
          | JNull => inl ()
          | JInt n => inr (inl n)
          | JStr s => inr (inr s)
          end)
    (λ x, match x with
          | inl _ => JNull
          | inr (inl n) => JInt n
          | inr (inr s) => JStr s
          end) _).
  by intros [].
Defined.

(** Python's truth value of a field. *)
Definition truthy (v : jval) : bool :=
  match v with
  | JNull => false
  | JInt n => negb (n =? 0)
  | JStr s => negb (String.eqb s "")
  end.

(** [r.get('id', '')] on a record, a JSON object. *)
Definition get_id (r : gmap string jval) : jval := default (JStr "") (r !! "id").

(** What reading and parsing one file of the metadata directory gives. *)
Inductive FileContent :=
  | JsonList (data : list (gmap string jval))
  | JsonOther
  | Unreadable.

Record MetaFile := { file_name : string; file_content : FileContent }.

(** The first loop of [_load_all_metadata], over the files in the order the
    glob yields them. *)
Fixpoint load_records (files : list MetaFile)
    (records : list (gmap string jval)) : list (gmap string jval) :=
  match files with
  | [] => records
  | f :: rest =>
      if Py.str_contains "analysis" (file_name f)
         || Py.str_contains "stats" (file_name f)
      then load_records rest records
      else match file_content f with
           | JsonList data => load_records rest (records ++ data)
           | JsonOther | Unreadable => load_records rest records
           end
  end.

(** The second loop: deduplicate by id. *)
Fixpoint dedup_by_id (records : list (gmap string jval))
    (seen : gset jval) (unique : list (gmap string jval))
    : list (gmap string jval) :=
  match records with
  | [] => unique
  | r :: rest =>
      let rid := get_id r in
      if truthy rid && bool_decide (rid ∉ seen)
      then dedup_by_id rest ({[rid]} ∪ seen) (unique ++ [r])
      else dedup_by_id rest seen unique
  end.

(** [DatasetPreparer._load_all_metadata]. *)
Definition _load_all_metadata (files : list MetaFile)
    : list (gmap string jval) :=
  dedup_by_id (load_records files []) ∅ [].

End PrepareDataset.

(** ** The outside world *)

Module World.

(** Why a request raised. *)
Inductive Failure := TimedOut | ConnectionReset | OtherError.

(** What [session.get] gives: a response, or an exception. *)
Inductive HttpResult :=
  | Response (status_code : Z) (content : Py.bytes)
  | Raised (e : Failure).

(** [resp.raise_for_status()] raises on 4xx and 5xx. *)
Definition status_raises (status_code : Z) : bool :=
  (400 <=? status_code) && (status_code <? 600).

(** A line on the console or in the log, kept as data. *)
Inductive Line :=
  | LRateLimitHit (api : string) (wait_time : Q)
  | LHeader (what : string) (target : Z)
  | LFetched (n : Z) (offset : Z)
  | LFound (n : Z)
  | LSaved (label : string) (size : Z)
  | LFailed (label : string)
  | LSkipping (label : string) (size : Z)
  | LError
  | LCollected (n : Z) (what : string)
  | LStarting
  | LCollecting (n : Z) (what : string)
  | LProgress (n : Z) (total : Z)
  | LTimeLimitReached
  | LComplete (n : Z).

Inductive Event :=
  | HttpGet (url : string) (params : list (string * string))
  | HttpPost (url : string) (variables : list (string * string))
  | WriteBytes (path : string)
  | Slept (seconds : Q)
  | Printed (line : Line).

(** The clock, the disk, and what has happened so far, each event with the
    time it began at, oldest first. *)
Record World := {
  clock : Q;
  disk : gmap string Py.bytes;
  trace : list (Q * Event);
}.

Definition emit (e : Event) (w : World) : World :=
  {| clock := clock w; disk := disk w; trace := trace w ++ [(clock w, e)] |}.

Definition advance (seconds : Q) (w : World) : World :=
  {| clock := (clock w + seconds)%Q; disk := disk w; trace := trace w |}.

(** [time.sleep(seconds)]. *)
Definition sleep (seconds : Q) (w : World) : World :=
  advance seconds (emit (Slept seconds) w).

(** [print(...)] and [logger.info(...)]. *)
Definition print (line : Line) (w : World) : World := emit (Printed line) w.

(** [path.write_bytes(content)]. *)
Definition write_bytes (path : string) (content : Py.bytes) (w : World) : World :=
  let w' := emit (WriteBytes path) w in
  {| clock := clock w'; disk := <[path := content]> (disk w'); trace := trace w' |}.

(** The requests of a trace, in order. *)
Definition gets (t : list (Q * Event)) : list string :=
  omap (λ e, match e.2 with HttpGet url _ => Some url | _ => None end) t.

(** The paths written, in order. *)
Definition writes (t : list (Q * Event)) : list string :=
  omap (λ e, match e.2 with WriteBytes path => Some path | _ => None end) t.

(** [a < b] on the clock. *)
Definition Qlt_bool (a b : Q) : bool := negb (Qle_bool b a).

(** The requests of a trace that began at [t] or later, in order. *)
Definition gets_from (t : Q) (tr : list (Q * Event)) : list string :=
  omap (λ e, match e.2 with
             | HttpGet url _ => if Qle_bool t e.1 then Some url else None
             | _ => None
             end) tr.

(** The log line [collect_bitcoin_ordinals] writes as it starts a batch. *)
Definition is_batch_start (e : Event) : bool :=
  match e with
  | Printed (LCollecting _ _) => true
  | _ => false
  end.

(** An event that is not the start of a batch. *)
Definition quiet (e : Q * Event) : Prop := is_batch_start e.2 = false.

(** [w'] is [w] after more events, each of them satisfying [P]. *)
Definition extends (P : Q * Event → Prop) (w w' : World) : Prop :=
  ∃ new, trace w' = trace w ++ new ∧ Forall P new.

(** A search sent to the GraphQL endpoint. *)
Definition is_search (e : Event) : bool :=
  match e with
  | HttpPost _ _ => true
  | _ => false
  end.

End World.

(** ** [robust_collector.py] *)

Module RobustCollector.
Import World.

Definition DATA_DIR : string :=
  "/Volumes/Virtual Server/Projects/blockchain-research/data".

Definition ORDINALS_DIR : string := Py.path_join DATA_DIR "ordinals".

(** The keys of [self.apis]. *)
Inductive ApiName := hiro | ordiscan | bestinslot.

Definition api_label (n : ApiName) : string :=
  match n with
  | hiro => "hiro"
  | ordiscan => "ordiscan"
  | bestinslot => "bestinslot"
  end.

(** One entry of [self.apis]. *)
Record Api := {
  base : string;
  rate_limit : Z;
  last_call : Q;
  calls_this_minute : Z;
}.

(** The collector: its [apis] mapping, one entry per key. *)
Record MultiAPICollector := {
  api_hiro : Api;
  api_ordiscan : Api;
  api_bestinslot : Api;
}.

(** [self.apis[api_name]]. *)
Definition apis (self : MultiAPICollector) (api_name : ApiName) : Api :=
  match api_name with
  | hiro => api_hiro self
  | ordiscan => api_ordiscan self
  | bestinslot => api_bestinslot self
  end.

Definition set_api (self : MultiAPICollector) (api_name : ApiName) (a : Api)
    : MultiAPICollector :=
  match api_name with
  | hiro =>
      {| api_hiro := a; api_ordiscan := api_ordiscan self;
         api_bestinslot := api_bestinslot self |}
  | ordiscan =>
      {| api_hiro := api_hiro self; api_ordiscan := a;
         api_bestinslot := api_bestinslot self |}
  | bestinslot =>
      {| api_hiro := api_hiro self; api_ordiscan := api_ordiscan self;
         api_bestinslot := a |}
  end.

(** [MultiAPICollector.__init__]. *)
Definition __init__ : MultiAPICollector :=
  {| api_hiro :=
       {| base := "https://api.hiro.so/ordinals/v1"; rate_limit := 60;
          last_call := 0; calls_this_minute := 0 |};
     api_ordiscan :=
       {| base := "https://api.ordiscan.com/v1"; rate_limit := 100;
          last_call := 0; calls_this_minute := 0 |};
     api_bestinslot :=
       {| base := "https://api.bestinslot.xyz/v3"; rate_limit := 30;
          last_call := 0; calls_this_minute := 0 |} |}.

(** [MultiAPICollector._wait_for_rate_limit]. *)
Definition _wait_for_rate_limit (api_name : ApiName)
    (self : MultiAPICollector) (w : World) : MultiAPICollector * World :=
  let api := apis self api_name in
  let now := clock w in
  (* Reset counter every minute *)
  let calls1 :=
    if Qlt_bool 60 (now - last_call api) then 0 else calls_this_minute api in
  (* If at limit, wait *)
  let '(calls2, w1) :=
    if rate_limit api <=? calls1 then
      let wait_time := (60 - (now - last_call api))%Q in
      if Qlt_bool 0 wait_time
      then (0, sleep wait_time (print (LRateLimitHit (api_label api_name) wait_time) w))
      else (calls1, w)
    else (calls1, w) in
  (set_api self api_name
     {| base := base api; rate_limit := rate_limit api;
        last_call := clock w1; calls_this_minute := calls2 + 1 |},
   w1).

(** A burst: [n] calls one after the other, no time passing between them
    but what the limiter itself sleeps. *)
Fixpoint burst (n : nat) (api_name : ApiName)
    (self : MultiAPICollector) (w : World) : MultiAPICollector * World :=
  match n with
  | O => (self, w)
  | S n' =>
      let '(self1, w1) := _wait_for_rate_limit api_name self w in
      burst n' api_name self1 w1
  end.

(** An inscription as the listing returns it: each key may be absent; a
    key that is present holds a value of its type ([null] is not
    modelled). *)
Record Inscription := {
  insc_id : option string;
  insc_number : option Z;
  insc_content_type : option string;
}.

(** The record [save_inscription] returns. *)
Record Saved := {
  id : string;
  number : Z;
  content_type : string;
  content_length : Z;
  file_hash : string;
  local_path : string;
}.

Definition ext_map : gmap string string :=
  list_to_map
    [("image/png", ".png"); ("image/webp", ".webp"); ("image/gif", ".gif");
     ("image/jpeg", ".jpg"); ("image/svg+xml", ".svg");
     ("text/plain", ".txt"); ("text/html", ".html");
     ("application/json", ".json"); ("audio/mpeg", ".mp3")].

(** [if content:] on an [Optional[bytes]]. *)
Definition has_content (content : option Py.bytes) : bool :=
  match content with
  | Some (_ :: _) => true
  | _ => false
  end.

(** The two URLs content is fetched from:
    [f"https://ordinals.com/content/{inscription_id}"] and
    [f"{self.apis['hiro']['base']}/inscriptions/{inscription_id}/content"]. *)
Definition ordinals_com_url (inscription_id : string) : string :=
  "https://ordinals.com/content/" +:+ inscription_id.

Definition hiro_url (self : MultiAPICollector) (inscription_id : string)
    : string :=
  base (apis self hiro) +:+ "/inscriptions/" +:+ inscription_id +:+ "/content".

Section Environment.

(** The servers: the answer to a request sent when [n] events have happened
    so far in the run, and the time that answer takes. The same URL may be
    answered differently at different moments. *)
Variable http_get : nat → string → HttpResult.
Variable hiro_listing : nat → string → Z → Z → Failure + list Inscription.
Variable latency : nat → Q.

(** [hashlib.sha256(content).hexdigest()]. *)
Variable sha256_hexdigest : Py.bytes → string.

(** [self.session.get(url, ...)] for content: the body unless the call or
    [raise_for_status] raised. *)
Definition get_content (url : string) (w : World) : option Py.bytes * World :=
  let n := length (trace w) in
  let w1 := advance (latency n) (emit (HttpGet url []) w) in
  match http_get n url with
  | Response status_code content =>
      if status_raises status_code then (None, w1) else (Some content, w1)
  | Raised _ => (None, w1)
  end.

(** [fetch_inscriptions_hiro]: [inl] is the exception that escapes. *)
Definition fetch_inscriptions_hiro (mime_type : string) (offset limit : Z)
    (self : MultiAPICollector) (w : World)
    : (Failure + list Inscription) * MultiAPICollector * World :=
  let '(self1, w1) := _wait_for_rate_limit hiro self w in
  let url := base (apis self1 hiro) +:+ "/inscriptions" in
  let params :=
    [("mime_type", mime_type); ("offset", Py.str_of_int offset);
     ("limit", Py.str_of_int limit)] in
  let n := length (trace w1) in
  let w2 := advance (latency n) (emit (HttpGet url params) w1) in
  (hiro_listing n mime_type offset limit, self1, w2).

(** [fetch_content_hiro]. *)
Definition fetch_content_hiro (inscription_id : string)
    (self : MultiAPICollector) (w : World)
    : option Py.bytes * MultiAPICollector * World :=
  let '(self1, w1) := _wait_for_rate_limit hiro self w in
  let url := hiro_url self1 inscription_id in
  let '(content, w2) := get_content url w1 in
  (content, self1, w2).

(** [fetch_content_ordinals_com]. *)
Definition fetch_content_ordinals_com (inscription_id : string) (w : World)
    : option Py.bytes * World :=
  get_content (ordinals_com_url inscription_id) w.

(** [fetch_with_fallback]. *)
Definition fetch_with_fallback (inscription_id : string)
    (self : MultiAPICollector) (w : World)
    : option Py.bytes * MultiAPICollector * World :=
  (* Try ordinals.com first (no rate limit) *)
  let '(content, w1) := fetch_content_ordinals_com inscription_id w in
  if has_content content then (content, self, w1)
  else
    (* Fallback to Hiro *)
    let '(content2, self2, w2) := fetch_content_hiro inscription_id self w1 in
    if has_content content2 then (content2, self2, w2)
    else (None, self2, w2).

(** [save_inscription], on a file system that takes every directory and
    file it is given: the errors [mkdir] and [write_bytes] can raise (a
    name that is too long or holds a NUL, a full disk) are not modelled. *)
Definition save_inscription (inscription : Inscription) (content : Py.bytes)
    (w : World) : Saved * World :=
  let content_type :=
    default "application/octet-stream" (insc_content_type inscription) in
  let number := default 0 (insc_number inscription) in
  let inscription_id := default "" (insc_id inscription) in
  let ext := default ".bin" (ext_map !! content_type) in
  let category :=
    if Py.char_in "/" content_type then Py.split_head "/" content_type
    else "other" in
  let category_dir := Py.path_join ORDINALS_DIR category in
  let file_hash := Py.slice_to 16 (sha256_hexdigest content) in
  let filename := Py.str_of_int number +:+ "_" +:+ file_hash +:+ ext in
  let filepath := Py.path_join category_dir filename in
  ({| id := inscription_id; number := number; content_type := content_type;
      content_length := Py.len content; file_hash := file_hash;
      local_path := filepath |},
   write_bytes filepath content w).

(** The [for] loop of [collect] over one batch. The flag is [false] when
    [insc['id']] raised [KeyError]: the rest of the batch is abandoned, and
    what was appended to [records] stays. *)
Fixpoint download_each (inscriptions : list Inscription) (records : list Saved)
    (self : MultiAPICollector) (w : World)
    : list Saved * MultiAPICollector * World * bool :=
  match inscriptions with
  | [] => (records, self, w, true)
  | insc :: rest =>
      match insc_id insc with
      | None => (records, self, w, false)
      | Some inscription_id =>
          let '(content, self1, w1) := fetch_with_fallback inscription_id self w in
          let '(records1, w2) :=
            match content with
            | Some ((_ :: _) as body) =>
                let '(record, w') := save_inscription insc body w1 in
                (records ++ [record],
                 print (LSaved (Py.str_of_int (number record)) (content_length record)) w')
            | _ =>
                (records,
                 print (LFailed (from_option Py.str_of_int "unknown" (insc_number insc))) w1)
            end in
          (* Small delay between downloads *)
          download_each rest records1 self1 (sleep (1 # 2) w2)
      end
  end.

(** The [while] loop of [collect]. Nothing bounds its iterations, so the
    model takes [fuel]; the flag is [false] when the fuel ran out with the
    loop still going. *)
Fixpoint collect_loop (fuel : nat) (mime_type : string) (count : Z)
    (records : list Saved) (offset : Z) (self : MultiAPICollector) (w : World)
    : list Saved * MultiAPICollector * World * bool :=
  match fuel with
  | O => (records, self, w, false)
  | S fuel' =>
      if Py.len records <? count then
        let '(batch, self1, w1) :=
          fetch_inscriptions_hiro mime_type offset
            (Z.min 20 (count - Py.len records)) self w in
        match batch with
        | inl _ =>
            collect_loop fuel' mime_type count records offset self1
              (sleep 5 (print LError w1))
        | inr [] => (records, self1, w1, true)
        | inr inscriptions =>
            let w2 := print (LFetched (Py.len inscriptions) offset) w1 in
            let '(records1, self2, w3, ok) :=
              download_each inscriptions records self1 w2 in
            if ok
            then collect_loop fuel' mime_type count records1
                   (offset + Py.len inscriptions) self2 w3
            else collect_loop fuel' mime_type count records1 offset self2
                   (sleep 5 (print LError w3))
        end
      else (records, self, w, true)
  end.

(** [MultiAPICollector.collect]. *)
Definition collect (fuel : nat) (mime_type : string) (count : Z)
    (self : MultiAPICollector) (w : World)
    : list Saved * MultiAPICollector * World * bool :=
  let w0 := print (LHeader mime_type count) w in
  let '(records, self1, w1, finished) :=
    collect_loop fuel mime_type count [] 0 self w0 in
  if finished
  then (records, self1, print (LCollected (Py.len records) mime_type) w1, true)
  else (records, self1, w1, false).

End Environment.

End RobustCollector.

(** ** [arweave_collector.py] *)

Module ArweaveCollector.
Import World.

Definition DATA_DIR : string :=
  "/Volumes/Virtual Server/Projects/blockchain-research/data".

Definition ARWEAVE_DIR : string := Py.path_join DATA_DIR "arweave".

(** [self.gateways], in the declared order. *)
Definition gateways : list string :=
  ["https://arweave.net"; "https://ar-io.net"; "https://g8way.io"].

Definition graphql_endpoint : string := "https://arweave.net/graphql".

(** A member of a JSON object: missing, [null], or a value. *)
Inductive field (A : Type) := Absent | Null | Present (a : A).
Arguments Absent {A}.
Arguments Null {A}.
Arguments Present {A} a.

(** [data.size] comes as text from the gateway's GraphQL, or as a number. *)
Inductive SizeValue := SizeInt (n : Z) | SizeStr (s : string).

Record TxData := { size : field SizeValue; type : field string }.
Record TxBlock := { height : field Z; timestamp : field Z }.
Record Tag := { name : string; value : string }.

(** A transaction node of a GraphQL answer. *)
Record Transaction := {
  tx_id : string;
  data : field TxData;
  tags : field (list Tag);
  block : field TxBlock;
}.

(** The record [save_transaction] returns; [None] is Python's [None]. *)
Record Saved := {
  id : string;
  chain : string;
  block_height : option Z;
  block_timestamp : option Z;
  content_type : string;
  content_length : Z;
  file_hash : string;
  local_path : string;
  saved_tags : gmap string string;
  app_name : option string;
}.

Definition ext_map : gmap string string :=
  list_to_map
    [("image/png", ".png"); ("image/webp", ".webp"); ("image/gif", ".gif");
     ("image/jpeg", ".jpg"); ("image/svg+xml", ".svg");
     ("text/plain", ".txt"); ("text/html", ".html");
     ("application/json", ".json"); ("audio/mpeg", ".mp3");
     ("video/mp4", ".mp4"); ("application/pdf", ".pdf")].

(** [{t['name']: t['value'] for t in l}]: a later tag of the same name
    replaces an earlier one. *)
Definition tags_dict (l : list Tag) : gmap string string :=
  foldl (λ m t, <[name t := value t]> m) ∅ l.

(** [d.get(key)] on a member that holds a plain value: Python's [None] for
    a missing or [null] member. *)
Definition get_value {A} (f : field A) : option A :=
  match f with
  | Present a => Some a
  | Absent | Null => None
  end.

(** [tx.get('data', {}).get('size')]: the outer [None] is the
    [AttributeError] raised on [tx['data'] = null]. *)
Definition declared_size (tx : Transaction) : option (option SizeValue) :=
  match data tx with
  | Absent => Some None
  | Null => None
  | Present d => Some (get_value (size d))
  end.

(** The truth value of a size. *)
Definition size_truthy (v : SizeValue) : bool :=
  match v with
  | SizeInt n => negb (n =? 0)
  | SizeStr s => negb (String.eqb s "")
  end.

(** [int(size)]; [None] is [ValueError]. *)
Definition int_of_size (v : SizeValue) : option Z :=
  match v with
  | SizeInt n => Some n
  | SizeStr s => Py.int_of_str s
  end.

(** What the size test of [collect_by_type] and [collect_by_app] decides
    for a transaction. *)
Inductive SizeVerdict := TooLarge (n : Z) | Proceed | SizeRaises.

(** [size = tx.get('data', {}).get('size')] followed by
    [if size and int(size) > 1_000_000]. *)
Definition size_verdict (tx : Transaction) : SizeVerdict :=
  match declared_size tx with
  | None => SizeRaises
  | Some None => Proceed
  | Some (Some v) =>
      if size_truthy v then
        match int_of_size v with
        | None => SizeRaises
        | Some n => if 1000000 <? n then TooLarge n else Proceed
        end
      else Proceed
  end.

(** [f"{gateway}/{tx_id}"]. *)
Definition gateway_url (tx_id gateway : string) : string :=
  gateway +:+ "/" +:+ tx_id.

Section Environment.

(** The gateways, the GraphQL endpoint (its answer is the list of nodes,
    or the exception [graphql_query] lets out) and SHA-256, as for the
    other collector. *)
Variable http_get : nat → string → HttpResult.
Variable graphql : nat → string → Z → Failure + list Transaction.
Variable latency : nat → Q.
Variable sha256_hexdigest : Py.bytes → string.

(** The loop of [fetch_content] over the gateways still to try. *)
Fixpoint fetch_content_from (gws : list string) (tx_id : string) (w : World)
    : option Py.bytes * World :=
  match gws with
  | [] => (None, w)
  | gateway :: rest =>
      let url := gateway_url tx_id gateway in
      let n := length (trace w) in
      let w1 := advance (latency n) (emit (HttpGet url []) w) in
      match http_get n url with
      | Response status_code content =>
          if status_code =? 200 then (Some content, w1)
          else fetch_content_from rest tx_id w1
      | Raised _ => fetch_content_from rest tx_id w1
      end
  end.

(** [ArweaveCollector.fetch_content]. *)
Definition fetch_content (tx_id : string) (w : World) : option Py.bytes * World :=
  fetch_content_from gateways tx_id w.

(** [search_by_content_type]: the nodes of the answer, or the exception. *)
Definition search_by_content_type (content_type : string) (limit : Z) (w : World)
    : (Failure + list Transaction) * World :=
  let n := length (trace w) in
  let variables :=
    [("contentType", content_type); ("first", Py.str_of_int limit)] in
  (graphql n content_type limit,
   advance (latency n) (emit (HttpPost graphql_endpoint variables) w)).

(** [save_transaction]; [None] when it raises over the shape of the
    transaction, which it does before it writes anything. The file system
    takes every directory and file it is given: the errors [mkdir] and
    [write_bytes] can raise are not modelled. *)
Definition save_transaction (tx : Transaction) (content : Py.bytes) (w : World)
    : option (Saved * World) :=
  tag_list ← match tags tx with
             | Absent => Some []
             | Null => None
             | Present l => Some l
             end;
  let tags := tags_dict tag_list in
  data_type ← match data tx with
              | Absent => Some (Some "application/octet-stream")
              | Null => None
              | Present d =>
                  match type d with
                  | Absent => Some (Some "application/octet-stream")
                  | Null => Some None
                  | Present t => Some (Some t)
                  end
              end;
  content_type ← match tags !! "Content-Type" with
                 | Some t => Some t
                 | None => data_type
                 end;
  let ext := default ".bin" (ext_map !! Py.split_head ";" content_type) in
  let category :=
    if Py.char_in "/" content_type then Py.split_head "/" content_type
    else "other" in
  let category_dir := Py.path_join ARWEAVE_DIR category in
  let file_hash := Py.slice_to 16 (sha256_hexdigest content) in
  blk ← match block tx with
        | Absent => Some (Some 0, None)
        | Null => None
        | Present b =>
            Some (match height b with
                  | Absent => Some 0
                  | Null => None
                  | Present h => Some h
                  end,
                  get_value (timestamp b))
        end;
  let block_height := blk.1 in
  let filename :=
    from_option Py.str_of_int "None" block_height +:+ "_" +:+ file_hash +:+ ext in
  let filepath := Py.path_join category_dir filename in
  Some ({| id := tx_id tx; chain := "arweave"; block_height := block_height;
           block_timestamp := blk.2; content_type := content_type;
           content_length := Py.len content; file_hash := file_hash;
           local_path := filepath; saved_tags := tags;
           app_name := tags !! "App-Name" |},
        write_bytes filepath content w).

(** The body of the loop of [collect_by_type] for a transaction that
    passed the size test: fetch, save, report, pause. An exception
    ([save_transaction] raising) is caught and reported, and skips the
    pause. *)
Definition collect_one (tx : Transaction) (records : list Saved) (w : World)
    : list Saved * World :=
  let '(content, w1) := fetch_content (tx_id tx) w in
  match content with
  | Some ((_ :: _) as body) =>
      match save_transaction tx body w1 with
      | Some (record, w2) =>
          (records ++ [record],
           sleep (3 # 10)
             (print (LSaved (Py.slice_to 16 (tx_id tx)) (Py.len body)) w2))
      | None => (records, print LError w1)
      end
  | _ =>
      (records, sleep (3 # 10) (print (LFailed (Py.slice_to 16 (tx_id tx))) w1))
  end.

(** The [for] loop of [collect_by_type] over the transactions still to
    visit. *)
Fixpoint collect_each (txs : list Transaction) (count : Z)
    (records : list Saved) (w : World) : list Saved * World :=
  match txs with
  | [] => (records, w)
  | tx :: rest =>
      match size_verdict tx with
      | TooLarge n =>
          (* Skip large files (>1MB): [continue] *)
          collect_each rest count records
            (print (LSkipping (Py.slice_to 16 (tx_id tx)) n) w)
      | SizeRaises =>
          let w1 := print LError w in
          if count <=? Py.len records then (records, w1)
          else collect_each rest count records w1
      | Proceed =>
          let '(records1, w1) := collect_one tx records w in
          if count <=? Py.len records1 then (records1, w1)
          else collect_each rest count records1 w1
      end
  end.

(** [ArweaveCollector.collect_by_type]. *)
Definition collect_by_type (content_type : string) (count : Z) (w : World)
    : list Saved * World :=
  let w0 := print (LHeader content_type count) w in
  let '(found, w1) := search_by_content_type content_type (count * 2) w0 in
  let '(records, w2) :=
    match found with
    | inl _ => ([], print LError w1)
    | inr transactions =>
        collect_each (Py.list_slice_to count transactions) count []
          (print (LFound (Py.len transactions)) w1)
    end in
  (records, print (LCollected (Py.len records) content_type) w2).

End Environment.

Section AppEnvironment.

(** The servers again; the GraphQL endpoint now answers the search by
    [App-Name]. *)
Variable http_get : nat → string → HttpResult.
Variable graphql_app : nat → string → Z → Failure + list Transaction.
Variable latency : nat → Q.
Variable sha256_hexdigest : Py.bytes → string.

(** [search_by_app]: the nodes of the answer, or the exception. *)
Definition search_by_app (app_name : string) (limit : Z) (w : World)
    : (Failure + list Transaction) * World :=
  let n := length (trace w) in
  let variables := [("appName", app_name); ("first", Py.str_of_int limit)] in
  (graphql_app n app_name limit,
   advance (latency n) (emit (HttpPost graphql_endpoint variables) w)).

(** The body of the loop of [collect_by_app] for a transaction that passed
    the size test. A failed fetch is not reported. *)
Definition collect_one_app (tx : Transaction) (records : list Saved) (w : World)
    : list Saved * World :=
  let '(content, w1) := fetch_content http_get latency (tx_id tx) w in
  match content with
  | Some ((_ :: _) as body) =>
      match save_transaction sha256_hexdigest tx body w1 with
      | Some (record, w2) =>
          (records ++ [record],
           sleep (3 # 10)
             (print (LSaved (Py.slice_to 16 (tx_id tx)) (Py.len body)) w2))
      | None => (records, print LError w1)
      end
  | _ => (records, sleep (3 # 10) w1)
  end.

(** The [for] loop of [collect_by_app]. A transaction that is too large is
    passed over in silence. *)
Fixpoint collect_each_app (txs : list Transaction) (count : Z)
    (records : list Saved) (w : World) : list Saved * World :=
  match txs with
  | [] => (records, w)
  | tx :: rest =>
      match size_verdict tx with
      | TooLarge _ => collect_each_app rest count records w
      | SizeRaises =>
          let w1 := print LError w in
          if count <=? Py.len records then (records, w1)
          else collect_each_app rest count records w1
      | Proceed =>
          let '(records1, w1) := collect_one_app tx records w in
          if count <=? Py.len records1 then (records1, w1)
          else collect_each_app rest count records1 w1
      end
  end.

(** [ArweaveCollector.collect_by_app]. *)
Definition collect_by_app (app_name : string) (count : Z) (w : World)
    : list Saved * World :=
  let w0 := print (LHeader app_name count) w in
  let '(found, w1) := search_by_app app_name (count * 2) w0 in
  match found with
  | inl _ => ([], print LError w1)
  | inr transactions =>
      collect_each_app (Py.list_slice_to count transactions) count []
        (print (LFound (Py.len transactions)) w1)
  end.

End AppEnvironment.

End ArweaveCollector.

(** ** [overnight_collect.py] *)

Module OvernightCollect.
Import World.

(** [self.stats]; the two time stamps are kept as clock readings. *)
Record Stats := {
  start_time : Q;
  stats_end_time : Q;
  bitcoin_ordinals : Z;
  arweave : Z;
  solana : Z;
  total_bytes : Z;
  errors : list string;
}.

Record OvernightCollector := {
  end_time : Q;
  stats : Stats;
}.

(** [OvernightCollector.__init__]: [datetime.now() + timedelta(hours)]. *)
Definition __init__ (hours : Q) (w : World) : OvernightCollector :=
  let end_time := (clock w + hours * 3600)%Q in
  {| end_time := end_time;
     stats := {| start_time := clock w; stats_end_time := end_time;
                 bitcoin_ordinals := 0; arweave := 0; solana := 0;
                 total_bytes := 0; errors := [] |} |}.

(** [should_continue]: [datetime.now() < self.end_time]. *)
Definition should_continue (self : OvernightCollector) (w : World) : bool :=
  Qlt_bool (clock w) (end_time self).

(** The batches of [collect_bitcoin_ordinals]. *)
Definition content_types : list (string * Z) :=
  [("image/png", 20); ("image/webp", 20); ("image/gif", 15);
   ("image/svg+xml", 15); ("text/plain", 20); ("text/html", 15);
   ("application/json", 15); ("audio/mpeg", 10)].

Definition add_bitcoin (records : list RobustCollector.Saved)
    (self : OvernightCollector) : OvernightCollector :=
  let st := stats self in
  {| end_time := end_time self;
     stats :=
       {| start_time := start_time st; stats_end_time := stats_end_time st;
          bitcoin_ordinals := bitcoin_ordinals st + Py.len records;
          arweave := arweave st; solana := solana st;
          total_bytes :=
            total_bytes st
            + foldr (λ r acc, RobustCollector.content_length r + acc) 0 records;
          errors := errors st |} |}.

Section Environment.

Variable http_get : nat → string → HttpResult.
Variable hiro_listing :
  nat → string → Z → Z → Failure + list RobustCollector.Inscription.
Variable latency : nat → Q.
Variable sha256_hexdigest : Py.bytes → string.

(** The [for] loop of [collect_bitcoin_ordinals]. The flag is [false] when
    a call of [collect] was still running as its fuel ran out. *)
Fixpoint bitcoin_batches (fuel : nat) (batches : list (string * Z))
    (collector : RobustCollector.MultiAPICollector)
    (self : OvernightCollector) (w : World)
    : OvernightCollector * World * bool :=
  match batches with
  | [] => (self, w, true)
  | (mime_type, count) :: rest =>
      if should_continue self w then
        let w0 := print (LCollecting count mime_type) w in
        let '(records, collector1, w1, finished) :=
          RobustCollector.collect http_get hiro_listing latency
            sha256_hexdigest fuel mime_type count collector w0 in
        if finished then
          let self1 := add_bitcoin records self in
          let w2 :=
            print (LProgress (Py.len records) (bitcoin_ordinals (stats self1))) w1 in
          (* Rate limit pause *)
          bitcoin_batches fuel rest collector1 self1 (sleep 10 w2)
        else (self, w1, false)
      else (self, print LTimeLimitReached w, true)
  end.

(** [OvernightCollector.collect_bitcoin_ordinals]. *)
Definition collect_bitcoin_ordinals (fuel : nat)
    (self : OvernightCollector) (w : World)
    : OvernightCollector * World * bool :=
  let w0 := print LStarting w in
  let collector := RobustCollector.__init__ in
  let '(self1, w1, finished) :=
    bitcoin_batches fuel content_types collector self w0 in
  if finished
  then (self1, print (LComplete (bitcoin_ordinals (stats self1))) w1, true)
  else (self1, w1, false).

End Environment.

(** [delta.seconds] for [delta = self.end_time - datetime.now()]. A
    [timedelta] is kept as days, seconds and microseconds, the seconds
    between 0 and 86399 whatever the sign of the difference; the days are
    held apart. *)
Definition delta_seconds (self : OvernightCollector) (w : World) : Z :=
  Qfloor (end_time self - clock w) mod 86400.

(** [time_remaining]. *)
Definition time_remaining (self : OvernightCollector) (w : World) : string :=
  let hours := delta_seconds self w / 3600 in
  let minutes := (delta_seconds self w mod 3600) / 60 in
  Py.str_of_int hours +:+ "h " +:+ Py.str_of_int minutes +:+ "m".

(** The batches of [collect_arweave]. *)
Definition arweave_content_types : list (string * Z) :=
  [("image/png", 10); ("image/gif", 10); ("text/plain", 10)].

Definition add_arweave (records : list ArweaveCollector.Saved)
    (self : OvernightCollector) : OvernightCollector :=
  let st := stats self in
  {| end_time := end_time self;
     stats :=
       {| start_time := start_time st; stats_end_time := stats_end_time st;
          bitcoin_ordinals := bitcoin_ordinals st;
          arweave := arweave st + Py.len records;
          solana := solana st;
          total_bytes :=
            total_bytes st
            + foldr (λ r acc, ArweaveCollector.content_length r + acc) 0 records;
          errors := errors st |} |}.

Section ArweaveEnvironment.

Variable http_get : nat → string → HttpResult.
Variable graphql : nat → string → Z → Failure + list ArweaveCollector.Transaction.
Variable latency : nat → Q.
Variable sha256_hexdigest : Py.bytes → string.

(** The [for] loop of [collect_arweave]. *)
Fixpoint arweave_batches (batches : list (string * Z))
    (self : OvernightCollector) (w : World) : OvernightCollector * World :=
  match batches with
  | [] => (self, w)
  | (ct, count) :: rest =>
      if should_continue self w then
        let '(records, w1) :=
          ArweaveCollector.collect_by_type http_get graphql latency
            sha256_hexdigest ct count w in
        arweave_batches rest (add_arweave records self) (sleep 5 w1)
      else (self, w)
  end.

(** [OvernightCollector.collect_arweave]. *)
Definition collect_arweave (self : OvernightCollector) (w : World)
    : OvernightCollector * World :=
  let w0 := print LStarting w in
  if should_continue self w0 then
    let '(self1, w1) := arweave_batches arweave_content_types self w0 in
    (self1, print (LComplete (arweave (stats self1))) w1)
  else (self, w0).

End ArweaveEnvironment.

End OvernightCollect.

(** ** Sample data *)

Module Samples.

(** The same picture, once inscribed on Bitcoin and once stored on
    Arweave: one content hash, two chains. *)
Definition on_bitcoin : UnifiedDataset.UnifiedRecord :=
  {| UnifiedDataset.id := "5f2b1c0e9a7d4c3b8e6f1a2b3c4d5e6f";
     UnifiedDataset.chain := "bitcoin";
     UnifiedDataset.chain_id := "6fb976ab49dcec017f1e201e84395983204ae1a7c2abf7ced0a85d692e442799i0";
     UnifiedDataset.content_type := "image/png";
     UnifiedDataset.content_hash := "9f86d081884c7d65";
     UnifiedDataset.content_length := 793;
     UnifiedDataset.local_path := "data/ordinals/image/0_9f86d081884c7d65.png";
     UnifiedDataset.block_height := 0;
     UnifiedDataset.timestamp := 0;
     UnifiedDataset.inscription_number := 0;
     UnifiedDataset.collection := "";
     UnifiedDataset.name := "";
     UnifiedDataset.protocol := "";
     UnifiedDataset.is_recursive := false;
     UnifiedDataset.is_nft := false;
     UnifiedDataset.is_protocol_data := false;
     UnifiedDataset.price_usd := 0%float;
     UnifiedDataset.rarity_score := 0%float |}.

Definition on_arweave : UnifiedDataset.UnifiedRecord :=
  {| UnifiedDataset.id := "0c1d2e3f4a5b6c7d8e9f0a1b2c3d4e5f";
     UnifiedDataset.chain := "arweave";
     UnifiedDataset.chain_id := "bNbA3TEQVL60xlgCcqdz4ZPHFZ711cZ3hmkpGttDt_U";
     UnifiedDataset.content_type := "image/png";
     UnifiedDataset.content_hash := "9f86d081884c7d65";
     UnifiedDataset.content_length := 793;
     UnifiedDataset.local_path := "data/arweave/image/1138_9f86d081884c7d65.png";
     UnifiedDataset.block_height := 1138;
     UnifiedDataset.timestamp := 1528500720;
     UnifiedDataset.inscription_number := 0;
     UnifiedDataset.collection := "";
     UnifiedDataset.name := "";
     UnifiedDataset.protocol := "";
     UnifiedDataset.is_recursive := false;
     UnifiedDataset.is_nft := false;
     UnifiedDataset.is_protocol_data := false;
     UnifiedDataset.price_usd := 0%float;
     UnifiedDataset.rarity_score := 0%float |}.

(** A fresh disk, nothing done yet, at some moment of the Unix epoch. *)
Definition fresh_world : World.World :=
  {| World.clock := 1762180000; World.disk := ∅; World.trace := [] |}.

(** A stand-in for [hashlib]'s SHA-256, to run the model on samples: the
    bytes in hexadecimal, padded with zeros to 64 digits. *)
Definition hex_digit (n : N) : ascii :=
  ascii_of_N (if (n <? 10)%N then 48 + n else 87 + n).

Definition toy_hexdigest (content : Py.bytes) : string :=
  let hex :=
    foldr (λ b acc,
             String (hex_digit (Byte.to_N b / 16))
               (String (hex_digit (Byte.to_N b mod 16)) acc))
          EmptyString content in
  Py.slice_to 64 (hex +:+ "0000000000000000000000000000000000000000000000000000000000000000").

(** A small PNG header as content. *)
Definition png_bytes : Py.bytes :=
  [Byte.x89; Byte.x50; Byte.x4e; Byte.x47; Byte.x0d; Byte.x0a; Byte.x1a; Byte.x0a].

Definition inscription_7 : RobustCollector.Inscription :=
  {| RobustCollector.insc_id := Some "a1b2c3i0";
     RobustCollector.insc_number := Some 7;
     RobustCollector.insc_content_type := Some "image/png" |}.

Definition inscription_8 : RobustCollector.Inscription :=
  {| RobustCollector.insc_id := Some "d4e5f6i0";
     RobustCollector.insc_number := Some 8;
     RobustCollector.insc_content_type := Some "image/png" |}.

(** A mined Arweave transaction carrying a PNG. *)
Definition png_tx : ArweaveCollector.Transaction :=
  {| ArweaveCollector.tx_id := "bNbA3TEQVL60xlgCcqdz4ZPHFZ711cZ3hmkpGttDt_U";
     ArweaveCollector.data :=
       ArweaveCollector.Present
         {| ArweaveCollector.size :=
              ArweaveCollector.Present (ArweaveCollector.SizeStr "8");
            ArweaveCollector.type := ArweaveCollector.Present "image/png" |};
     ArweaveCollector.tags :=
       ArweaveCollector.Present
         [{| ArweaveCollector.name := "Content-Type";
             ArweaveCollector.value := "image/png" |}];
     ArweaveCollector.block :=
       ArweaveCollector.Present
         {| ArweaveCollector.height := ArweaveCollector.Present 1138;
            ArweaveCollector.timestamp := ArweaveCollector.Present 1528500720 |} |}.

Definition y_bytes : Py.bytes := [Byte.x59].


(** ordinals.com and arweave.net always fail; the others always answer. *)
Definition endpoints_down (n : nat) (url : string) : World.HttpResult :=
  if String.prefix "https://ordinals.com/" url
     || String.prefix "https://arweave.net/" url
  then World.Raised World.ConnectionReset
  else World.Response 200 y_bytes.

(** ordinals.com answers 200 with an empty body; Hiro has the content. *)
Definition ordinals_empty (n : nat) (url : string) : World.HttpResult :=
  if String.prefix "https://ordinals.com/" url
  then World.Response 200 []
  else World.Response 200 y_bytes.

(** arweave.net answers 200 with an empty body; the other gateways have
    the content. *)
Definition arweave_net_empty (n : nat) (url : string) : World.HttpResult :=
  if String.prefix "https://arweave.net/" url
  then World.Response 200 []
  else World.Response 200 y_bytes.

(** Requests that take no time. *)
Definition no_latency (n : nat) : Q := 0.

(** A transaction that declares two million bytes. *)
Definition big_tx : ArweaveCollector.Transaction :=
  {| ArweaveCollector.tx_id := "Kx3yQ0cT9lH2mVb7sWn4uJp8dRf1gZa6eYi5oNqCtXw";
     ArweaveCollector.data :=
       ArweaveCollector.Present
         {| ArweaveCollector.size :=
              ArweaveCollector.Present (ArweaveCollector.SizeStr "2000000");
            ArweaveCollector.type := ArweaveCollector.Present "image/png" |};
     ArweaveCollector.tags :=
       ArweaveCollector.Present
         [{| ArweaveCollector.name := "Content-Type";
             ArweaveCollector.value := "image/png" |}];
     ArweaveCollector.block :=
       ArweaveCollector.Present
         {| ArweaveCollector.height := ArweaveCollector.Present 1200;
            ArweaveCollector.timestamp := ArweaveCollector.Present 1530000000 |} |}.

(** A GraphQL endpoint that lists that one transaction. *)
Definition lists_big_tx (n : nat) (content_type : string) (limit : Z)
    : World.Failure + list ArweaveCollector.Transaction :=
  inr [big_tx].

(** A GraphQL endpoint that lists the large transaction and a small one. *)
Definition lists_big_and_png (n : nat) (content_type : string) (limit : Z)
    : World.Failure + list ArweaveCollector.Transaction :=
  inr [big_tx; png_tx].

(** Gateways that serve the sample PNG for every transaction. *)
Definition serves_png (n : nat) (url : string) : World.HttpResult :=
  World.Response 200 png_bytes.

(** Hiro lists five PNG inscriptions at offset 0 and nothing further. *)
Definition five_inscriptions : list RobustCollector.Inscription :=
  (λ i, {| RobustCollector.insc_id := Some ("f00d" +:+ pretty i +:+ "i0");
           RobustCollector.insc_number := Some i;
           RobustCollector.insc_content_type := Some "image/png" |})
  <$> [1; 2; 3; 4; 5].

Definition lists_five (n : nat) (mime_type : string) (offset limit : Z)
    : World.Failure + list RobustCollector.Inscription :=
  if offset =? 0 then inr five_inscriptions else inr [].

(** Hiro lists, at offset 0, as many of the five as the request's limit
    allows. *)
Definition lists_within_limit (n : nat) (mime_type : string) (offset limit : Z)
    : World.Failure + list RobustCollector.Inscription :=
  if offset =? 0 then inr (take (Z.to_nat limit) five_inscriptions) else inr [].

(** Hiro's listing is down: every request times out. *)
Definition listing_down (n : nat) (mime_type : string) (offset limit : Z)
    : World.Failure + list RobustCollector.Inscription :=
  inl World.TimedOut.

(** The PNG transaction before it is mined: [block] is [null]. *)
Definition pending_tx : ArweaveCollector.Transaction :=
  {| ArweaveCollector.tx_id := ArweaveCollector.tx_id png_tx;
     ArweaveCollector.data := ArweaveCollector.data png_tx;
     ArweaveCollector.tags := ArweaveCollector.tags png_tx;
     ArweaveCollector.block := ArweaveCollector.Null |}.

(** A night of one second, begun on a fresh world. *)
Definition one_second_night : OvernightCollect.OvernightCollector :=
  OvernightCollect.__init__ (1 # 3600) fresh_world.

(** Three metadata records: the first two share a file hash under two
    ids, the third repeats the first id with another hash. *)
Definition meta_a : gmap string PrepareDataset.jval :=
  <["id" := PrepareDataset.JStr "a1b2c3i0"]>
    (<["file_hash" := PrepareDataset.JStr "89504e470d0a1a0a"]>
       (<["number" := PrepareDataset.JInt 7]> ∅)).

Definition meta_b : gmap string PrepareDataset.jval :=
  <["id" := PrepareDataset.JStr "d4e5f6i0"]>
    (<["file_hash" := PrepareDataset.JStr "89504e470d0a1a0a"]>
       (<["number" := PrepareDataset.JInt 8]> ∅)).

Definition meta_a_again : gmap string PrepareDataset.jval :=
  <["id" := PrepareDataset.JStr "a1b2c3i0"]>
    (<["file_hash" := PrepareDataset.JStr "ffd8ffe000104a46"]>
       (<["number" := PrepareDataset.JInt 7]> ∅)).

(** A record without an id, and one whose id is empty. *)
Definition meta_no_id : gmap string PrepareDataset.jval :=
  <["file_hash" := PrepareDataset.JStr "0000000000000000"]> ∅.

Definition meta_empty_id : gmap string PrepareDataset.jval :=
  <["id" := PrepareDataset.JStr ""]> ∅.

Definition metadata_dir : list PrepareDataset.MetaFile :=
  [{| PrepareDataset.file_name := "robust_collection.json";
      PrepareDataset.file_content :=
        PrepareDataset.JsonList [meta_a; meta_no_id; meta_b] |};
   {| PrepareDataset.file_name := "overnight_stats_20260101_000000.json";
      PrepareDataset.file_content := PrepareDataset.JsonOther |};
   {| PrepareDataset.file_name := "analysis_report.json";
      PrepareDataset.file_content := PrepareDataset.JsonList [meta_b] |};
   {| PrepareDataset.file_name := "ordinals_metadata.json";
      PrepareDataset.file_content :=
        PrepareDataset.JsonList [meta_empty_id; meta_a_again] |}].

End Samples.

(** * Properties *)

(** ** Deduplication in [unified_dataset.py] *)

Section Deduplicate.
Import UnifiedDataset.

Implicit Types (records unique : list UnifiedRecord) (seen : gset string).

(** The accumulator [unique] only ever grows at its end. *)
Lemma deduplicate_loop_acc records seen unique :
  deduplicate_loop records seen unique
  = unique ++ deduplicate_loop records seen [].
Proof.
  revert seen unique.
  induction records as [|record rest IH]; intros seen unique; simpl.
  - by rewrite app_nil_r.
  - case_decide; [apply IH|].
    rewrite (IH _ (unique ++ [record])), (IH _ [record]).
    by rewrite <- app_assoc.
Qed.

Lemma deduplicate_loop_skip record rest seen :
  dedup_key record ∈ seen →
  deduplicate_loop (record :: rest) seen [] = deduplicate_loop rest seen [].
Proof. intros Hin. simpl. by rewrite decide_True. Qed.

Lemma deduplicate_loop_keep record rest seen :
  dedup_key record ∉ seen →
  deduplicate_loop (record :: rest) seen []
  = record :: deduplicate_loop rest ({[dedup_key record]} ∪ seen) [].
Proof.
  intros Hin. simpl. rewrite decide_False by done.
  by rewrite deduplicate_loop_acc.
Qed.

(** Nothing already [seen] is kept. *)
Lemma deduplicate_loop_fresh records seen r :
  r ∈ deduplicate_loop records seen [] → dedup_key r ∉ seen.
Proof.
  revert seen. induction records as [|record rest IH]; intros seen.
  - simpl. by intros ?%elem_of_nil.
  - destruct (decide (dedup_key record ∈ seen)) as [Hin|Hin].
    + rewrite deduplicate_loop_skip by done. apply IH.
    + rewrite deduplicate_loop_keep by done.
      intros [->|Hr%IH]%elem_of_cons; set_solver.
Qed.

Lemma deduplicate_loop_NoDup records seen :
  NoDup (dedup_key <$> deduplicate_loop records seen []).
Proof.
  revert seen. induction records as [|record rest IH]; intros seen.
  - constructor.
  - destruct (decide (dedup_key record ∈ seen)) as [Hin|Hin].
    + rewrite deduplicate_loop_skip by done. apply IH.
    + rewrite deduplicate_loop_keep by done. rewrite fmap_cons.
      constructor; [|apply IH].
      intros (r & Hk & Hr%deduplicate_loop_fresh)%list_elem_of_fmap.
      set_solver.
Qed.

Lemma deduplicate_loop_sublist records seen :
  deduplicate_loop records seen [] `sublist_of` records.
Proof.
  revert seen. induction records as [|record rest IH]; intros seen.
  - constructor.
  - destruct (decide (dedup_key record ∈ seen)) as [Hin|Hin].
    + rewrite deduplicate_loop_skip by done. by constructor.
    + rewrite deduplicate_loop_keep by done. by constructor.
Qed.

(** For each key, what is kept is the first record of the input with that
    key, unless the key was seen before. *)
Lemma deduplicate_loop_first records seen k :
  filter (λ r, dedup_key r = k) (deduplicate_loop records seen [])
  = if decide (k ∈ seen) then []
    else option_list (head (filter (λ r, dedup_key r = k) records)).
Proof.
  revert seen. induction records as [|record rest IH]; intros seen.
  - simpl. by case_decide.
  - destruct (decide (dedup_key record ∈ seen)) as [Hin|Hin].
    + rewrite deduplicate_loop_skip, IH by done.
      case_decide; [done|].
      rewrite filter_cons_False; [done|]. by intros <-.
    + rewrite deduplicate_loop_keep, filter_cons, IH by done.
      destruct (decide (dedup_key record = k)) as [<-|Hne].
      * rewrite filter_cons_True by done.
        rewrite decide_True by set_solver. by rewrite decide_False.
      * rewrite filter_cons_False by done.
        destruct (decide (k ∈ seen)).
        -- rewrite decide_True; [done|]. apply elem_of_union. by right.
        -- rewrite decide_False; [done|].
           intros [Hk%elem_of_singleton|Hk]%elem_of_union; congruence.
Qed.

(** C1, as the code has it: after [deduplicate] no two records left share
    the key ["chain:content_hash"], so two records left from the same chain
    have different content hashes. Nothing is promised across chains. *)
Theorem deduplicate_keys_distinct records :
  NoDup (dedup_key <$> deduplicate records)
  ∧ ∀ i j a b,
      i ≠ j →
      deduplicate records !! i = Some a →
      deduplicate records !! j = Some b →
      chain a = chain b →
      content_hash a ≠ content_hash b.
Proof.
  pose proof (deduplicate_loop_NoDup records ∅) as Hnd.
  split; [exact Hnd|].
  intros i j a b Hij Ha Hb Hchain Hhash. apply Hij.
  apply (NoDup_lookup _ i j (dedup_key a) Hnd).
  - unfold deduplicate in Ha. by rewrite list_lookup_fmap, Ha.
  - unfold deduplicate in Hb. rewrite list_lookup_fmap, Hb. simpl.
    unfold dedup_key. by rewrite Hchain, Hhash.
Qed.

(** C1, as the claim states it, fails: two records with one content hash
    from two chains both survive [deduplicate]. *)
Lemma deduplicate_keeps_same_hash_across_chains :
  deduplicate [Samples.on_bitcoin; Samples.on_arweave]
  = [Samples.on_bitcoin; Samples.on_arweave]
  ∧ content_hash Samples.on_bitcoin = content_hash Samples.on_arweave
  ∧ ¬ NoDup (content_hash <$> deduplicate [Samples.on_bitcoin; Samples.on_arweave]).
Proof.
  assert (deduplicate [Samples.on_bitcoin; Samples.on_arweave]
          = [Samples.on_bitcoin; Samples.on_arweave]) as Heq
    by (vm_compute; reflexivity).
  split; [exact Heq|]. split; [reflexivity|].
  rewrite Heq. simpl. intros Hnd. apply NoDup_cons in Hnd as [Hnotin _].
  apply Hnotin. apply list_elem_of_singleton. reflexivity.
Qed.

(** C5: [deduplicate] keeps the input's order, keeps for every key exactly
    one record, and that record is the first record of the input with that
    key, field for field. *)
Theorem deduplicate_first_seen_wins records :
  deduplicate records `sublist_of` records
  ∧ NoDup (dedup_key <$> deduplicate records)
  ∧ ∀ k,
      filter (λ r, dedup_key r = k) (deduplicate records)
      = option_list (head (filter (λ r, dedup_key r = k) records)).
Proof.
  split; [apply deduplicate_loop_sublist|].
  split; [apply deduplicate_loop_NoDup|].
  intros k. unfold deduplicate. rewrite deduplicate_loop_first.
  by rewrite decide_False by set_solver.
Qed.

End Deduplicate.

(** ** The report of [generate_stats] *)

Section GenerateStats.
Import UnifiedDataset.

Section Sum.
Context {V : Type} (g : V → Z).

Lemma sum_values_empty : sum_values g ∅ = 0.
Proof. unfold sum_values. by rewrite map_fold_empty. Qed.

Lemma sum_values_insert_fresh (m : gmap string V) k v :
  m !! k = None → sum_values g (<[k := v]> m) = g v + sum_values g m.
Proof.
  intros Hk. unfold sum_values.
  rewrite map_fold_insert_L; [done| |done]. intros; lia.
Qed.

Lemma sum_values_delete (m : gmap string V) k v :
  m !! k = Some v → sum_values g m = g v + sum_values g (delete k m).
Proof.
  intros Hk. unfold sum_values.
  rewrite (map_fold_delete_L _ _ k v m); [done| |done]. intros; lia.
Qed.

Lemma sum_values_alter (f : V → V) (m : gmap string V) k v :
  m !! k = Some v →
  sum_values g (alter f k m) = sum_values g m - g v + g (f v).
Proof.
  intros Hk.
  rewrite (sum_values_delete (alter f k m) k (f v))
    by (by rewrite lookup_alter_eq, Hk).
  rewrite (sum_values_delete m k v) by done.
  rewrite delete_alter_eq. lia.
Qed.

End Sum.

Lemma sum_chain_counts_bump record m :
  sum_chain_counts (bump_chain record m) = sum_chain_counts m + 1.
Proof.
  unfold sum_chain_counts, bump_chain.
  destruct (m !! chain record) as [s|] eqn:Hk.
  - rewrite (sum_values_alter _ _ _ _ {| count := count s + 1; bytes := bytes s |})
      by (by rewrite lookup_alter_eq, Hk).
    rewrite (sum_values_alter _ _ _ _ s) by done. simpl. lia.
  - rewrite (sum_values_alter _ _ _ _ {| count := 0 + 1; bytes := 0 |})
      by (by rewrite lookup_alter_eq, lookup_insert_eq).
    rewrite (sum_values_alter _ _ _ _ {| count := 0; bytes := 0 |})
      by (by rewrite lookup_insert_eq).
    rewrite sum_values_insert_fresh by done. simpl. lia.
Qed.

Lemma sum_chain_bytes_bump record m :
  sum_chain_bytes (bump_chain record m)
  = sum_chain_bytes m + content_length record.
Proof.
  unfold sum_chain_bytes, bump_chain.
  destruct (m !! chain record) as [s|] eqn:Hk.
  - rewrite (sum_values_alter _ _ _ _ {| count := count s + 1; bytes := bytes s |})
      by (by rewrite lookup_alter_eq, Hk).
    rewrite (sum_values_alter _ _ _ _ s) by done. simpl. lia.
  - rewrite (sum_values_alter _ _ _ _ {| count := 0 + 1; bytes := 0 |})
      by (by rewrite lookup_alter_eq, lookup_insert_eq).
    rewrite (sum_values_alter _ _ _ _ {| count := 0; bytes := 0 |})
      by (by rewrite lookup_insert_eq).
    rewrite sum_values_insert_fresh by done. simpl. lia.
Qed.

Lemma sum_type_counts_bump record m :
  sum_type_counts (bump_content_type record m) = sum_type_counts m + 1.
Proof.
  unfold sum_type_counts, bump_content_type.
  destruct (m !! Py.split_head ";" (content_type record)) as [n|] eqn:Hk.
  - rewrite (sum_values_alter _ _ _ _ n) by done. lia.
  - rewrite (sum_values_alter _ _ _ _ 0) by (by rewrite lookup_insert_eq).
    rewrite sum_values_insert_fresh by done. lia.
Qed.

(** What the loop has added up after the records [done], from [stats]. *)
Lemma stats_loop_sums records stats :
  let stats' := foldl stats_step stats records in
  total_records stats' = total_records stats
  ∧ total_bytes stats' = total_bytes stats
  ∧ generated_at stats' = generated_at stats
  ∧ sum_chain_counts (by_chain stats')
    = sum_chain_counts (by_chain stats) + Py.len records
  ∧ sum_chain_bytes (by_chain stats')
    = sum_chain_bytes (by_chain stats) + sum_content_length records
  ∧ sum_type_counts (by_content_type stats')
    = sum_type_counts (by_content_type stats) + Py.len records.
Proof.
  revert stats. induction records as [|record rest IH]; intros stats; simpl.
  - unfold Py.len. simpl. repeat split; lia.
  - destruct (IH (stats_step stats record)) as (H1 & H2 & H3 & H4 & H5 & H6).
    simpl in *. rewrite H1, H2, H3, H4, H5, H6.
    rewrite sum_chain_counts_bump, sum_chain_bytes_bump, sum_type_counts_bump.
    unfold Py.len. simpl length. repeat split; lia.
Qed.

(** C9: the totals of the report agree with the records and with the sums
    over its two breakdowns. *)
Theorem generate_stats_consistent now_iso records :
  let stats := generate_stats now_iso records in
  total_records stats = Z.of_nat (length records)
  ∧ total_bytes stats = sum_content_length records
  ∧ sum_chain_counts (by_chain stats) = total_records stats
  ∧ sum_chain_bytes (by_chain stats) = total_bytes stats
  ∧ sum_type_counts (by_content_type stats) = total_records stats.
Proof.
  unfold generate_stats.
  match goal with |- context [foldl stats_step ?s0 records] =>
    destruct (stats_loop_sums records s0) as (H1 & H2 & _ & H4 & H5 & H6)
  end.
  simpl in *. rewrite H1, H2, H4, H5, H6.
  unfold sum_chain_counts, sum_chain_bytes, sum_type_counts.
  rewrite !sum_values_empty. unfold Py.len. repeat split; lia.
Qed.

End GenerateStats.

(** ** Loading metadata in [prepare_dataset.py] *)

Section LoadAllMetadata.
Import PrepareDataset.

Implicit Types (records unique : list (gmap string jval)) (seen : gset jval).

Lemma dedup_by_id_acc records seen unique :
  dedup_by_id records seen unique = unique ++ dedup_by_id records seen [].
Proof.
  revert seen unique.
  induction records as [|r rest IH]; intros seen unique; simpl.
  - by rewrite app_nil_r.
  - destruct (truthy (get_id r) && bool_decide (get_id r ∉ seen)); [|apply IH].
    rewrite (IH _ (unique ++ [r])), (IH _ [r]). by rewrite <- app_assoc.
Qed.

(** The two ways one iteration goes. *)
Lemma dedup_by_id_keep r rest seen :
  truthy (get_id r) = true → get_id r ∉ seen →
  dedup_by_id (r :: rest) seen []
  = r :: dedup_by_id rest ({[get_id r]} ∪ seen) [].
Proof.
  intros Ht Hin. simpl. rewrite Ht, bool_decide_eq_true_2 by done. simpl.
  by rewrite dedup_by_id_acc.
Qed.

Lemma dedup_by_id_drop r rest seen :
  truthy (get_id r) = false ∨ get_id r ∈ seen →
  dedup_by_id (r :: rest) seen [] = dedup_by_id rest seen [].
Proof.
  intros [Ht|Hin]; simpl.
  - by rewrite Ht.
  - rewrite bool_decide_eq_false_2 by (by intros Hn; apply Hn).
    by rewrite andb_false_r.
Qed.

Lemma dedup_by_id_cases r seen :
  (truthy (get_id r) = true ∧ get_id r ∉ seen)
  ∨ (truthy (get_id r) = false ∨ get_id r ∈ seen).
Proof.
  destruct (truthy (get_id r)); [|by right; left].
  destruct (decide (get_id r ∈ seen)); [by right; right|by left].
Qed.

Lemma dedup_by_id_kept records seen r :
  r ∈ dedup_by_id records seen [] →
  truthy (get_id r) = true ∧ get_id r ∉ seen.
Proof.
  revert seen. induction records as [|r0 rest IH]; intros seen.
  - simpl. by intros ?%elem_of_nil.
  - destruct (dedup_by_id_cases r0 seen) as [[Ht Hin]|Hdrop].
    + rewrite dedup_by_id_keep by done.
      intros [->|[Hr Hs]%IH]%elem_of_cons; [done|].
      split; [done|]. intros Hin'. apply Hs. apply elem_of_union. by right.
    + rewrite dedup_by_id_drop by done. apply IH.
Qed.

Lemma dedup_by_id_NoDup records seen :
  NoDup (get_id <$> dedup_by_id records seen []).
Proof.
  revert seen. induction records as [|r0 rest IH]; intros seen.
  - constructor.
  - destruct (dedup_by_id_cases r0 seen) as [[Ht Hin]|Hdrop].
    + rewrite dedup_by_id_keep by done. rewrite fmap_cons.
      constructor; [|apply IH].
      intros (r & Hk & [_ Hr]%dedup_by_id_kept)%list_elem_of_fmap.
      apply Hr. apply elem_of_union. left. by apply elem_of_singleton.
    + rewrite dedup_by_id_drop by done. apply IH.
Qed.

Lemma dedup_by_id_sublist records seen :
  dedup_by_id records seen [] `sublist_of` records.
Proof.
  revert seen. induction records as [|r0 rest IH]; intros seen.
  - constructor.
  - destruct (dedup_by_id_cases r0 seen) as [[Ht Hin]|Hdrop].
    + rewrite dedup_by_id_keep by done. by constructor.
    + rewrite dedup_by_id_drop by done. by constructor.
Qed.

Lemma dedup_by_id_first records seen k :
  truthy k = true →
  filter (λ r, get_id r = k) (dedup_by_id records seen [])
  = if decide (k ∈ seen) then []
    else option_list (head (filter (λ r, get_id r = k) records)).
Proof.
  intros Hk. revert seen. induction records as [|r0 rest IH]; intros seen.
  - simpl. by case_decide.
  - destruct (dedup_by_id_cases r0 seen) as [[Ht Hin]|Hdrop].
    + rewrite dedup_by_id_keep, filter_cons, IH by done.
      destruct (decide (get_id r0 = k)) as [<-|Hne].
      * rewrite filter_cons_True by done.
        rewrite decide_True; [|apply elem_of_union; left; by apply elem_of_singleton].
        by rewrite decide_False.
      * rewrite filter_cons_False by done.
        destruct (decide (k ∈ seen)).
        -- rewrite decide_True; [done|]. apply elem_of_union. by right.
        -- rewrite decide_False; [done|].
           intros [Hk'%elem_of_singleton|Hk']%elem_of_union; congruence.
    + rewrite dedup_by_id_drop, IH by done.
      case_decide; [done|].
      rewrite filter_cons_False; [done|].
      intros <-. destruct Hdrop; [congruence|done].
Qed.

(** C10: what [_load_all_metadata] returns, against the records loaded (in
    load order): a sub-sequence of them; every record in it has an ['id']
    that is present and not empty; no id occurs twice; and for every such
    id it is the first loaded record with that id that is kept. *)
Theorem load_all_metadata_by_id files :
  let loaded := load_records files [] in
  let unique := _load_all_metadata files in
  unique `sublist_of` loaded
  ∧ (∀ r, r ∈ unique → ∃ v, r !! "id" = Some v ∧ truthy v = true)
  ∧ (∀ r, r ∈ loaded → truthy (get_id r) = false → r ∉ unique)
  ∧ NoDup (get_id <$> unique)
  ∧ ∀ k, truthy k = true →
      filter (λ r, get_id r = k) unique
      = option_list (head (filter (λ r, get_id r = k) loaded)).
Proof.
  cbv zeta. unfold _load_all_metadata.
  split; [apply dedup_by_id_sublist|].
  split.
  { intros r [Ht _]%dedup_by_id_kept. unfold get_id in Ht.
    destruct (r !! "id") as [v|]; [by exists v|done]. }
  split.
  { intros r _ Hf [Ht _]%dedup_by_id_kept. congruence. }
  split; [apply dedup_by_id_NoDup|].
  intros k Hk. rewrite dedup_by_id_first by done.
  rewrite decide_False; [done|]. apply not_elem_of_empty.
Qed.

End LoadAllMetadata.

(** ** The rate limiter of [robust_collector.py] *)

Section RateLimit.
Import World RobustCollector.

Lemma Qlt_bool_true (a b : Q) : Qlt_bool a b = true ↔ (a < b)%Q.
Proof.
  unfold Qlt_bool. rewrite negb_true_iff. split.
  - intros Hf. destruct (Qlt_le_dec a b) as [Hlt|Hle]; [done|].
    apply Qle_bool_iff in Hle. congruence.
  - intros Hlt. apply not_true_is_false. intros Hle%Qle_bool_iff. lra.
Qed.

Lemma Qlt_bool_false (a b : Q) : Qlt_bool a b = false ↔ (b <= a)%Q.
Proof.
  unfold Qlt_bool. rewrite negb_false_iff. apply Qle_bool_iff.
Qed.

Lemma apis_set_api self api_name a : apis (set_api self api_name a) api_name = a.
Proof. by destruct api_name. Qed.

(** One call of the limiter: the entry keeps its limit, records the moment
    the call returns, and the call either slept until the window after the
    last call was over, or did not sleep at all. *)
Lemma wait_for_rate_limit_step api_name self w :
  let api := apis self api_name in
  let after := _wait_for_rate_limit api_name self w in
  let api' := apis after.1 api_name in
  let calls1 :=
    if Qlt_bool 60 (clock w - last_call api) then 0 else calls_this_minute api in
  rate_limit api' = rate_limit api
  ∧ last_call api' = clock after.2
  ∧ ((rate_limit api <= calls1
      ∧ (clock w < last_call api + 60)%Q
      ∧ (clock after.2 == last_call api + 60)%Q
      ∧ calls_this_minute api' = 1)
     ∨ ((calls1 < rate_limit api ∨ (last_call api + 60 <= clock w)%Q)
        ∧ clock after.2 = clock w
        ∧ calls_this_minute api' = calls1 + 1)).
Proof.
  cbv zeta. unfold _wait_for_rate_limit.
  set (calls1 := if Qlt_bool 60 _ then 0 else _).
  destruct (rate_limit (apis self api_name) <=? calls1) eqn:Hlim.
  - apply Z.leb_le in Hlim.
    destruct (Qlt_bool 0 (60 - (clock w - last_call (apis self api_name))))
      eqn:Hwait; simpl; rewrite apis_set_api; simpl.
    + apply Qlt_bool_true in Hwait.
      split; [done|]. split; [done|]. left. repeat split; [done|lra|lra].
    + apply Qlt_bool_false in Hwait.
      split; [done|]. split; [done|]. right. repeat split. right. lra.
  - apply Z.leb_gt in Hlim. simpl. rewrite apis_set_api. simpl.
    split; [done|]. split; [done|]. right. repeat split. by left.
Qed.

(** The clock never runs backwards through the limiter. *)
Lemma wait_for_rate_limit_clock api_name self w :
  (clock w <= clock (_wait_for_rate_limit api_name self w).2)%Q.
Proof.
  destruct (wait_for_rate_limit_step api_name self w)
    as (_ & _ & [(_ & Hlt & Heq & _)|(_ & Heq & _)]).
  - rewrite Heq. lra.
  - rewrite Heq. lra.
Qed.

Lemma burst_S n api_name self w :
  burst (S n) api_name self w
  = burst n api_name (_wait_for_rate_limit api_name self w).1
      (_wait_for_rate_limit api_name self w).2.
Proof. simpl. by destruct (_wait_for_rate_limit api_name self w). Qed.

Lemma burst_clock n api_name self w :
  (clock w <= clock (burst n api_name self w).2)%Q.
Proof.
  revert self w. induction n as [|n IH]; intros self w.
  - simpl. lra.
  - rewrite burst_S.
    pose proof (wait_for_rate_limit_clock api_name self w).
    pose proof (IH (_wait_for_rate_limit api_name self w).1
                   (_wait_for_rate_limit api_name self w).2).
    lra.
Qed.

(** A burst that starts at the very moment of the last call: either it has
    slept a whole window, or every call of it went through at once and the
    counter is still within the limit. *)
Lemma burst_from_last_call n api_name self w :
  (last_call (apis self api_name) == clock w)%Q →
  let after := burst n api_name self w in
  (clock w + 60 <= clock after.2)%Q
  ∨ ((clock after.2 == clock w)%Q
     ∧ calls_this_minute (apis after.1 api_name)
       = calls_this_minute (apis self api_name) + Z.of_nat n
     ∧ (n = 0%nat
        ∨ calls_this_minute (apis self api_name) + Z.of_nat n
          <= rate_limit (apis self api_name))).
Proof.
  revert self w. induction n as [|n IH]; intros self w Hsync; cbv zeta.
  - right. change (burst 0 api_name self w) with (self, w).
    split; [apply Qeq_refl|]. split; [simpl; lia|by left].
  - rewrite burst_S.
    destruct (wait_for_rate_limit_step api_name self w)
      as (Hlimit & Hlast & [(_ & _ & Hslept & _)|(Hroom & Hclock & Hcalls)]).
    + left.
      pose proof (burst_clock n api_name
                    (_wait_for_rate_limit api_name self w).1
                    (_wait_for_rate_limit api_name self w).2).
      lra.
    + assert (Qlt_bool 60 (clock w - last_call (apis self api_name)) = false)
        as Hreset by (apply Qlt_bool_false; lra).
      rewrite Hreset in Hroom, Hcalls.
      destruct Hroom as [Hroom|Hover]; [|lra].
      destruct (IH (_wait_for_rate_limit api_name self w).1
                   (_wait_for_rate_limit api_name self w).2)
        as [Hlate|(Hsame & Hcount & Hwithin)].
      * rewrite Hlast. lra.
      * left. rewrite Hclock in Hlate. exact Hlate.
      * right. rewrite Hclock in Hsame. rewrite Hcount, Hcalls, Hlimit in *.
        split; [exact Hsame|]. split; [lia|]. right.
        destruct Hwithin as [->|Hwithin]; lia.
Qed.

(** C3: with [rate_limit = N] for an API, a burst of [N + 1] calls of
    [_wait_for_rate_limit] for it, begun at time [t], returns from its last
    call no earlier than [t + 60]: the last request is held back for a whole
    window, and that moment is what the API's [last_call] records. *)
Theorem rate_limit_burst_waits_a_window api_name self w :
  1 <= rate_limit (apis self api_name) →
  0 <= calls_this_minute (apis self api_name) →
  let after :=
    burst (S (Z.to_nat (rate_limit (apis self api_name)))) api_name self w in
  (clock w + 60 <= clock after.2)%Q
  ∧ (clock w + 60 <= last_call (apis after.1 api_name))%Q.
Proof.
  intros Hlimit Hcalls. cbv zeta.
  set (N := rate_limit (apis self api_name)) in *.
  assert (clock w + 60 <= clock (burst (S (Z.to_nat N)) api_name self w).2)%Q
    as Hlate.
  { rewrite burst_S.
    destruct (wait_for_rate_limit_step api_name self w)
      as (Hlim & Hlast & Hstep).
    pose proof (wait_for_rate_limit_clock api_name self w) as Hmono.
    set (self1 := (_wait_for_rate_limit api_name self w).1) in *.
    set (w1 := (_wait_for_rate_limit api_name self w).2) in *.
    assert (1 <= calls_this_minute (apis self1 api_name)) as Hone.
    { destruct Hstep as [(_ & _ & _ & ->)|(_ & _ & ->)]; [lia|].
      destruct (Qlt_bool 60 _); lia. }
    destruct (burst_from_last_call (Z.to_nat N) api_name self1 w1)
      as [Hdone|(_ & _ & [Hzero|Hwithin])].
    - rewrite Hlast. lra.
    - lra.
    - fold N in Hlimit. lia.
    - rewrite Hlim in Hwithin. fold N in Hwithin. lia. }
  split; [exact Hlate|].
  rewrite burst_S in *.
  (* the last call of the burst stamps [last_call] with the clock *)
  assert (∀ n s v, last_call (apis (burst (S n) api_name s v).1 api_name)
                   = clock (burst (S n) api_name s v).2) as Hstamp.
  { induction n as [|n IH]; intros s v.
    - rewrite burst_S. simpl.
      by destruct (wait_for_rate_limit_step api_name s v) as (_ & -> & _).
    - rewrite burst_S. apply IH. }
  rewrite <- burst_S, Hstamp. rewrite burst_S. exact Hlate.
Qed.

(** The theorem at Hiro's entry of a new collector: 61 calls in a burst. *)
Lemma rate_limit_burst_waits_a_window_hiro :
  1 <= rate_limit (apis __init__ hiro)
  ∧ 0 <= calls_this_minute (apis __init__ hiro)
  ∧ (clock Samples.fresh_world + 60
     <= clock (burst 61 hiro __init__ Samples.fresh_world).2)%Q
  ∧ (clock Samples.fresh_world + 60
     <= last_call (apis (burst 61 hiro __init__ Samples.fresh_world).1 hiro))%Q.
Proof.
  assert (1 <= rate_limit (apis __init__ hiro)) as Hlimit by (simpl; lia).
  assert (0 <= calls_this_minute (apis __init__ hiro)) as Hcalls by (simpl; lia).
  split; [exact Hlimit|]. split; [exact Hcalls|].
  exact (rate_limit_burst_waits_a_window hiro __init__ Samples.fresh_world
           Hlimit Hcalls).
Defined.

(** Calls that start at the moment of the last call and stay within the
    limit all go through at once. *)
Lemma burst_within_limit n api_name self w :
  (last_call (apis self api_name) == clock w)%Q →
  calls_this_minute (apis self api_name) + Z.of_nat n
  <= rate_limit (apis self api_name) →
  let after := burst n api_name self w in
  clock after.2 = clock w
  ∧ calls_this_minute (apis after.1 api_name)
    = calls_this_minute (apis self api_name) + Z.of_nat n.
Proof.
  revert self w. induction n as [|n IH]; intros self w Hsync Hroom; cbv zeta.
  - simpl. split; [done|lia].
  - rewrite burst_S.
    destruct (wait_for_rate_limit_step api_name self w)
      as (Hlimit & Hlast & Hstep).
    assert (Qlt_bool 60 (clock w - last_call (apis self api_name)) = false)
      as Hreset by (apply Qlt_bool_false; lra).
    rewrite Hreset in Hstep.
    destruct Hstep as [(Hfull & _)|(_ & Hclock & Hcalls)]; [lia|].
    destruct (IH (_wait_for_rate_limit api_name self w).1
                 (_wait_for_rate_limit api_name self w).2) as [Hc Hn].
    + rewrite Hlast. apply Qeq_refl.
    + rewrite Hcalls, Hlimit. lia.
    + rewrite Hc, Hn, Hclock, Hcalls. split; [done|lia].
Qed.

(** The other side of the limiter: once the window after the last call is
    over, the counter starts anew, and a burst of up to [rate_limit] calls
    goes through without any wait. *)
Theorem burst_up_to_limit_is_immediate n api_name self w :
  (last_call (apis self api_name) + 60 < clock w)%Q →
  (1 <= n)%nat →
  Z.of_nat n <= rate_limit (apis self api_name) →
  let after := burst n api_name self w in
  clock after.2 = clock w
  ∧ calls_this_minute (apis after.1 api_name) = Z.of_nat n.
Proof.
  intros Hover Hn Hlimit. cbv zeta.
  destruct n as [|n]; [lia|]. rewrite burst_S.
  destruct (wait_for_rate_limit_step api_name self w)
    as (Hlim & Hlast & Hstep).
  assert (Qlt_bool 60 (clock w - last_call (apis self api_name)) = true)
    as Hreset by (apply Qlt_bool_true; lra).
  rewrite Hreset in Hstep.
  destruct Hstep as [(Hfull & _)|(_ & Hclock & Hcalls)]; [lia|].
  destruct (burst_within_limit n api_name
              (_wait_for_rate_limit api_name self w).1
              (_wait_for_rate_limit api_name self w).2) as [Hc Hcount].
  - rewrite Hlast. apply Qeq_refl.
  - rewrite Hcalls, Hlim. lia.
  - rewrite Hc, Hcount, Hclock, Hcalls. split; [done|lia].
Qed.

(** The theorem at Hiro's entry of a new collector: 60 calls at once. *)
Lemma burst_up_to_limit_is_immediate_hiro :
  clock (burst 60 hiro __init__ Samples.fresh_world).2
  = clock Samples.fresh_world
  ∧ calls_this_minute (apis (burst 60 hiro __init__ Samples.fresh_world).1 hiro)
    = 60.
Proof.
  apply (burst_up_to_limit_is_immediate 60 hiro __init__ Samples.fresh_world).
  - vm_compute. reflexivity.
  - lia.
  - simpl. lia.
Defined.

End RateLimit.

(** ** Text: appending, and the digits of a number *)

Section Text.

Lemma append_cons (a : ascii) (s t : string) :
  String a s +:+ t = String a (s +:+ t).
Proof. reflexivity. Qed.

Lemma append_assoc (s t u : string) : (s +:+ t) +:+ u = s +:+ (t +:+ u).
Proof.
  induction s as [|a s IH]; [reflexivity|].
  by rewrite !append_cons, IH.
Qed.

Lemma append_length (s t : string) :
  String.length (s +:+ t) = (String.length s + String.length t)%nat.
Proof.
  induction s as [|a s IH]; [reflexivity|].
  rewrite append_cons. cbn [String.length]. by rewrite IH.
Qed.

Lemma append_inj_r (a a' s : string) : a +:+ s = a' +:+ s → a = a'.
Proof.
  revert a'. induction a as [|c a IH]; intros [|c' a'] Heq.
  - reflexivity.
  - apply (f_equal String.length) in Heq.
    rewrite append_cons in Heq. cbn [String.length] in Heq.
    rewrite !append_length in Heq. cbn [String.length] in Heq. lia.
  - apply (f_equal String.length) in Heq.
    rewrite append_cons in Heq. cbn [String.length] in Heq.
    rewrite !append_length in Heq. cbn [String.length] in Heq. lia.
  - rewrite !append_cons in Heq. injection Heq as -> Heq.
    f_equal. by apply IH.
Qed.

Lemma pretty_N_go_append (x : N) (s : string) :
  pretty_N_go x s = pretty_N_go x "" +:+ s.
Proof.
  revert s. induction (N.lt_wf_0 x) as [x _ IH]; intros s.
  destruct (decide (x = 0)%N) as [->|Hx].
  { by rewrite !pretty_N_go_0. }
  rewrite !(pretty_N_go_step x) by lia.
  assert (x `div` 10 < x)%N as Hless by (apply N.div_lt; lia).
  rewrite (IH (x `div` 10)%N Hless),
    (IH (x `div` 10)%N Hless (String _ "")).
  by rewrite append_assoc.
Qed.

(** [str(n)] is never the empty text. *)
Lemma str_of_int_not_empty (n : Z) : ∃ c s, Py.str_of_int n = String c s.
Proof.
  assert (∀ p, ∃ c s, pretty (N.pos p) = String c s) as Hpos.
  { intros p. unfold pretty, pretty_N. rewrite decide_False by done.
    rewrite pretty_N_go_step, pretty_N_go_append by lia.
    destruct (pretty_N_go _ "") as [|c s]; by eexists _, _. }
  unfold Py.str_of_int. destruct n as [|p|p].
  - by exists "0"%char, "".
  - apply Hpos.
  - destruct (Hpos p) as (c & s & Hp).
    exists "-"%char, (String c s). unfold pretty, pretty_Z. fold (pretty p).
    unfold pretty at 1, pretty_positive. by rewrite Hp.
Qed.

(** A file name made of a stem that is not empty, an underscore and more
    is joined to its directory with a slash. *)
Lemma path_join_file_name (base stem more : string) :
  stem ≠ "" →
  Py.path_join base (stem +:+ "_" +:+ more)
  = base +:+ "/" +:+ stem +:+ "_" +:+ more.
Proof.
  intros Hstem. unfold Py.path_join. rewrite decide_False; [done|].
  destruct stem as [|c stem]; [done|]. rewrite append_cons.
  intros [Hname|Hname]; [discriminate|].
  injection Hname as _ Hrest. destruct stem; discriminate.
Qed.

End Text.

(** ** Saving content: [save_inscription] and [save_transaction] *)

Section Save.
Import World.

Lemma writes_app t1 t2 : writes (t1 ++ t2) = writes t1 ++ writes t2.
Proof. apply omap_app. Qed.

Lemma gets_app t1 t2 : gets (t1 ++ t2) = gets t1 ++ gets t2.
Proof. apply omap_app. Qed.

Lemma write_bytes_writes path content w :
  writes (trace (write_bytes path content w)) = writes (trace w) ++ [path].
Proof. unfold write_bytes. simpl. by rewrite writes_app. Qed.

Lemma write_bytes_again path content w :
  disk (write_bytes path content (write_bytes path content w))
  = disk (write_bytes path content w).
Proof. unfold write_bytes. simpl. apply insert_insert_eq. Qed.

(** [save_inscription] always writes, whatever is on the disk, and what it
    returns does not depend on the world. *)
Lemma save_inscription_writes sha insc content w :
  (RobustCollector.save_inscription sha insc content w).2
  = write_bytes
      (RobustCollector.local_path
         (RobustCollector.save_inscription sha insc content w).1)
      content w.
Proof. reflexivity. Qed.

Lemma save_inscription_record sha insc content w w' :
  (RobustCollector.save_inscription sha insc content w).1
  = (RobustCollector.save_inscription sha insc content w').1.
Proof. reflexivity. Qed.

(** So does [save_transaction], when it does not raise. *)
Lemma save_transaction_writes sha tx content w r w1 :
  ArweaveCollector.save_transaction sha tx content w = Some (r, w1) →
  w1 = write_bytes (ArweaveCollector.local_path r) content w
  ∧ ∀ w', ArweaveCollector.save_transaction sha tx content w'
          = Some (r, write_bytes (ArweaveCollector.local_path r) content w').
Proof.
  unfold ArweaveCollector.save_transaction. intros Hsave.
  apply bind_Some in Hsave as (tag_list & Htags & Hsave).
  apply bind_Some in Hsave as (data_type & Hdata & Hsave).
  apply bind_Some in Hsave as (content_type & Htype & Hsave).
  apply bind_Some in Hsave as (blk & Hblock & Hsave).
  injection Hsave as <- <-.
  split; [reflexivity|]. intros w'.
  apply bind_Some. exists tag_list. split; [exact Htags|].
  apply bind_Some. exists data_type. split; [exact Hdata|].
  apply bind_Some. exists content_type. split; [exact Htype|].
  apply bind_Some. exists blk. split; [exact Hblock|].
  reflexivity.
Qed.

(** The hash in a saved record depends on the content alone. *)
Lemma save_inscription_hash sha insc content w :
  RobustCollector.file_hash (RobustCollector.save_inscription sha insc content w).1
  = Py.slice_to 16 (sha content).
Proof. reflexivity. Qed.

Lemma save_transaction_hash sha tx content w r w1 :
  ArweaveCollector.save_transaction sha tx content w = Some (r, w1) →
  ArweaveCollector.file_hash r = Py.slice_to 16 (sha content).
Proof.
  unfold ArweaveCollector.save_transaction. intros Hsave.
  apply bind_Some in Hsave as (tag_list & Htags & Hsave).
  apply bind_Some in Hsave as (data_type & Hdata & Hsave).
  apply bind_Some in Hsave as (content_type & Htype & Hsave).
  apply bind_Some in Hsave as (blk & Hblock & Hsave).
  by injection Hsave as <- <-.
Qed.

(** Where [save_transaction] puts the file: the directory is named by the
    content type, the file by block height, hash and extension. *)
Lemma save_transaction_path sha tx content w r w1 :
  ArweaveCollector.save_transaction sha tx content w = Some (r, w1) →
  ArweaveCollector.local_path r
  = Py.path_join
      (Py.path_join ArweaveCollector.ARWEAVE_DIR
         (if Py.char_in "/" (ArweaveCollector.content_type r)
          then Py.split_head "/" (ArweaveCollector.content_type r)
          else "other"))
      (from_option Py.str_of_int "None" (ArweaveCollector.block_height r)
       +:+ "_" +:+ ArweaveCollector.file_hash r
       +:+ default ".bin"
             (ArweaveCollector.ext_map
                !! Py.split_head ";" (ArweaveCollector.content_type r))).
Proof.
  unfold ArweaveCollector.save_transaction. intros Hsave.
  apply bind_Some in Hsave as (tag_list & Htags & Hsave).
  apply bind_Some in Hsave as (data_type & Hdata & Hsave).
  apply bind_Some in Hsave as (content_type & Htype & Hsave).
  apply bind_Some in Hsave as (blk & Hblock & Hsave).
  by injection Hsave as <- <-.
Qed.

(** C2, as the code has it. Saving the same item with the same bytes twice
    returns the same record both times (same [file_hash], same
    [local_path]) and leaves the disk as the first call left it, but the
    file is written by both calls: neither function looks at the disk
    before it writes. The hash depends on the bytes alone, whatever the
    item. This holds for [save_inscription] and, whenever it does not
    raise, for [save_transaction]. The path is made of the inscription
    number (the block height), the content type and the hash, and not of
    the item's id: the same bytes saved for two inscriptions of one
    content type go to the same path exactly when the two have the same
    number, and the same bytes saved for two transactions of one content
    type and one block height go to the same path. *)
Theorem save_twice_same_record_two_writes sha insc tx content w r1 w1 :
  ArweaveCollector.save_transaction sha tx content w = Some (r1, w1) →
  let first := RobustCollector.save_inscription sha insc content w in
  let second := RobustCollector.save_inscription sha insc content first.2 in
  (second.1 = first.1
   ∧ disk second.2 = disk first.2
   ∧ writes (trace second.2)
     = writes (trace w)
       ++ [RobustCollector.local_path first.1; RobustCollector.local_path first.1])
  ∧ (∀ insc' w',
       RobustCollector.file_hash
         (RobustCollector.save_inscription sha insc' content w').1
       = RobustCollector.file_hash first.1)
  ∧ (∃ w2,
       ArweaveCollector.save_transaction sha tx content w1 = Some (r1, w2)
       ∧ disk w2 = disk w1
       ∧ writes (trace w2)
         = writes (trace w)
           ++ [ArweaveCollector.local_path r1; ArweaveCollector.local_path r1])
  ∧ (∀ tx' w' r' w'',
       ArweaveCollector.save_transaction sha tx' content w' = Some (r', w'') →
       ArweaveCollector.file_hash r' = ArweaveCollector.file_hash r1)
  ∧ (∀ insc' w',
       default "application/octet-stream"
         (RobustCollector.insc_content_type insc')
       = default "application/octet-stream"
           (RobustCollector.insc_content_type insc) →
       RobustCollector.local_path
         (RobustCollector.save_inscription sha insc' content w').1
       = RobustCollector.local_path first.1
       ↔ default 0 (RobustCollector.insc_number insc')
         = default 0 (RobustCollector.insc_number insc))
  ∧ (∀ tx' w' r' w'',
       ArweaveCollector.save_transaction sha tx' content w' = Some (r', w'') →
       ArweaveCollector.content_type r' = ArweaveCollector.content_type r1 →
       ArweaveCollector.block_height r' = ArweaveCollector.block_height r1 →
       ArweaveCollector.local_path r' = ArweaveCollector.local_path r1).
Proof.
  intros Hsave. cbv zeta. split; [|split; [|split; [|split; [|split]]]].
  - rewrite !save_inscription_writes.
    rewrite <- (save_inscription_record sha insc content w).
    split; [reflexivity|]. split; [apply write_bytes_again|].
    rewrite !write_bytes_writes. by rewrite <- app_assoc.
  - intros insc' w'. by rewrite !save_inscription_hash.
  - destruct (save_transaction_writes _ _ _ _ _ _ Hsave) as [-> Hany].
    eexists. split; [apply Hany|].
    split; [apply write_bytes_again|].
    rewrite !write_bytes_writes. by rewrite <- app_assoc.
  - intros tx' w' r' w'' Hsave'.
    rewrite (save_transaction_hash _ _ _ _ _ _ Hsave).
    by rewrite (save_transaction_hash _ _ _ _ _ _ Hsave').
  - intros insc' w' Htype. unfold RobustCollector.save_inscription.
    cbn [fst RobustCollector.local_path]. rewrite Htype.
    destruct (str_of_int_not_empty
                (default 0 (RobustCollector.insc_number insc)))
      as (c & s & Hnumber).
    destruct (str_of_int_not_empty
                (default 0 (RobustCollector.insc_number insc')))
      as (c' & s' & Hnumber').
    rewrite !path_join_file_name by (by rewrite ?Hnumber, ?Hnumber').
    split.
    + intros Hpath.
      do 2 apply (inj (append _)) in Hpath.
      apply append_inj_r in Hpath. by apply (inj pretty) in Hpath.
    + by intros ->.
  - intros tx' w' r' w'' Hsave' Htype Hheight.
    rewrite (save_transaction_path _ _ _ _ _ _ Hsave),
      (save_transaction_path _ _ _ _ _ _ Hsave').
    rewrite (save_transaction_hash _ _ _ _ _ _ Hsave),
      (save_transaction_hash _ _ _ _ _ _ Hsave').
    by rewrite Htype, Hheight.
Qed.

(** The theorem at a PNG saved as inscription 7 and as a mined
    transaction. *)
Lemma save_twice_same_record_two_writes_png :
  ∃ r1 w1,
    ArweaveCollector.save_transaction Samples.toy_hexdigest Samples.png_tx
      Samples.png_bytes Samples.fresh_world = Some (r1, w1)
    ∧ (∃ w2,
         ArweaveCollector.save_transaction Samples.toy_hexdigest Samples.png_tx
           Samples.png_bytes w1 = Some (r1, w2)
         ∧ disk w2 = disk w1
         ∧ writes (trace w2)
           = writes (trace Samples.fresh_world)
             ++ [ArweaveCollector.local_path r1; ArweaveCollector.local_path r1]).
Proof.
  assert (∃ r1 w1,
            ArweaveCollector.save_transaction Samples.toy_hexdigest
              Samples.png_tx Samples.png_bytes Samples.fresh_world
            = Some (r1, w1)) as (r1 & w1 & Hsave).
  { eexists _, _. reflexivity. }
  exists r1, w1. split; [exact Hsave|].
  exact (proj1 (proj2 (proj2
           (save_twice_same_record_two_writes Samples.toy_hexdigest
              Samples.inscription_7 Samples.png_tx Samples.png_bytes
              Samples.fresh_world r1 w1 Hsave)))).
Defined.

(** C2, as the claim states it, fails, whatever the digest. The same bytes
    saved twice for the same inscription are written twice; and the same
    bytes saved for inscriptions 7 and 8 get two paths, since the file
    name starts with the inscription number. *)
Lemma save_twice_is_two_writes :
  (∀ sha,
     let first :=
       RobustCollector.save_inscription sha Samples.inscription_7
         Samples.png_bytes Samples.fresh_world in
     let second :=
       RobustCollector.save_inscription sha Samples.inscription_7
         Samples.png_bytes first.2 in
     writes (trace second.2)
     = [RobustCollector.local_path first.1; RobustCollector.local_path first.1])
  ∧ (∀ sha,
       RobustCollector.local_path
         (RobustCollector.save_inscription sha Samples.inscription_7
            Samples.png_bytes Samples.fresh_world).1
       ≠ RobustCollector.local_path
           (RobustCollector.save_inscription sha Samples.inscription_8
              Samples.png_bytes Samples.fresh_world).1).
Proof.
  split.
  - intros sha. cbv zeta. rewrite !save_inscription_writes.
    rewrite <- (save_inscription_record sha _ _ Samples.fresh_world).
    rewrite !write_bytes_writes. reflexivity.
  - intros sha Heq.
    (* the two paths part at the first character of the file name *)
    apply (f_equal (String.get 73)) in Heq.
    vm_compute in Heq. discriminate Heq.
Qed.

End Save.

(** ** Endpoint fallback: [fetch_with_fallback] and [fetch_content] *)

Section Fallback.
Import World.

Lemma gets_emit_get url params w :
  gets (trace (emit (HttpGet url params) w)) = gets (trace w) ++ [url].
Proof. unfold emit. simpl. by rewrite gets_app. Qed.

(** The limiter talks to no server. *)
Lemma wait_for_rate_limit_gets api_name self w :
  gets (trace (RobustCollector._wait_for_rate_limit api_name self w).2)
  = gets (trace w).
Proof.
  unfold RobustCollector._wait_for_rate_limit.
  destruct (_ <=? _); [|done].
  destruct (Qlt_bool 0 _); [|done].
  unfold sleep, print, advance, emit. simpl.
  rewrite !gets_app. simpl. by rewrite !app_nil_r.
Qed.

Lemma wait_for_rate_limit_base api_name self w :
  RobustCollector.base
    (RobustCollector.apis
       (RobustCollector._wait_for_rate_limit api_name self w).1
       RobustCollector.hiro)
  = RobustCollector.base (RobustCollector.apis self RobustCollector.hiro).
Proof.
  unfold RobustCollector._wait_for_rate_limit.
  destruct (_ <=? _); [destruct (Qlt_bool 0 _)|]; by destruct api_name.
Qed.

Section Servers.
Variable http_get : nat → string → HttpResult.
Variable latency : nat → Q.

(** One call of [get_content] is one request, whatever comes back. *)
Lemma get_content_gets url w :
  gets (trace (RobustCollector.get_content http_get latency url w).2)
  = gets (trace w) ++ [url].
Proof.
  unfold RobustCollector.get_content.
  destruct (http_get _ _) as [status_code content|e];
    [destruct (status_raises status_code)|]; simpl; by rewrite gets_app.
Qed.

(** What [get_content] returns: the body of a response whose status does
    not raise, and [None] for every exception, timeouts included. *)
Lemma get_content_result url w :
  (RobustCollector.get_content http_get latency url w).1
  = match http_get (length (trace w)) url with
    | Response status_code content =>
        if status_raises status_code then None else Some content
    | Raised _ => None
    end.
Proof.
  unfold RobustCollector.get_content.
  destruct (http_get _ _) as [status_code content|e];
    [destruct (status_raises status_code)|]; reflexivity.
Qed.

Lemma fetch_content_hiro_gets inscription_id self w :
  gets (trace
          (RobustCollector.fetch_content_hiro http_get latency
             inscription_id self w).2)
  = gets (trace w) ++ [RobustCollector.hiro_url self inscription_id].
Proof.
  unfold RobustCollector.fetch_content_hiro.
  pose proof (wait_for_rate_limit_gets RobustCollector.hiro self w) as Hgets.
  pose proof (wait_for_rate_limit_base RobustCollector.hiro self w) as Hbase.
  destruct (RobustCollector._wait_for_rate_limit _ self w) as [self1 w1].
  cbn [fst snd] in Hgets, Hbase.
  pose proof (get_content_gets
                (RobustCollector.hiro_url self1 inscription_id) w1) as Hone.
  destruct (RobustCollector.get_content _ _ _ w1) as [content w2].
  cbn [fst snd] in *. rewrite Hone, Hgets. unfold RobustCollector.hiro_url.
  by rewrite Hbase.
Qed.

Lemma fetch_content_ordinals_com_gets inscription_id w :
  gets (trace
          (RobustCollector.fetch_content_ordinals_com http_get latency
             inscription_id w).2)
  = gets (trace w) ++ [RobustCollector.ordinals_com_url inscription_id].
Proof. apply get_content_gets. Qed.

(** [fetch_with_fallback] asks ordinals.com once and, unless that gave a
    body that is not empty, Hiro once. *)
Lemma fetch_with_fallback_gets inscription_id self w :
  let after :=
    RobustCollector.fetch_with_fallback http_get latency inscription_id self w in
  let first :=
    (RobustCollector.fetch_content_ordinals_com http_get latency
       inscription_id w).1 in
  gets (trace after.2)
  = gets (trace w)
    ++ if RobustCollector.has_content first
       then [RobustCollector.ordinals_com_url inscription_id]
       else [RobustCollector.ordinals_com_url inscription_id;
             RobustCollector.hiro_url self inscription_id].
Proof.
  cbv zeta. unfold RobustCollector.fetch_with_fallback.
  pose proof (fetch_content_ordinals_com_gets inscription_id w) as Hfirst.
  destruct (RobustCollector.fetch_content_ordinals_com _ _ _ w)
    as [content w1].
  simpl in Hfirst. simpl.
  destruct (RobustCollector.has_content content); [exact Hfirst|].
  pose proof (fetch_content_hiro_gets inscription_id self w1) as Hsecond.
  destruct (RobustCollector.fetch_content_hiro _ _ _ self w1)
    as [[content2 self2] w2].
  simpl in Hsecond.
  assert (gets (trace w2)
          = gets (trace w)
            ++ [RobustCollector.ordinals_com_url inscription_id;
                RobustCollector.hiro_url self inscription_id])
    as Hboth
    by (rewrite Hsecond, Hfirst; by rewrite <- app_assoc).
  by destruct (RobustCollector.has_content content2).
Qed.

(** When ordinals.com raises, the next request is Hiro's. *)
Lemma fetch_with_fallback_gets_raised inscription_id self w e :
  http_get (length (trace w))
    (RobustCollector.ordinals_com_url inscription_id) = Raised e →
  gets (trace
          (RobustCollector.fetch_with_fallback http_get latency
             inscription_id self w).2)
  = gets (trace w)
    ++ [RobustCollector.ordinals_com_url inscription_id;
        RobustCollector.hiro_url self inscription_id].
Proof.
  intros Hraised. rewrite fetch_with_fallback_gets.
  unfold RobustCollector.fetch_content_ordinals_com.
  rewrite get_content_result. by rewrite Hraised.
Qed.

(** The gateways [fetch_content] asks are a prefix of the list it was
    given, each asked once, and all of them when it returns [None]. *)
Lemma fetch_content_from_gets gws tx_id w :
  let after := ArweaveCollector.fetch_content_from http_get latency gws tx_id w in
  ∃ k,
    (k <= length gws)%nat
    ∧ gets (trace after.2)
      = gets (trace w) ++ (ArweaveCollector.gateway_url tx_id <$> take k gws)
    ∧ (after.1 = None → k = length gws).
Proof.
  cbv zeta. revert w. induction gws as [|gateway rest IH]; intros w.
  - exists 0%nat. simpl. by rewrite app_nil_r.
  - simpl.
    set (w1 := advance _ (emit (HttpGet (ArweaveCollector.gateway_url tx_id gateway) []) w)).
    assert (gets (trace w1)
            = gets (trace w) ++ [ArweaveCollector.gateway_url tx_id gateway])
      as Hw1 by apply gets_emit_get.
    destruct (IH w1) as (k & Hk & Hgets & Hnone).
    assert (∃ k',
      (k' <= S (length rest))%nat
      ∧ gets (trace (ArweaveCollector.fetch_content_from http_get latency
                       rest tx_id w1).2)
        = gets (trace w) ++ (ArweaveCollector.gateway_url tx_id <$> take k' (gateway :: rest))
      ∧ ((ArweaveCollector.fetch_content_from http_get latency
            rest tx_id w1).1 = None → k' = S (length rest))) as Hnext.
    { exists (S k). split; [lia|]. split.
      - rewrite Hgets, Hw1. simpl. by rewrite <- app_assoc.
      - intros Hn. by rewrite (Hnone Hn). }
    destruct (http_get (length (trace w))
                (ArweaveCollector.gateway_url tx_id gateway))
      as [status_code content|e]; [|exact Hnext].
    destruct (status_code =? 200); [|exact Hnext].
    exists 1%nat. split; [simpl; lia|]. split; [|done].
    cbn [fst snd]. rewrite Hw1. reflexivity.
Qed.

(** What [fetch_content_hiro] returns is what [get_content] made of the
    answer to its one request, sent once the limiter let it through. *)
Lemma fetch_content_hiro_result inscription_id self w :
  let ready := RobustCollector._wait_for_rate_limit RobustCollector.hiro self w in
  (RobustCollector.fetch_content_hiro http_get latency inscription_id self w).1.1
  = (RobustCollector.get_content http_get latency
       (RobustCollector.hiro_url ready.1 inscription_id) ready.2).1.
Proof.
  cbv zeta. unfold RobustCollector.fetch_content_hiro.
  destruct (RobustCollector._wait_for_rate_limit _ self w) as [self1 w1].
  cbn [fst snd].
  by destruct (RobustCollector.get_content _ _ _ w1) as [content w2].
Qed.


(** The scenario of C4 on both paths: the first endpoint always errors and
    the second always answers with a body. The fetch asks the first, then
    the second, and returns the body of the second. (For
    [fetch_with_fallback] the body must not be empty.) *)
Theorem fallback_resolves_via_second_endpoint
    inscription_id tx_id self w body :
  (∀ n, ∃ e,
     http_get n (RobustCollector.ordinals_com_url inscription_id) = Raised e) →
  (∀ n,
     http_get n (RobustCollector.hiro_url self inscription_id)
     = Response 200 body) →
  (∀ n, ∃ e,
     http_get n (ArweaveCollector.gateway_url tx_id "https://arweave.net")
     = Raised e) →
  (∀ n,
     http_get n (ArweaveCollector.gateway_url tx_id "https://ar-io.net")
     = Response 200 body) →
  body ≠ [] →
  let after :=
    RobustCollector.fetch_with_fallback http_get latency inscription_id self w in
  let by_gateways := ArweaveCollector.fetch_content http_get latency tx_id w in
  after.1.1 = Some body
  ∧ gets (trace after.2)
    = gets (trace w)
      ++ [RobustCollector.ordinals_com_url inscription_id;
          RobustCollector.hiro_url self inscription_id]
  ∧ by_gateways.1 = Some body
  ∧ gets (trace by_gateways.2)
    = gets (trace w)
      ++ [ArweaveCollector.gateway_url tx_id "https://arweave.net";
          ArweaveCollector.gateway_url tx_id "https://ar-io.net"].
Proof.
  intros Hfirst Hsecond Hgw1 Hgw2 Hbody. cbv zeta.
  destruct (Hfirst (length (trace w))) as [e He].
  split; [|split].
  - unfold RobustCollector.fetch_with_fallback,
      RobustCollector.fetch_content_ordinals_com.
    pose proof (get_content_result
                  (RobustCollector.ordinals_com_url inscription_id) w) as Hres.
    rewrite He in Hres.
    destruct (RobustCollector.get_content _ _ _ w) as [content w1].
    cbn [fst] in Hres. subst content. cbn [RobustCollector.has_content].
    pose proof (fetch_content_hiro_result inscription_id self w1) as Hhiro.
    cbv zeta in Hhiro. rewrite get_content_result in Hhiro.
    unfold RobustCollector.hiro_url in Hhiro.
    rewrite wait_for_rate_limit_base in Hhiro.
    fold (RobustCollector.hiro_url self inscription_id) in Hhiro.
    rewrite Hsecond in Hhiro. cbn in Hhiro.
    destruct (RobustCollector.fetch_content_hiro _ _ _ self w1)
      as [[content2 self2] w2].
    cbn [fst] in Hhiro. subst content2.
    destruct body; [done|reflexivity].
  - exact (fetch_with_fallback_gets_raised inscription_id self w e He).
  - unfold ArweaveCollector.fetch_content, ArweaveCollector.gateways.
    cbn [ArweaveCollector.fetch_content_from].
    destruct (Hgw1 (length (trace w))) as [e1 ->].
    rewrite Hgw2. cbn [fst snd Z.eqb Pos.eqb].
    split; [reflexivity|]. unfold advance, emit. cbn [trace].
    rewrite !gets_app. cbn. by rewrite <- app_assoc.
Qed.

End Servers.

(** The theorem at servers where ordinals.com and arweave.net are down. *)
Lemma fallback_resolves_via_second_endpoint_down :
  (RobustCollector.fetch_with_fallback Samples.endpoints_down
     Samples.no_latency "a1b2c3i0" RobustCollector.__init__
     Samples.fresh_world).1.1 = Some Samples.y_bytes
  ∧ gets (trace
            (RobustCollector.fetch_with_fallback Samples.endpoints_down
               Samples.no_latency "a1b2c3i0" RobustCollector.__init__
               Samples.fresh_world).2)
    = gets (trace Samples.fresh_world)
      ++ [RobustCollector.ordinals_com_url "a1b2c3i0";
          RobustCollector.hiro_url RobustCollector.__init__ "a1b2c3i0"]
  ∧ (ArweaveCollector.fetch_content Samples.endpoints_down Samples.no_latency
       "bNbA3TEQVL60xlgCcqdz4ZPHFZ711cZ3hmkpGttDt_U" Samples.fresh_world).1
    = Some Samples.y_bytes
  ∧ gets (trace
            (ArweaveCollector.fetch_content Samples.endpoints_down
               Samples.no_latency "bNbA3TEQVL60xlgCcqdz4ZPHFZ711cZ3hmkpGttDt_U"
               Samples.fresh_world).2)
    = gets (trace Samples.fresh_world)
      ++ [ArweaveCollector.gateway_url
            "bNbA3TEQVL60xlgCcqdz4ZPHFZ711cZ3hmkpGttDt_U" "https://arweave.net";
          ArweaveCollector.gateway_url
            "bNbA3TEQVL60xlgCcqdz4ZPHFZ711cZ3hmkpGttDt_U" "https://ar-io.net"].
Proof.
  apply (fallback_resolves_via_second_endpoint Samples.endpoints_down
           Samples.no_latency "a1b2c3i0"
           "bNbA3TEQVL60xlgCcqdz4ZPHFZ711cZ3hmkpGttDt_U"
           RobustCollector.__init__ Samples.fresh_world Samples.y_bytes).
  - intros n. exists ConnectionReset. reflexivity.
  - intros n. reflexivity.
  - intros n. exists ConnectionReset. reflexivity.
  - intros n. reflexivity.
  - discriminate.
Defined.


(** C4 does not hold of [fetch_content]: the first gateway answers 200 with
    an empty body, the second has the content, and [fetch_content] returns
    the empty body without asking the second. [fetch_with_fallback], faced
    with the same answers, goes on to Hiro. *)
Lemma fetch_content_stops_at_empty_answer :
  (ArweaveCollector.fetch_content Samples.arweave_net_empty Samples.no_latency
     "bNbA3TEQVL60xlgCcqdz4ZPHFZ711cZ3hmkpGttDt_U" Samples.fresh_world).1
  = Some []
  ∧ gets (trace
            (ArweaveCollector.fetch_content Samples.arweave_net_empty
               Samples.no_latency "bNbA3TEQVL60xlgCcqdz4ZPHFZ711cZ3hmkpGttDt_U"
               Samples.fresh_world).2)
    = ["https://arweave.net/bNbA3TEQVL60xlgCcqdz4ZPHFZ711cZ3hmkpGttDt_U"]
  ∧ (∀ n, Samples.arweave_net_empty n
            "https://ar-io.net/bNbA3TEQVL60xlgCcqdz4ZPHFZ711cZ3hmkpGttDt_U"
          = Response 200 Samples.y_bytes)
  ∧ (RobustCollector.fetch_with_fallback Samples.ordinals_empty
       Samples.no_latency "a1b2c3i0" RobustCollector.__init__
       Samples.fresh_world).1.1 = Some Samples.y_bytes.
Proof.
  split; [vm_compute; reflexivity|].
  split; [vm_compute; reflexivity|].
  split; [intros n; vm_compute; reflexivity|].
  vm_compute; reflexivity.
Qed.

End Fallback.

(** ** Oversized transactions in [collect_by_type] *)

Section Oversized.
Import World ArweaveCollector.

Lemma gets_print line w : gets (trace (print line w)) = gets (trace w).
Proof. unfold print, emit. simpl. rewrite gets_app. apply app_nil_r. Qed.

Lemma gets_sleep seconds w : gets (trace (sleep seconds w)) = gets (trace w).
Proof. unfold sleep, advance, emit. simpl. rewrite gets_app. apply app_nil_r. Qed.

Lemma gets_write_bytes path content w :
  gets (trace (write_bytes path content w)) = gets (trace w).
Proof. unfold write_bytes, emit. simpl. rewrite gets_app. apply app_nil_r. Qed.

Section Servers.
Variable http_get : nat → string → HttpResult.
Variable graphql : nat → string → Z → Failure + list Transaction.
Variable latency : nat → Q.
Variable sha256_hexdigest : Py.bytes → string.

Lemma save_transaction_id tx content w r w1 :
  save_transaction sha256_hexdigest tx content w = Some (r, w1) →
  id r = tx_id tx.
Proof.
  unfold save_transaction. intros Hsave.
  apply bind_Some in Hsave as (tag_list & Htags & Hsave).
  apply bind_Some in Hsave as (data_type & Hdata & Hsave).
  apply bind_Some in Hsave as (content_type & Htype & Hsave).
  apply bind_Some in Hsave as (blk & Hblock & Hsave).
  by injection Hsave as <- <-.
Qed.

(** What one pass through the body of the loop adds: requests to gateways
    for this transaction, and at most a record of it. *)
Lemma collect_one_adds tx records w :
  let after := collect_one http_get latency sha256_hexdigest tx records w in
  ∃ k new_records,
    gets (trace after.2)
    = gets (trace w) ++ (gateway_url (tx_id tx) <$> take k gateways)
    ∧ after.1 = records ++ new_records
    ∧ Forall (λ r, id r = tx_id tx) new_records.
Proof.
  cbv zeta. unfold collect_one, fetch_content.
  destruct (fetch_content_from_gets http_get latency gateways (tx_id tx) w)
    as (k & _ & Hgets & _).
  destruct (fetch_content_from http_get latency gateways (tx_id tx) w)
    as [content w1].
  cbn [fst snd] in Hgets. exists k.
  destruct content as [[|b body]|].
  - exists []. cbn [fst snd]. rewrite gets_sleep, gets_print, app_nil_r. done.
  - destruct (save_transaction sha256_hexdigest tx (b :: body) w1)
      as [[record w2]|] eqn:Hsave.
    + exists [record]. cbn [fst snd]. rewrite gets_sleep, gets_print.
      destruct (save_transaction_writes _ _ _ _ _ _ Hsave) as [-> _].
      rewrite gets_write_bytes. split; [done|]. split; [done|].
      constructor; [|constructor]. by eapply save_transaction_id.
    + exists []. cbn [fst snd]. rewrite gets_print, app_nil_r. done.
  - exists []. cbn [fst snd]. rewrite gets_sleep, gets_print, app_nil_r. done.
Qed.

(** Through the whole loop: every request goes to a gateway for a listed
    transaction that passed the size test, and every record is of such a
    transaction. *)
Lemma collect_each_only_proceeding txs count records w :
  let after :=
    collect_each http_get latency sha256_hexdigest txs count records w in
  ∃ new_urls new_records,
    gets (trace after.2) = gets (trace w) ++ new_urls
    ∧ after.1 = records ++ new_records
    ∧ Forall (λ url, ∃ tx gateway,
                tx ∈ txs ∧ size_verdict tx = Proceed
                ∧ gateway ∈ gateways
                ∧ url = gateway_url (tx_id tx) gateway) new_urls
    ∧ Forall (λ r, ∃ tx,
                tx ∈ txs ∧ size_verdict tx = Proceed ∧ id r = tx_id tx)
        new_records.
Proof.
  cbv zeta. revert records w.
  induction txs as [|tx rest IH]; intros records w.
  - exists [], []. simpl. by rewrite !app_nil_r.
  - assert (∀ records1 w1 urls1 recs1,
      gets (trace w1) = gets (trace w) ++ urls1 →
      records1 = records ++ recs1 →
      Forall (λ url, ∃ tx0 gateway,
                tx0 ∈ tx :: rest ∧ size_verdict tx0 = Proceed
                ∧ gateway ∈ gateways
                ∧ url = gateway_url (tx_id tx0) gateway) urls1 →
      Forall (λ r, ∃ tx0,
                tx0 ∈ tx :: rest ∧ size_verdict tx0 = Proceed
                ∧ id r = tx_id tx0) recs1 →
      ∃ new_urls new_records,
        gets (trace (collect_each http_get latency sha256_hexdigest rest
                       count records1 w1).2)
        = gets (trace w) ++ new_urls
        ∧ (collect_each http_get latency sha256_hexdigest rest
             count records1 w1).1 = records ++ new_records
        ∧ Forall (λ url, ∃ tx0 gateway,
                    tx0 ∈ tx :: rest ∧ size_verdict tx0 = Proceed
                    ∧ gateway ∈ gateways
                    ∧ url = gateway_url (tx_id tx0) gateway) new_urls
        ∧ Forall (λ r, ∃ tx0,
                    tx0 ∈ tx :: rest ∧ size_verdict tx0 = Proceed
                    ∧ id r = tx_id tx0) new_records) as Hrest.
    { intros records1 w1 urls1 recs1 Hurls Hrecs Hfu Hfr.
      destruct (IH records1 w1) as (urls2 & recs2 & Hg & Hr & Hu2 & Hr2).
      exists (urls1 ++ urls2), (recs1 ++ recs2).
      rewrite Hg, Hr, Hurls, Hrecs, <- !app_assoc.
      split; [done|]. split; [done|]. split.
      - apply Forall_app. split; [done|].
        eapply Forall_impl; [exact Hu2|].
        intros url (tx0 & gateway & Hin & Hrestof). exists tx0, gateway.
        split; [by apply elem_of_cons; right|done].
      - apply Forall_app. split; [done|].
        eapply Forall_impl; [exact Hr2|].
        intros r (tx0 & Hin & Hrestof). exists tx0.
        split; [by apply elem_of_cons; right|done]. }
    cbn [collect_each]. destruct (size_verdict tx) as [n| |] eqn:Hverdict.
    + apply (Hrest records _ [] []); [|by rewrite app_nil_r|constructor..].
      by rewrite gets_print, app_nil_r.
    + destruct (collect_one_adds tx records w)
        as (k & recs1 & Hgets & Hrecs & Hids).
      destruct (collect_one http_get latency sha256_hexdigest tx records w)
        as [records1 w1].
      cbn [fst snd] in Hgets, Hrecs.
      assert (Forall (λ url, ∃ tx0 gateway,
                tx0 ∈ tx :: rest ∧ size_verdict tx0 = Proceed
                ∧ gateway ∈ gateways
                ∧ url = gateway_url (tx_id tx0) gateway)
              (gateway_url (tx_id tx) <$> take k gateways)) as Hfu.
      { apply Forall_fmap, Forall_forall. intros gateway Hin.
        exists tx, gateway. split; [by apply elem_of_cons; left|].
        split; [done|]. split; [|done]. by eapply subseteq_take. }
      assert (Forall (λ r, ∃ tx0,
                tx0 ∈ tx :: rest ∧ size_verdict tx0 = Proceed
                ∧ id r = tx_id tx0) recs1) as Hfr.
      { eapply Forall_impl; [exact Hids|]. intros r Hid. exists tx.
        split; [by apply elem_of_cons; left|done]. }
      destruct (count <=? Py.len records1).
      * eexists _, recs1. cbn [fst snd]. done.
      * by eapply Hrest.
    + destruct (count <=? Py.len records).
      * exists [], []. cbn [fst snd].
        rewrite gets_print, !app_nil_r. done.
      * apply (Hrest records _ [] []); [|by rewrite app_nil_r|constructor..].
        by rewrite gets_print, app_nil_r.
Qed.

(** C7, as the code has it. A transaction whose declared size reads as a
    number above 1,000,000 is skipped by [continue] before anything is
    fetched: the step for it adds one console line and nothing else, no
    request, no file, no record. Over a whole run of [collect_by_type],
    every request to a gateway and every record returned belongs to a
    listed transaction that passed the size test. *)
Theorem oversized_is_skipped_without_record content_type count w :
  let listing :=
    search_by_content_type graphql latency content_type (count * 2)
      (print (LHeader content_type count) w) in
  let listed := match listing.1 with inr txs => txs | inl _ => [] end in
  let after :=
    collect_by_type http_get graphql latency sha256_hexdigest
      content_type count w in
  (∀ tx rest records v n,
     size_verdict tx = TooLarge n →
     collect_each http_get latency sha256_hexdigest (tx :: rest) count records v
     = collect_each http_get latency sha256_hexdigest rest count records
         (print (LSkipping (Py.slice_to 16 (tx_id tx)) n) v))
  ∧ (∃ new_urls,
       gets (trace after.2) = gets (trace w) ++ new_urls
       ∧ Forall (λ url, ∃ tx gateway,
                   tx ∈ listed ∧ size_verdict tx = Proceed
                   ∧ gateway ∈ gateways
                   ∧ url = gateway_url (tx_id tx) gateway) new_urls)
  ∧ Forall (λ r, ∃ tx,
              tx ∈ listed ∧ size_verdict tx = Proceed ∧ id r = tx_id tx)
      after.1.
Proof.
  cbv zeta. split.
  { intros tx rest records v n Hverdict. cbn [collect_each].
    by rewrite Hverdict. }
  unfold collect_by_type, search_by_content_type. cbn [fst snd].
  set (w0 := print (LHeader content_type count) w).
  set (w1 := advance _ (emit (HttpPost _ _) w0)).
  assert (gets (trace w1) = gets (trace w)) as Hw1.
  { unfold w1, w0, advance, emit, print, emit. simpl.
    rewrite !gets_app. simpl. by rewrite !app_nil_r. }
  destruct (graphql (length (trace w0)) content_type (count * 2))
    as [e|transactions].
  - cbn [fst snd]. split; [|constructor].
    exists []. rewrite !gets_print, app_nil_r. split; [done|constructor].
  - destruct (collect_each_only_proceeding
                (Py.list_slice_to count transactions) count []
                (print (LFound (Py.len transactions)) w1))
      as (urls & recs & Hgets & Hrecs & Hfu & Hfr).
    destruct (collect_each _ _ _ _ _ _ _) as [records w2].
    cbn [fst snd] in *.
    assert (∀ tx, tx ∈ Py.list_slice_to count transactions → tx ∈ transactions)
      as Hslice.
    { intros tx. unfold Py.list_slice_to.
      destruct (0 <=? count); apply subseteq_take. }
    split.
    + exists urls. rewrite gets_print, Hgets, gets_print, Hw1.
      split; [done|]. eapply Forall_impl; [exact Hfu|].
      intros url (tx & gateway & Hin & Hrestof). exists tx, gateway.
      split; [by apply Hslice|done].
    + rewrite Hrecs. simpl. eapply Forall_impl; [exact Hfr|].
      intros r (tx & Hin & Hrestof). exists tx.
      split; [by apply Hslice|done].
Qed.

End Servers.

(** C7, as the claim states it, fails. The listing holds one transaction,
    which declares 2,000,000 bytes: [collect_by_type] sends no request to a
    gateway, and returns no record for it; all there is of the skip is a
    line on the console. *)
Lemma oversized_leaves_no_outcome :
  size_verdict Samples.big_tx = TooLarge 2000000
  ∧ (collect_by_type Samples.serves_png Samples.lists_big_tx
       Samples.no_latency Samples.toy_hexdigest "image/png" 5
       Samples.fresh_world).1 = []
  ∧ trace (collect_by_type Samples.serves_png Samples.lists_big_tx
             Samples.no_latency Samples.toy_hexdigest "image/png" 5
             Samples.fresh_world).2
    = [(1762180000%Q, Printed (LHeader "image/png" 5));
       (1762180000%Q,
        HttpPost "https://arweave.net/graphql"
          [("contentType", "image/png"); ("first", "10")]);
       (1762180000%Q, Printed (LFound 1));
       (1762180000%Q, Printed (LSkipping "Kx3yQ0cT9lH2mVb7" 2000000));
       (1762180000%Q, Printed (LCollected 0 "image/png"))].
Proof.
  split; [vm_compute; reflexivity|].
  split; vm_compute; reflexivity.
Qed.

End Oversized.

(** ** The deadline of [overnight_collect.py] *)

Section Deadline.
Import World.

Lemma extends_refl P w : extends P w w.
Proof. exists []. by rewrite app_nil_r. Qed.

Lemma extends_trans P w1 w2 w3 :
  extends P w1 w2 → extends P w2 w3 → extends P w1 w3.
Proof.
  intros (new1 & H1 & Hf1) (new2 & H2 & Hf2). exists (new1 ++ new2).
  rewrite H2, H1, <- app_assoc. split; [done|]. by apply Forall_app.
Qed.

Lemma extends_weaken (P Q : Q * Event → Prop) w w' :
  (∀ e, P e → Q e) → extends P w w' → extends Q w w'.
Proof.
  intros Himpl (new & Hnew & Hf). exists new. split; [done|].
  by eapply Forall_impl.
Qed.

Lemma extends_emit (P : Q * Event → Prop) e w :
  P (clock w, e) → extends P w (emit e w).
Proof. intros He. exists [(clock w, e)]. split; [done|]. by constructor. Qed.

Lemma extends_advance P seconds w : extends P w (advance seconds w).
Proof. exists []. split; [by rewrite app_nil_r|constructor]. Qed.

Lemma extends_sleep (P : Q * Event → Prop) seconds w :
  P (clock w, Slept seconds) → extends P w (sleep seconds w).
Proof.
  intros He. unfold sleep.
  eapply extends_trans; [by apply extends_emit|apply extends_advance].
Qed.

Lemma extends_print (P : Q * Event → Prop) line w :
  P (clock w, Printed line) → extends P w (print line w).
Proof. apply extends_emit. Qed.

Lemma extends_write_bytes (P : Q * Event → Prop) path content w :
  P (clock w, WriteBytes path) → extends P w (write_bytes path content w).
Proof. intros He. exists [(clock w, WriteBytes path)]. split; [done|]. by constructor. Qed.

(** One event that is no start of a batch, appended. *)
Ltac quiet_step :=
  first [apply extends_print | apply extends_sleep
        | apply extends_write_bytes | apply extends_emit];
  reflexivity.

(** Several of them, the last one peeled off first. *)
Ltac quiet_steps :=
  first
    [ apply extends_refl
    | quiet_step
    | eapply extends_trans; [|quiet_step]; quiet_steps
    | eapply extends_trans; [|apply extends_advance]; quiet_steps ].

Lemma wait_for_rate_limit_quiet api_name self w :
  extends quiet w (RobustCollector._wait_for_rate_limit api_name self w).2.
Proof.
  unfold RobustCollector._wait_for_rate_limit.
  destruct (_ <=? _); [|apply extends_refl].
  destruct (Qlt_bool 0 _); [|apply extends_refl].
  cbn [snd]. quiet_steps.
Qed.

Section Servers.
Variable http_get : nat → string → HttpResult.
Variable hiro_listing :
  nat → string → Z → Z → Failure + list RobustCollector.Inscription.
Variable latency : nat → Q.
Variable sha256_hexdigest : Py.bytes → string.

Lemma get_content_quiet url w :
  extends quiet w (RobustCollector.get_content http_get latency url w).2.
Proof.
  unfold RobustCollector.get_content.
  destruct (http_get _ _) as [status_code content|e];
    [destruct (status_raises status_code)|]; cbn [snd];
    (quiet_steps).
Qed.

Lemma fetch_inscriptions_hiro_quiet mime_type offset limit self w :
  extends quiet w
    (RobustCollector.fetch_inscriptions_hiro hiro_listing latency
       mime_type offset limit self w).2.
Proof.
  unfold RobustCollector.fetch_inscriptions_hiro.
  pose proof (wait_for_rate_limit_quiet RobustCollector.hiro self w) as Hwait.
  destruct (RobustCollector._wait_for_rate_limit _ self w) as [self1 w1].
  cbn [snd] in *. eapply extends_trans; [exact Hwait|].
  quiet_steps.
Qed.

Lemma fetch_with_fallback_quiet inscription_id self w :
  extends quiet w
    (RobustCollector.fetch_with_fallback http_get latency
       inscription_id self w).2.
Proof.
  unfold RobustCollector.fetch_with_fallback,
    RobustCollector.fetch_content_ordinals_com,
    RobustCollector.fetch_content_hiro.
  pose proof (get_content_quiet
                (RobustCollector.ordinals_com_url inscription_id) w) as Hfirst.
  destruct (RobustCollector.get_content _ _ _ w) as [content w1].
  cbn [snd] in Hfirst.
  destruct (RobustCollector.has_content content); [exact Hfirst|].
  pose proof (wait_for_rate_limit_quiet RobustCollector.hiro self w1) as Hwait.
  destruct (RobustCollector._wait_for_rate_limit _ self w1) as [self2 w2].
  cbn [snd] in Hwait.
  pose proof (get_content_quiet
                (RobustCollector.hiro_url self2 inscription_id) w2) as Hsecond.
  destruct (RobustCollector.get_content _ _ _ w2) as [content2 w3].
  cbn [snd] in Hsecond.
  assert (extends quiet w w3) as Hall
    by (eapply extends_trans; [exact Hfirst|];
        eapply extends_trans; [exact Hwait|exact Hsecond]).
  by destruct (RobustCollector.has_content content2).
Qed.

Lemma save_inscription_quiet insc content w :
  extends quiet w
    (RobustCollector.save_inscription sha256_hexdigest insc content w).2.
Proof. quiet_step. Qed.

Lemma download_each_quiet inscriptions records self w :
  extends quiet w
    (RobustCollector.download_each http_get latency sha256_hexdigest
       inscriptions records self w).1.2.
Proof.
  revert records self w.
  induction inscriptions as [|insc rest IH]; intros records self w.
  - apply extends_refl.
  - cbn [RobustCollector.download_each].
    destruct (RobustCollector.insc_id insc) as [inscription_id|];
      [|apply extends_refl].
    pose proof (fetch_with_fallback_quiet inscription_id self w) as Hfetch.
    destruct (RobustCollector.fetch_with_fallback _ _ _ self w)
      as [[content self1] w1].
    cbn [snd] in Hfetch. eapply extends_trans; [exact Hfetch|].
    destruct content as [[|b body]|].
    + eapply extends_trans; [|apply IH].
      quiet_steps.
    + pose proof (save_inscription_quiet insc (b :: body) w1) as Hsave.
      destruct (RobustCollector.save_inscription _ insc (b :: body) w1)
        as [record w2].
      cbn [snd] in Hsave. eapply extends_trans; [exact Hsave|].
      eapply extends_trans; [|apply IH].
      quiet_steps.
    + eapply extends_trans; [|apply IH].
      quiet_steps.
Qed.

Lemma collect_loop_quiet fuel mime_type count records offset self w :
  extends quiet w
    (RobustCollector.collect_loop http_get hiro_listing latency
       sha256_hexdigest fuel mime_type count records offset self w).1.2.
Proof.
  revert records offset self w.
  induction fuel as [|fuel IH]; intros records offset self w.
  - apply extends_refl.
  - cbn [RobustCollector.collect_loop].
    destruct (Py.len records <? count); [|apply extends_refl].
    pose proof (fetch_inscriptions_hiro_quiet mime_type offset
                  (Z.min 20 (count - Py.len records)) self w) as Hlist.
    destruct (RobustCollector.fetch_inscriptions_hiro _ _ _ _ _ self w)
      as [[batch self1] w1].
    cbn [snd] in Hlist. eapply extends_trans; [exact Hlist|].
    destruct batch as [e|[|insc inscriptions]].
    + eapply extends_trans; [|apply IH].
      quiet_steps.
    + apply extends_refl.
    + eapply (extends_trans _ _ (print (LFetched _ _) w1)); [quiet_step|].
      pose proof (download_each_quiet (insc :: inscriptions) records self1
                    (print (LFetched (Py.len (insc :: inscriptions)) offset) w1))
        as Hdown.
      destruct (RobustCollector.download_each _ _ _ _ records self1 _)
        as [[[records1 self2] w3] ok].
      cbn [fst snd] in Hdown. eapply extends_trans; [exact Hdown|].
      destruct ok; [apply IH|].
      eapply extends_trans; [|apply IH].
      quiet_steps.
Qed.

Lemma collect_quiet fuel mime_type count self w :
  extends quiet w
    (RobustCollector.collect http_get hiro_listing latency
       sha256_hexdigest fuel mime_type count self w).1.2.
Proof.
  unfold RobustCollector.collect.
  pose proof (collect_loop_quiet fuel mime_type count [] 0 self
                (print (LHeader mime_type count) w)) as Hloop.
  destruct (RobustCollector.collect_loop _ _ _ _ _ _ _ _ _ self _)
    as [[[records self1] w1] finished].
  cbn [fst snd] in Hloop.
  assert (extends quiet w w1) as Hw1
    by (eapply extends_trans; [|exact Hloop]; quiet_step).
  destruct finished; cbn [fst snd]; [|exact Hw1].
  eapply extends_trans; [exact Hw1|quiet_step].
Qed.

(** Every batch the loop starts, it starts before the deadline. *)
Lemma bitcoin_batches_deadline fuel batches collector self w :
  extends
    (λ e, is_batch_start e.2 = true → (e.1 < OvernightCollect.end_time self)%Q)
    w
    (OvernightCollect.bitcoin_batches http_get hiro_listing latency
       sha256_hexdigest fuel batches collector self w).1.2.
Proof.
  revert collector self w.
  induction batches as [|[mime_type count] rest IH]; intros collector self w.
  - apply extends_refl.
  - cbn [OvernightCollect.bitcoin_batches].
    destruct (OvernightCollect.should_continue self w) eqn:Hgo.
    + apply Qlt_bool_true in Hgo.
      eapply (extends_trans _ _ (print (LCollecting count mime_type) w)).
      { apply extends_print. intros _. exact Hgo. }
      pose proof (collect_quiet fuel mime_type count collector
                    (print (LCollecting count mime_type) w)) as Hbatch.
      destruct (RobustCollector.collect _ _ _ _ _ _ _ collector _)
        as [[[records collector1] w1] finished].
      cbn [fst snd] in Hbatch.
      eapply extends_trans.
      { eapply extends_weaken; [|exact Hbatch].
        intros e Hquiet Hstart. unfold quiet in Hquiet. congruence. }
      destruct finished; [|apply extends_refl].
      eapply extends_trans; [|apply (IH _ (OvernightCollect.add_bitcoin records self))].
      eapply extends_trans; [|apply extends_sleep; discriminate].
      apply extends_print. discriminate.
    + cbn [fst snd]. apply extends_print. discriminate.
Qed.

(** C8, as the code has it. The deadline is looked at once per batch, as
    [collect_bitcoin_ordinals] is about to call [collect] for the next
    content type: every batch it starts, it starts strictly before
    [end_time], and called after the deadline it starts none. Inside a
    batch the deadline is not looked at: once a batch is started, all that
    [collect] does for it, which no deadline enters, is the beginning of
    what follows, whether that call returns or not. Nothing is said of the
    single items of a batch. *)
Theorem deadline_gates_batch_starts fuel self w :
  let after :=
    OvernightCollect.collect_bitcoin_ordinals http_get hiro_listing latency
      sha256_hexdigest fuel self w in
  extends
    (λ e, is_batch_start e.2 = true → (e.1 < OvernightCollect.end_time self)%Q)
    w after.1.2
  ∧ (OvernightCollect.should_continue self w = false →
     after
     = (self,
        print (LComplete
                 (OvernightCollect.bitcoin_ordinals (OvernightCollect.stats self)))
          (print LTimeLimitReached (print LStarting w)),
        true))
  ∧ (∀ mime_type count rest collector self' w',
       OvernightCollect.should_continue self' w' = true →
       extends (λ _, True)
         (RobustCollector.collect http_get hiro_listing latency
            sha256_hexdigest fuel mime_type count collector
            (print (LCollecting count mime_type) w')).1.2
         (OvernightCollect.bitcoin_batches http_get hiro_listing latency
            sha256_hexdigest fuel ((mime_type, count) :: rest) collector
            self' w').1.2).
Proof.
  cbv zeta. unfold OvernightCollect.collect_bitcoin_ordinals.
  split; [|split].
  3:{ intros mime_type count rest collector self' w' Hgo.
      cbn [OvernightCollect.bitcoin_batches]. rewrite Hgo.
      destruct (RobustCollector.collect _ _ _ _ _ _ _ collector _)
        as [[[records collector1] w1] finished].
      destruct finished; cbn [fst snd]; [|apply extends_refl].
      eapply extends_trans;
        [|eapply extends_weaken;
          [|apply (bitcoin_batches_deadline fuel rest collector1
                     (OvernightCollect.add_bitcoin records self'))];
          done].
      eapply extends_trans; [apply extends_print|apply extends_sleep]; done. }
  - pose proof (bitcoin_batches_deadline fuel OvernightCollect.content_types
                  RobustCollector.__init__ self (print LStarting w)) as Hloop.
    destruct (OvernightCollect.bitcoin_batches _ _ _ _ _ _ _ self _)
      as [[self1 w1] finished].
    cbn [fst snd] in Hloop.
    assert (extends
              (λ e, is_batch_start e.2 = true
                    → (e.1 < OvernightCollect.end_time self)%Q)
              w w1) as Hw1.
    { eapply extends_trans; [|exact Hloop]. apply extends_print. discriminate. }
    destruct finished; cbn [fst snd]; [|exact Hw1].
    eapply extends_trans; [exact Hw1|]. apply extends_print. discriminate.
  - intros Hstop.
    assert (OvernightCollect.should_continue self (print LStarting w) = false)
      as Hstop' by exact Hstop.
    unfold OvernightCollect.content_types.
    cbn [OvernightCollect.bitcoin_batches]. by rewrite Hstop'.
Qed.

End Servers.

(** C8, as the claim states it, fails. The night lasts one second; the one
    batch of five items is started before the deadline, each item is
    followed by a pause of half a second, and the fetches of the third,
    fourth and fifth item begin at the deadline or after it. *)
Lemma item_fetch_starts_after_deadline :
  filter (λ e, is_batch_start e.2 = true)
    (trace
       (OvernightCollect.collect_bitcoin_ordinals Samples.serves_png
          Samples.lists_five Samples.no_latency Samples.toy_hexdigest 3
          Samples.one_second_night Samples.fresh_world).1.2)
  = [(clock Samples.fresh_world, Printed (LCollecting 20 "image/png"))]
  ∧ (OvernightCollect.end_time Samples.one_second_night
     == clock Samples.fresh_world + 1)%Q
  ∧ gets_from (OvernightCollect.end_time Samples.one_second_night)
      (trace
         (OvernightCollect.collect_bitcoin_ordinals Samples.serves_png
            Samples.lists_five Samples.no_latency Samples.toy_hexdigest 3
            Samples.one_second_night Samples.fresh_world).1.2)
    = ["https://ordinals.com/content/f00d3i0";
       "https://ordinals.com/content/f00d4i0";
       "https://ordinals.com/content/f00d5i0";
       "https://api.hiro.so/ordinals/v1/inscriptions"].
Proof.
  split; [vm_compute; reflexivity|].
  split; vm_compute; reflexivity.
Qed.

End Deadline.

(** * Further properties *)

(** ** [deduplicate], run again *)

Section DeduplicateAgain.
Import UnifiedDataset.

(** A list whose keys are all different and none of them seen is left as
    it is. *)
Lemma deduplicate_loop_fixed (records : list UnifiedRecord) (seen : gset string) :
  NoDup (dedup_key <$> records) →
  (∀ r, r ∈ records → dedup_key r ∉ seen) →
  deduplicate_loop records seen [] = records.
Proof.
  revert seen. induction records as [|record rest IH]; intros seen Hnd Hfresh.
  - reflexivity.
  - rewrite fmap_cons in Hnd. apply NoDup_cons in Hnd as [Hhead Hrest].
    rewrite deduplicate_loop_keep by (apply Hfresh; by left).
    f_equal. apply IH; [done|].
    intros r Hr [Hk%elem_of_singleton|Hk]%elem_of_union.
    + apply Hhead. rewrite <- Hk. apply list_elem_of_fmap. by exists r.
    + by apply (Hfresh r); [right|].
Qed.

(** Running [deduplicate] on its own result changes nothing; the result is
    never longer than the input; and no key of the input is lost. *)
Theorem deduplicate_idempotent (records : list UnifiedRecord) :
  deduplicate (deduplicate records) = deduplicate records
  ∧ (length (deduplicate records) <= length records)%nat
  ∧ ∀ k, k ∈ dedup_key <$> deduplicate records ↔ k ∈ dedup_key <$> records.
Proof.
  split; [|split].
  - unfold deduplicate at 1. apply deduplicate_loop_fixed.
    + apply deduplicate_loop_NoDup.
    + intros r _. apply not_elem_of_empty.
  - apply sublist_length, deduplicate_loop_sublist.
  - intros k.
    pose proof (deduplicate_loop_first records ∅ k) as Hfirst.
    rewrite decide_False in Hfirst by apply not_elem_of_empty.
    fold (deduplicate records) in Hfirst.
    rewrite !list_elem_of_fmap. split.
    + intros (r & -> & Hr). exists r. split; [done|].
      eapply sublist_subseteq; [apply deduplicate_loop_sublist|exact Hr].
    + intros (r & -> & Hr).
      assert (r ∈ filter (λ r0, dedup_key r0 = dedup_key r) records) as Hin
        by (by apply list_elem_of_filter).
      destruct (filter (λ r0, dedup_key r0 = dedup_key r) records)
        as [|r1 others] eqn:Hf; [by apply elem_of_nil in Hin|].
      simpl in Hfirst.
      assert (r1 ∈ filter (λ r0, dedup_key r0 = dedup_key r)
                     (deduplicate records)) as Hkept
        by (rewrite Hfirst; by left).
      apply list_elem_of_filter in Hkept as [Hkey Hkept].
      exists r1. by split.
Qed.

End DeduplicateAgain.

(** ** The breakdowns of [generate_stats] *)

Section Breakdowns.
Import UnifiedDataset.

Lemma bump_chain_lookup record (m : gmap string ChainStats) c :
  bump_chain record m !! c
  = if decide (chain record = c)
    then Some {| count := count (default {| count := 0; bytes := 0 |} (m !! c)) + 1;
                 bytes := bytes (default {| count := 0; bytes := 0 |} (m !! c))
                          + content_length record |}
    else m !! c.
Proof.
  unfold bump_chain. case_decide as Hc.
  - subst c. rewrite !lookup_alter_eq.
    destruct (m !! chain record) as [s|] eqn:Hm.
    + by rewrite Hm.
    + by rewrite lookup_insert_eq.
  - rewrite !lookup_alter_ne by done.
    destruct (m !! chain record); [done|]. by rewrite lookup_insert_ne.
Qed.

Lemma bump_content_type_lookup record (m : gmap string Z) ct :
  bump_content_type record m !! ct
  = if decide (Py.split_head ";" (content_type record) = ct)
    then Some (default 0 (m !! ct) + 1)
    else m !! ct.
Proof.
  unfold bump_content_type. case_decide as Hc.
  - subst ct. rewrite lookup_alter_eq.
    destruct (m !! Py.split_head ";" (content_type record)) as [n|] eqn:Hm.
    + by rewrite Hm.
    + by rewrite lookup_insert_eq.
  - rewrite lookup_alter_ne by done.
    destruct (m !! Py.split_head ";" (content_type record)); [done|].
    by rewrite lookup_insert_ne.
Qed.

Lemma stats_loop_by_chain records stats c :
  by_chain (foldl stats_step stats records) !! c
  = match filter (λ r, chain r = c) records with
    | [] => by_chain stats !! c
    | of_chain =>
        Some {| count :=
                  count (default {| count := 0; bytes := 0 |} (by_chain stats !! c))
                  + Py.len of_chain;
                bytes :=
                  bytes (default {| count := 0; bytes := 0 |} (by_chain stats !! c))
                  + sum_content_length of_chain |}
    end.
Proof.
  revert stats. induction records as [|record rest IH]; intros stats.
  - reflexivity.
  - cbn [foldl]. rewrite IH. cbn [stats_step by_chain].
    rewrite bump_chain_lookup, filter_cons.
    destruct (decide (chain record = c)) as [Hc|Hc].
    + destruct (filter (λ r, chain r = c) rest) as [|r1 others];
        cbn [from_option Datatypes.id count bytes];
        unfold Py.len, sum_content_length; cbn [length foldr];
        f_equal; f_equal; lia.
    + reflexivity.
Qed.

Lemma stats_loop_by_content_type records stats ct :
  by_content_type (foldl stats_step stats records) !! ct
  = match filter (λ r, Py.split_head ";" (content_type r) = ct) records with
    | [] => by_content_type stats !! ct
    | of_type => Some (default 0 (by_content_type stats !! ct) + Py.len of_type)
    end.
Proof.
  revert stats. induction records as [|record rest IH]; intros stats.
  - reflexivity.
  - cbn [foldl]. rewrite IH. cbn [stats_step by_content_type].
    rewrite bump_content_type_lookup, filter_cons.
    destruct (decide (Py.split_head ";" (content_type record) = ct)) as [Hc|Hc].
    + destruct (filter _ rest) as [|r1 others];
        cbn [from_option Datatypes.id]; unfold Py.len; cbn [length];
        f_equal; lia.
    + reflexivity.
Qed.

Lemma stats_loop_flags records stats :
  nft_count (foldl stats_step stats records)
  = nft_count stats + Py.len (filter (λ r, is_nft r = true) records)
  ∧ protocol_data_count (foldl stats_step stats records)
    = protocol_data_count stats
      + Py.len (filter (λ r, is_protocol_data r = true) records)
  ∧ recursive_count (foldl stats_step stats records)
    = recursive_count stats + Py.len (filter (λ r, is_recursive r = true) records).
Proof.
  revert stats. induction records as [|record rest IH]; intros stats.
  - unfold Py.len. simpl. lia.
  - cbn [foldl]. destruct (IH (stats_step stats record)) as (-> & -> & ->).
    cbn [stats_step nft_count protocol_data_count recursive_count].
    rewrite !filter_cons. unfold Py.len.
    destruct (is_nft record), (is_protocol_data record), (is_recursive record);
      repeat (case_decide; try done); cbn [length]; lia.
Qed.

(** Every entry of the two breakdowns is exact: a chain (a content type up
    to its first semicolon) has an entry if and only if some record carries
    it, and the entry counts just those records and adds up just their
    lengths. The three flag counters count the records with the flag. *)
Theorem generate_stats_breakdowns now_iso records :
  let stats := generate_stats now_iso records in
  (∀ c,
     by_chain stats !! c
     = match filter (λ r, chain r = c) records with
       | [] => None
       | of_chain =>
           Some {| count := Py.len of_chain;
                   bytes := sum_content_length of_chain |}
       end)
  ∧ (∀ ct,
       by_content_type stats !! ct
       = match filter (λ r, Py.split_head ";" (content_type r) = ct) records with
         | [] => None
         | of_type => Some (Py.len of_type)
         end)
  ∧ nft_count stats = Py.len (filter (λ r, is_nft r = true) records)
  ∧ protocol_data_count stats
    = Py.len (filter (λ r, is_protocol_data r = true) records)
  ∧ recursive_count stats
    = Py.len (filter (λ r, is_recursive r = true) records).
Proof.
  cbv zeta. unfold generate_stats. cbn [by_chain by_content_type nft_count
    protocol_data_count recursive_count].
  split; [|split].
  - intros c. rewrite stats_loop_by_chain. cbn [by_chain].
    rewrite lookup_empty. cbn [from_option Datatypes.id count bytes].
    destruct (filter _ records); reflexivity.
  - intros ct. rewrite stats_loop_by_content_type. cbn [by_content_type].
    rewrite lookup_empty. cbn [from_option Datatypes.id].
    destruct (filter _ records); reflexivity.
  - match goal with |- context [foldl stats_step ?s0 records] =>
      destruct (stats_loop_flags records s0) as (-> & -> & ->)
    end.
    cbn [nft_count protocol_data_count recursive_count]. lia.
Qed.

End Breakdowns.

(** ** [_load_all_metadata]: files that do not count, and a second run *)

Section LoadAgain.
Import PrepareDataset.

Lemma load_records_app files1 files2 records :
  load_records (files1 ++ files2) records
  = load_records files2 (load_records files1 records).
Proof.
  revert records. induction files1 as [|f rest IH]; intros records.
  - reflexivity.
  - cbn [app load_records].
    destruct (_ || _); [apply IH|].
    destruct (file_content f); apply IH.
Qed.

(** A file whose name holds [analysis] or [stats], a file that cannot be
    read or parsed, and a file whose JSON is no list: none of them changes
    what is loaded, wherever it stands in the directory. *)
Theorem load_all_metadata_skips_file files1 f files2 :
  Py.str_contains "analysis" (file_name f)
  || Py.str_contains "stats" (file_name f) = true
  ∨ file_content f = JsonOther
  ∨ file_content f = Unreadable →
  _load_all_metadata (files1 ++ f :: files2)
  = _load_all_metadata (files1 ++ files2).
Proof.
  intros Hskip. unfold _load_all_metadata. f_equal.
  rewrite !load_records_app. cbn [load_records].
  destruct Hskip as [->|[Hc|Hc]]; [done|..];
    rewrite Hc; by destruct (_ || _).
Qed.

(** The theorem at the sample directory, whose second file is a statistics
    file. *)
Lemma load_all_metadata_skips_file_stats :
  _load_all_metadata Samples.metadata_dir
  = _load_all_metadata
      (take 1 Samples.metadata_dir ++ drop 2 Samples.metadata_dir).
Proof.
  apply (load_all_metadata_skips_file (take 1 Samples.metadata_dir)
           {| file_name := "overnight_stats_20260101_000000.json";
              file_content := JsonOther |}
           (drop 2 Samples.metadata_dir)).
  left. vm_compute. reflexivity.
Defined.

(** Records with ids that are present, all different and not seen yet are
    all kept. *)
Lemma dedup_by_id_fixed (records : list (gmap string jval)) (seen : gset jval) :
  NoDup (get_id <$> records) →
  (∀ r, r ∈ records → truthy (get_id r) = true ∧ get_id r ∉ seen) →
  dedup_by_id records seen [] = records.
Proof.
  revert seen. induction records as [|r0 rest IH]; intros seen Hnd Hok.
  - reflexivity.
  - rewrite fmap_cons in Hnd. apply NoDup_cons in Hnd as [Hhead Hrest].
    destruct (Hok r0) as [Ht Hs]; [by left|].
    rewrite dedup_by_id_keep by done. f_equal. apply IH; [done|].
    intros r Hr. destruct (Hok r) as [Htr Hsr]; [by right|].
    split; [done|].
    intros [Hk%elem_of_singleton|Hk]%elem_of_union; [|done].
    apply Hhead. rewrite <- Hk. apply list_elem_of_fmap. by exists r.
Qed.

(** Written back as one list file (under a name that is not skipped) and
    loaded again, the result of [_load_all_metadata] comes back as it
    was. *)
Theorem load_all_metadata_again files name :
  Py.str_contains "analysis" name || Py.str_contains "stats" name = false →
  _load_all_metadata
    [{| file_name := name;
        file_content := JsonList (_load_all_metadata files) |}]
  = _load_all_metadata files.
Proof.
  intros Hname. unfold _load_all_metadata at 1.
  cbn [load_records file_name file_content]. rewrite Hname. cbn [app].
  apply dedup_by_id_fixed.
  - apply dedup_by_id_NoDup.
  - intros r Hr. by apply dedup_by_id_kept in Hr as [Ht _].
Qed.

(** The theorem at the sample directory, written back as
    [unique_metadata.json]. *)
Lemma load_all_metadata_again_sample :
  _load_all_metadata
    [{| file_name := "unique_metadata.json";
        file_content := JsonList (_load_all_metadata Samples.metadata_dir) |}]
  = _load_all_metadata Samples.metadata_dir.
Proof.
  apply load_all_metadata_again. vm_compute. reflexivity.
Defined.

End LoadAgain.

(** ** The limiter: what a call leaves alone, and how long it can take *)

Section LimiterFrame.
Import World RobustCollector.

(** A call of the limiter for one API leaves the entries of the other APIs
    and the disk as they were, sends nothing and writes nothing, keeps the
    API's base URL and limit, and sleeps for at most a minute (once the
    clock is past the API's last call). *)
Theorem wait_for_rate_limit_frame api_name other self w :
  let after := _wait_for_rate_limit api_name self w in
  (other ≠ api_name → apis after.1 other = apis self other)
  ∧ base (apis after.1 api_name) = base (apis self api_name)
  ∧ rate_limit (apis after.1 api_name) = rate_limit (apis self api_name)
  ∧ disk after.2 = disk w
  ∧ gets (trace after.2) = gets (trace w)
  ∧ writes (trace after.2) = writes (trace w)
  ∧ (clock w <= clock after.2)%Q
  ∧ ((last_call (apis self api_name) <= clock w)%Q →
     (clock after.2 <= clock w + 60)%Q).
Proof.
  cbv zeta.
  split.
  { intros Hother. unfold _wait_for_rate_limit.
    destruct (_ <=? _); [destruct (Qlt_bool 0 _)|];
      cbn [fst]; by destruct api_name, other. }
  destruct (wait_for_rate_limit_step api_name self w)
    as (Hlimit & _ & Hstep).
  split.
  { unfold _wait_for_rate_limit.
    destruct (_ <=? _); [destruct (Qlt_bool 0 _)|];
      cbn [fst]; by rewrite apis_set_api. }
  split; [exact Hlimit|].
  split.
  { unfold _wait_for_rate_limit.
    destruct (_ <=? _); [destruct (Qlt_bool 0 _)|]; reflexivity. }
  split; [apply wait_for_rate_limit_gets|].
  split.
  { unfold _wait_for_rate_limit.
    destruct (_ <=? _); [destruct (Qlt_bool 0 _)|]; try reflexivity.
    unfold sleep, print, advance, emit. cbn [snd trace].
    rewrite !writes_app. cbn. by rewrite !app_nil_r. }
  split; [apply wait_for_rate_limit_clock|].
  intros Hpast.
  destruct Hstep as [(_ & _ & Hslept & _)|(_ & -> & _)]; [|lra].
  rewrite Hslept. lra.
Qed.

End LimiterFrame.

(** ** What [fetch_with_fallback] can return *)

Section FallbackResult.
Import World RobustCollector.
Variable http_get : nat → string → HttpResult.
Variable latency : nat → Q.

(** [fetch_with_fallback] never returns an empty body: it returns [None] or
    bytes that are not empty. When ordinals.com delivers, Hiro is neither
    asked nor charged: one request is sent and the collector is as before.
    When the result is [None], both endpoints were asked. *)
Theorem fetch_with_fallback_result inscription_id self w :
  let after := fetch_with_fallback http_get latency inscription_id self w in
  let first := fetch_content_ordinals_com http_get latency inscription_id w in
  (after.1.1 = None ∨ ∃ b body, after.1.1 = Some (b :: body))
  ∧ (has_content first.1 = true →
     after = (first.1, self, first.2)
     ∧ gets (trace after.2)
       = gets (trace w) ++ [ordinals_com_url inscription_id])
  ∧ (after.1.1 = None →
     gets (trace after.2)
     = gets (trace w)
       ++ [ordinals_com_url inscription_id; hiro_url self inscription_id]).
Proof.
  cbv zeta.
  pose proof (fetch_with_fallback_gets http_get latency inscription_id self w)
    as Hgets.
  cbv zeta in Hgets. revert Hgets. unfold fetch_with_fallback.
  destruct (fetch_content_ordinals_com http_get latency inscription_id w)
    as [content w1].
  cbn [fst snd].
  destruct (has_content content) eqn:Hfirst.
  - intros Hgets. split; [|split].
    + right. destruct content as [[|b body]|]; try done. by exists b, body.
    + done.
    + cbn [fst]. intros ->. done.
  - destruct (fetch_content_hiro http_get latency inscription_id self w1)
      as [[content2 self2] w2].
    destruct (has_content content2) eqn:Hsecond; cbn [fst snd];
      intros Hgets; (split; [|split; [done|]]).
    + right. destruct content2 as [[|b body]|]; try done. by exists b, body.
    + intros ->. done.
    + by left.
    + done.
Qed.

End FallbackResult.

(** ** What is saved can be read back *)

Section SaveReadBack.
Import World.
Variable sha256_hexdigest : Py.bytes → string.

Lemma write_bytes_lookup path content w p :
  disk (write_bytes path content w) !! p
  = if decide (path = p) then Some content else disk w !! p.
Proof. unfold write_bytes. cbn [disk emit]. apply lookup_insert. Qed.

Lemma save_transaction_fields tx content w r w1 :
  ArweaveCollector.save_transaction sha256_hexdigest tx content w = Some (r, w1) →
  ArweaveCollector.chain r = "arweave"
  ∧ ArweaveCollector.content_length r = Py.len content.
Proof.
  unfold ArweaveCollector.save_transaction. intros Hsave.
  apply bind_Some in Hsave as (tag_list & Htags & Hsave).
  apply bind_Some in Hsave as (data_type & Hdata & Hsave).
  apply bind_Some in Hsave as (content_type & Htype & Hsave).
  apply bind_Some in Hsave as (blk & Hblock & Hsave).
  by injection Hsave as <- <-.
Qed.

(** After [save_inscription], and after [save_transaction] when it does not
    raise, the file at the record's [local_path] holds exactly the bytes
    that were saved, every other file is as before, the record's
    [content_length] is the number of those bytes, and no time has
    passed. *)
Theorem save_then_read_back insc tx content w :
  let saved := RobustCollector.save_inscription sha256_hexdigest insc content w in
  (disk saved.2 !! RobustCollector.local_path saved.1 = Some content
   ∧ (∀ p, p ≠ RobustCollector.local_path saved.1 →
           disk saved.2 !! p = disk w !! p)
   ∧ RobustCollector.content_length saved.1 = Py.len content
   ∧ clock saved.2 = clock w)
  ∧ ∀ r w1,
      ArweaveCollector.save_transaction sha256_hexdigest tx content w
      = Some (r, w1) →
      disk w1 !! ArweaveCollector.local_path r = Some content
      ∧ (∀ p, p ≠ ArweaveCollector.local_path r → disk w1 !! p = disk w !! p)
      ∧ ArweaveCollector.content_length r = Py.len content
      ∧ ArweaveCollector.id r = ArweaveCollector.tx_id tx
      ∧ ArweaveCollector.chain r = "arweave"
      ∧ clock w1 = clock w.
Proof.
  cbv zeta. split.
  - rewrite save_inscription_writes.
    split; [by rewrite write_bytes_lookup, decide_True|].
    split; [|done].
    intros p Hp. by rewrite write_bytes_lookup, decide_False.
  - intros r w1 Hsave.
    destruct (save_transaction_writes _ _ _ _ _ _ Hsave) as [-> _].
    destruct (save_transaction_fields _ _ _ _ _ Hsave) as [Hchain Hlen].
    split; [by rewrite write_bytes_lookup, decide_True|].
    split; [intros p Hp; by rewrite write_bytes_lookup, decide_False|].
    split; [done|]. split; [by eapply save_transaction_id|]. done.
Qed.

(** [save_transaction] raises over the shape of the transaction when
    [tags], [data] or [block] is [null], or when the content type comes
    out as [None] (there is no [Content-Type] tag, and [data.type] is
    [null]). *)
Lemma save_transaction_shape_raises tx content w :
  ArweaveCollector.tags tx = ArweaveCollector.Null
  ∨ ArweaveCollector.data tx = ArweaveCollector.Null
  ∨ ArweaveCollector.block tx = ArweaveCollector.Null
  ∨ (ArweaveCollector.tags_dict
       (match ArweaveCollector.tags tx with
        | ArweaveCollector.Present l => l
        | _ => []
        end) !! "Content-Type" = None
     ∧ ∃ d, ArweaveCollector.data tx = ArweaveCollector.Present d
            ∧ ArweaveCollector.type d = ArweaveCollector.Null) →
  ArweaveCollector.save_transaction sha256_hexdigest tx content w = None.
Proof.
  unfold ArweaveCollector.save_transaction. intros Hwhy.
  destruct (ArweaveCollector.tags tx) as [| |l] eqn:Htags;
    [|reflexivity|].
  + destruct Hwhy as [Hwhy|Hwhy]; [done|].
    apply bind_None. right. exists []. split; [done|].
    destruct (ArweaveCollector.data tx) as [| |d] eqn:Hdata.
    * destruct Hwhy as [Hwhy|[Hwhy|(_ & d & Hd & _)]]; [done| |done].
      apply bind_None. right. eexists. split; [done|].
      apply bind_None. right. eexists. split; [done|].
      apply bind_None. left. by rewrite Hwhy.
    * by apply bind_None; left.
    * apply bind_None. right.
      destruct (ArweaveCollector.type d) as [| |t] eqn:Hty.
      -- eexists. split; [done|].
         destruct Hwhy as [Hwhy|[Hwhy|(_ & d' & [= <-] & Hd')]];
           [done| |congruence].
         apply bind_None. right. eexists. split; [done|].
         apply bind_None. left. by rewrite Hwhy.
      -- eexists. split; [done|].
         destruct Hwhy as [Hwhy|[Hwhy|(Hno & _)]]; [done| |].
         ++ destruct (ArweaveCollector.tags_dict [] !! "Content-Type");
              [|by apply bind_None; left].
            apply bind_None. right. eexists. split; [done|].
            apply bind_None. left. by rewrite Hwhy.
         ++ apply bind_None. left. by rewrite Hno.
      -- eexists. split; [done|].
         destruct Hwhy as [Hwhy|[Hwhy|(_ & d' & [= <-] & Hd')]];
           [done| |congruence].
         apply bind_None. right. eexists. split; [done|].
         apply bind_None. left. by rewrite Hwhy.
  + destruct Hwhy as [Hwhy|Hwhy]; [done|].
    apply bind_None. right. exists l. split; [done|].
    destruct (ArweaveCollector.data tx) as [| |d] eqn:Hdata.
    * destruct Hwhy as [Hwhy|[Hwhy|(_ & d & Hd & _)]]; [done| |done].
      apply bind_None. right. eexists. split; [done|].
      destruct (ArweaveCollector.tags_dict l !! "Content-Type");
        (apply bind_None; right; eexists; split; [done|]);
        apply bind_None; left; by rewrite Hwhy.
    * by apply bind_None; left.
    * apply bind_None. right.
      destruct (ArweaveCollector.type d) as [| |t] eqn:Hty.
      -- eexists. split; [done|].
         destruct Hwhy as [Hwhy|[Hwhy|(_ & d' & [= <-] & Hd')]];
           [done| |congruence].
         destruct (ArweaveCollector.tags_dict l !! "Content-Type");
           (apply bind_None; right; eexists; split; [done|]);
           apply bind_None; left; by rewrite Hwhy.
      -- eexists. split; [done|].
         destruct Hwhy as [Hwhy|[Hwhy|(Hno & _)]]; [done| |].
         ++ destruct (ArweaveCollector.tags_dict l !! "Content-Type");
              [|by apply bind_None; left].
            apply bind_None. right. eexists. split; [done|].
            apply bind_None. left. by rewrite Hwhy.
         ++ apply bind_None. left. by rewrite Hno.
      -- eexists. split; [done|].
         destruct Hwhy as [Hwhy|[Hwhy|(_ & d' & [= <-] & Hd')]];
           [done| |congruence].
         destruct (ArweaveCollector.tags_dict l !! "Content-Type");
           (apply bind_None; right; eexists; split; [done|]);
           apply bind_None; left; by rewrite Hwhy.
Qed.

End SaveReadBack.

(** ** What [fetch_content] returns *)

Section GatewayOrder.
Import World ArweaveCollector.
Variable http_get : nat → string → HttpResult.
Variable latency : nat → Q.

(** The [j]-th gateway asked is asked when [j] more events have happened:
    one attempt is one event. *)
Lemma fetch_content_from_first_200 gws tx_id w :
  let after := fetch_content_from http_get latency gws tx_id w in
  (∀ c, after.1 = Some c →
     ∃ k gateway,
       gws !! k = Some gateway
       ∧ http_get (length (trace w) + k) (gateway_url tx_id gateway)
         = Response 200 c
       ∧ (∀ j g c', (j < k)%nat → gws !! j = Some g →
            http_get (length (trace w) + j) (gateway_url tx_id g)
            ≠ Response 200 c')
       ∧ gets (trace after.2)
         = gets (trace w) ++ (gateway_url tx_id <$> take (S k) gws))
  ∧ (after.1 = None →
     (∀ j g c', gws !! j = Some g →
        http_get (length (trace w) + j) (gateway_url tx_id g)
        ≠ Response 200 c')
     ∧ gets (trace after.2)
       = gets (trace w) ++ (gateway_url tx_id <$> gws)).
Proof.
  cbv zeta. revert w. induction gws as [|gateway rest IH]; intros w.
  - cbn [fetch_content_from fst snd]. split; [done|]. intros _.
    split; [intros j g c' Hg; by rewrite lookup_nil in Hg|].
    by rewrite app_nil_r.
  - cbn [fetch_content_from].
    set (w1 := advance _ (emit (HttpGet (gateway_url tx_id gateway) []) w)).
    assert (gets (trace w1) = gets (trace w) ++ [gateway_url tx_id gateway])
      as Hw1 by apply gets_emit_get.
    assert (length (trace w1) = S (length (trace w))) as Hlen.
    { unfold w1, advance, emit. cbn [trace]. rewrite length_app. simpl. lia. }
    destruct (IH w1) as [IHsome IHnone]. rewrite Hlen, Hw1 in IHsome, IHnone.
    destruct (http_get (length (trace w)) (gateway_url tx_id gateway))
      as [status_code content|e] eqn:Hanswer;
      [destruct (status_code =? 200) eqn:Hstatus|].
    + apply Z.eqb_eq in Hstatus. subst status_code. cbn [fst snd]. split.
      * intros c [= <-]. exists 0%nat, gateway. split; [done|].
        rewrite Nat.add_0_r. split; [done|]. split; [intros; lia|].
        by rewrite Hw1.
      * done.
    + apply Z.eqb_neq in Hstatus.
      split.
      * intros c Hc. destruct (IHsome c Hc) as (k & g & Hk & Hok & Hbefore & Hg).
        exists (S k), g. split; [done|].
        replace (length (trace w) + S k)%nat
          with (S (length (trace w)) + k)%nat by lia.
        split; [done|]. split.
        -- intros [|j] g' c' Hj Hg'.
           ++ injection Hg' as <-. rewrite Nat.add_0_r, Hanswer. congruence.
           ++ replace (length (trace w) + S j)%nat
                with (S (length (trace w)) + j)%nat by lia.
              apply Hbefore; [lia|done].
        -- rewrite Hg, <- app_assoc. done.
      * intros Hn. destruct (IHnone Hn) as [Hall Hg]. split.
        -- intros [|j] g' c' Hg'.
           ++ injection Hg' as <-. rewrite Nat.add_0_r, Hanswer. congruence.
           ++ replace (length (trace w) + S j)%nat
                with (S (length (trace w)) + j)%nat by lia.
              by apply Hall.
        -- rewrite Hg, <- app_assoc. done.
    + split.
      * intros c Hc. destruct (IHsome c Hc) as (k & g & Hk & Hok & Hbefore & Hg).
        exists (S k), g. split; [done|].
        replace (length (trace w) + S k)%nat
          with (S (length (trace w)) + k)%nat by lia.
        split; [done|]. split.
        -- intros [|j] g' c' Hj Hg'.
           ++ injection Hg' as <-. rewrite Nat.add_0_r, Hanswer. congruence.
           ++ replace (length (trace w) + S j)%nat
                with (S (length (trace w)) + j)%nat by lia.
              apply Hbefore; [lia|done].
        -- rewrite Hg, <- app_assoc. done.
      * intros Hn. destruct (IHnone Hn) as [Hall Hg]. split.
        -- intros [|j] g' c' Hg'.
           ++ injection Hg' as <-. rewrite Nat.add_0_r, Hanswer. congruence.
           ++ replace (length (trace w) + S j)%nat
                with (S (length (trace w)) + j)%nat by lia.
              by apply Hall.
        -- rewrite Hg, <- app_assoc. done.
Qed.

(** [fetch_content] returns the body of the first gateway, in the declared
    order, that answers with status 200, whether that body is empty or not,
    having asked the gateways before it and none after it; it returns
    [None] exactly when it has asked all three and none answered 200. *)
Theorem fetch_content_first_200 tx_id w :
  let after := fetch_content http_get latency tx_id w in
  (∀ c, after.1 = Some c →
     ∃ k gateway,
       gateways !! k = Some gateway
       ∧ http_get (length (trace w) + k) (gateway_url tx_id gateway)
         = Response 200 c
       ∧ (∀ j g c', (j < k)%nat → gateways !! j = Some g →
            http_get (length (trace w) + j) (gateway_url tx_id g)
            ≠ Response 200 c')
       ∧ gets (trace after.2)
         = gets (trace w) ++ (gateway_url tx_id <$> take (S k) gateways))
  ∧ (after.1 = None →
     (∀ j g c', gateways !! j = Some g →
        http_get (length (trace w) + j) (gateway_url tx_id g)
        ≠ Response 200 c')
     ∧ gets (trace after.2)
       = gets (trace w) ++ (gateway_url tx_id <$> gateways)).
Proof. apply fetch_content_from_first_200. Qed.

End GatewayOrder.

(** ** [collect]: records and files, and the bound *)

Section CollectRecords.
Import World RobustCollector.

Lemma wait_for_rate_limit_writes api_name self w :
  writes (trace (_wait_for_rate_limit api_name self w).2) = writes (trace w).
Proof.
  unfold _wait_for_rate_limit.
  destruct (_ <=? _); [destruct (Qlt_bool 0 _)|]; try reflexivity.
  unfold sleep, print, advance, emit. cbn [snd trace].
  rewrite !writes_app. cbn. by rewrite !app_nil_r.
Qed.

Lemma writes_print line w : writes (trace (print line w)) = writes (trace w).
Proof. unfold print, emit. cbn [trace]. rewrite writes_app. apply app_nil_r. Qed.

Lemma writes_sleep seconds w : writes (trace (sleep seconds w)) = writes (trace w).
Proof.
  unfold sleep, advance, emit. cbn [trace]. rewrite writes_app. apply app_nil_r.
Qed.

Section Servers.
Variable http_get : nat → string → HttpResult.
Variable hiro_listing : nat → string → Z → Z → Failure + list Inscription.
Variable latency : nat → Q.
Variable sha256_hexdigest : Py.bytes → string.

Lemma get_content_writes url w :
  writes (trace (get_content http_get latency url w).2) = writes (trace w).
Proof.
  unfold get_content.
  destruct (http_get _ _) as [status_code content|e];
    [destruct (status_raises status_code)|]; cbn [snd];
    unfold advance, emit; cbn [trace]; rewrite writes_app; apply app_nil_r.
Qed.

Lemma fetch_with_fallback_writes inscription_id self w :
  writes (trace (fetch_with_fallback http_get latency inscription_id self w).2)
  = writes (trace w).
Proof.
  unfold fetch_with_fallback, fetch_content_ordinals_com, fetch_content_hiro.
  pose proof (get_content_writes (ordinals_com_url inscription_id) w) as Hfirst.
  destruct (get_content _ _ _ w) as [content w1]. cbn [snd] in Hfirst.
  destruct (has_content content); [exact Hfirst|].
  pose proof (wait_for_rate_limit_writes hiro self w1) as Hwait.
  destruct (_wait_for_rate_limit hiro self w1) as [self2 w2].
  cbn [snd] in Hwait.
  pose proof (get_content_writes (hiro_url self2 inscription_id) w2) as Hsecond.
  destruct (get_content _ _ _ w2) as [content2 w3]. cbn [snd] in Hsecond.
  destruct (has_content content2); cbn [snd]; congruence.
Qed.

Lemma fetch_inscriptions_hiro_writes mime_type offset limit self w :
  writes (trace
            (fetch_inscriptions_hiro hiro_listing latency mime_type offset
               limit self w).2)
  = writes (trace w).
Proof.
  unfold fetch_inscriptions_hiro.
  pose proof (wait_for_rate_limit_writes hiro self w) as Hwait.
  destruct (_wait_for_rate_limit hiro self w) as [self1 w1].
  cbn [snd] in *. unfold advance, emit. cbn [trace].
  rewrite writes_app, Hwait. apply app_nil_r.
Qed.

(** One pass over a batch: the records gained are as many as the files
    written, in the same order and at the same paths; each holds content
    that is not empty; and there is at most one per inscription. *)
Lemma download_each_adds inscriptions records self w :
  let after :=
    download_each http_get latency sha256_hexdigest inscriptions records self w in
  ∃ new,
    after.1.1.1 = records ++ new
    ∧ writes (trace after.1.2) = writes (trace w) ++ (local_path <$> new)
    ∧ Forall (λ r, 0 < content_length r) new
    ∧ (length new <= length inscriptions)%nat.
Proof.
  cbv zeta. revert records self w.
  induction inscriptions as [|insc rest IH]; intros records self w.
  - exists []. cbn. rewrite !app_nil_r. split; [done|]. split; [done|].
    split; [constructor|lia].
  - cbn [download_each].
    destruct (insc_id insc) as [inscription_id|].
    2:{ exists []. cbn. rewrite !app_nil_r. split; [done|]. split; [done|].
        split; [constructor|lia]. }
    pose proof (fetch_with_fallback_writes inscription_id self w) as Hfetch.
    destruct (fetch_with_fallback _ _ _ self w) as [[content self1] w1].
    cbn [snd] in Hfetch.
    destruct content as [[|b body]|].
    + destruct (IH records self1
                  (sleep (1 # 2)
                     (print (LFailed (from_option Py.str_of_int "unknown"
                                        (insc_number insc))) w1)))
        as (new & Hrec & Hwr & Hpos & Hlen).
      exists new. rewrite Hrec, Hwr, writes_sleep, writes_print, Hfetch.
      repeat split; [done|]. cbn [length]. lia.
    + destruct (IH (records
                    ++ [(save_inscription sha256_hexdigest insc (b :: body) w1).1])
                  self1
                  (sleep (1 # 2)
                     (print
                        (LSaved
                           (Py.str_of_int
                              (number (save_inscription sha256_hexdigest insc
                                         (b :: body) w1).1))
                           (content_length
                              (save_inscription sha256_hexdigest insc
                                 (b :: body) w1).1))
                        (save_inscription sha256_hexdigest insc
                           (b :: body) w1).2)))
        as (new & Hrec & Hwr & Hpos & Hlen).
      exists ((save_inscription sha256_hexdigest insc (b :: body) w1).1 :: new).
      change (let '(record, w') :=
                save_inscription sha256_hexdigest insc (b :: body) w1 in
              (records ++ [record],
               print (LSaved (Py.str_of_int (number record))
                        (content_length record)) w'))
        with (records
              ++ [(save_inscription sha256_hexdigest insc (b :: body) w1).1],
              print
                (LSaved
                   (Py.str_of_int
                      (number (save_inscription sha256_hexdigest insc
                                 (b :: body) w1).1))
                   (content_length
                      (save_inscription sha256_hexdigest insc
                         (b :: body) w1).1))
                (save_inscription sha256_hexdigest insc (b :: body) w1).2).
      cbv beta iota. rewrite Hrec, Hwr, writes_sleep, writes_print.
      rewrite save_inscription_writes, write_bytes_writes, Hfetch.
      rewrite <- !app_assoc. split; [done|]. split; [done|].
      split; [|cbn [length]; lia].
      constructor; [|done]. unfold save_inscription, Py.len.
      cbn [fst content_length length]. lia.
    + destruct (IH records self1
                  (sleep (1 # 2)
                     (print (LFailed (from_option Py.str_of_int "unknown"
                                        (insc_number insc))) w1)))
        as (new & Hrec & Hwr & Hpos & Hlen).
      exists new. rewrite Hrec, Hwr, writes_sleep, writes_print, Hfetch.
      repeat split; [done|]. cbn [length]. lia.
Qed.

Lemma collect_loop_adds fuel mime_type count records offset self w :
  let after :=
    collect_loop http_get hiro_listing latency sha256_hexdigest fuel mime_type
      count records offset self w in
  ∃ new,
    after.1.1.1 = records ++ new
    ∧ writes (trace after.1.2) = writes (trace w) ++ (local_path <$> new)
    ∧ Forall (λ r, 0 < content_length r) new.
Proof.
  cbv zeta. revert records offset self w.
  induction fuel as [|fuel IH]; intros records offset self w.
  { exists []. cbn. by rewrite !app_nil_r. }
  cbn [collect_loop].
  destruct (Py.len records <? count).
  2:{ exists []. cbn. by rewrite !app_nil_r. }
  pose proof (fetch_inscriptions_hiro_writes mime_type offset
                (Z.min 20 (count - Py.len records)) self w) as Hlist.
  destruct (fetch_inscriptions_hiro _ _ _ _ _ self w) as [[batch self1] w1].
  cbn [snd] in Hlist.
  destruct batch as [e|[|insc inscriptions]].
  - destruct (IH records offset self1 (sleep 5 (print LError w1)))
      as (new & Hrec & Hwr & Hpos).
    exists new. by rewrite Hrec, Hwr, writes_sleep, writes_print, Hlist.
  - exists []. cbn. by rewrite !app_nil_r.
  - destruct (download_each_adds (insc :: inscriptions) records self1
                (print (LFetched (Py.len (insc :: inscriptions)) offset) w1))
      as (new1 & Hrec1 & Hwr1 & Hpos1 & _).
    destruct (download_each _ _ _ (insc :: inscriptions) records self1 _)
      as [[[records1 self2] w3] ok].
    cbn [fst snd] in Hrec1, Hwr1. rewrite writes_print, Hlist in Hwr1.
    destruct ok.
    + destruct (IH records1 (offset + Py.len (insc :: inscriptions)) self2 w3)
        as (new & Hrec & Hwr & Hpos).
      exists (new1 ++ new). rewrite Hrec, Hwr, Hwr1, Hrec1, fmap_app.
      rewrite <- !app_assoc. repeat split; [done..|]. by apply Forall_app.
    + destruct (IH records1 offset self2 (sleep 5 (print LError w3)))
        as (new & Hrec & Hwr & Hpos).
      exists (new1 ++ new).
      rewrite Hrec, Hwr, writes_sleep, writes_print, Hwr1, Hrec1, fmap_app.
      rewrite <- !app_assoc. repeat split; [done..|]. by apply Forall_app.
Qed.

Lemma collect_saves fuel mime_type count self w :
  let after :=
    collect http_get hiro_listing latency sha256_hexdigest fuel mime_type count
      self w in
  writes (trace after.1.2) = writes (trace w) ++ (local_path <$> after.1.1.1)
  ∧ Forall (λ r, 0 < content_length r) after.1.1.1.
Proof.
  cbv zeta. unfold collect.
  destruct (collect_loop_adds fuel mime_type count [] 0 self
              (print (LHeader mime_type count) w))
    as (new & Hrec & Hwr & Hpos).
  destruct (collect_loop _ _ _ _ _ _ _ _ _ _ _) as [[[records self1] w1] finished].
  cbn [fst snd] in Hrec, Hwr. cbn [app] in Hrec. subst new.
  rewrite writes_print in Hwr.
  destruct finished; cbn [fst snd]; by rewrite ?writes_print.
Qed.

(** A run of [collect] writes exactly one file per record it returns, in
    the order of the records and at their [local_path], and nothing else;
    and no record is of empty content. This holds however the servers
    answer, and also for a run cut short. *)
Theorem collect_records_are_files fuel mime_type count self w :
  let after :=
    collect http_get hiro_listing latency sha256_hexdigest fuel mime_type count
      self w in
  writes (trace after.1.2) = writes (trace w) ++ (local_path <$> after.1.1.1)
  ∧ Forall (λ r, 0 < content_length r) after.1.1.1.
Proof. apply collect_saves. Qed.

Section HonouredLimit.

(** The listing never answers with more entries than the request's
    [limit]. *)
Hypothesis listing_within_limit :
  ∀ n mime_type offset limit l,
    0 ≤ limit → hiro_listing n mime_type offset limit = inr l → Py.len l ≤ limit.

Lemma collect_loop_bounded fuel mime_type count records offset self w :
  Py.len records ≤ Z.max 0 count →
  Py.len
    (collect_loop http_get hiro_listing latency sha256_hexdigest fuel mime_type
       count records offset self w).1.1.1
  ≤ Z.max 0 count.
Proof.
  revert records offset self w.
  induction fuel as [|fuel IH]; intros records offset self w Hle; [done|].
  cbn [collect_loop].
  destruct (Z.ltb_spec (Py.len records) count) as [Hlt|_]; [|done].
  unfold fetch_inscriptions_hiro.
  destruct (_wait_for_rate_limit hiro self w) as [self1 w1].
  destruct (hiro_listing _ _ _ _) as [e|[|insc inscriptions]] eqn:Hlisting.
  - by apply IH.
  - done.
  - apply listing_within_limit in Hlisting; [|lia].
    match goal with
    | |- context [download_each _ _ _ ?l ?r ?s ?w'] =>
        destruct (download_each_adds l r s w') as (new & Hrec & _ & _ & Hlen);
        destruct (download_each http_get latency sha256_hexdigest l r s w')
          as [[[records1 self2] w3] ok]
    end.
    cbn [fst snd] in Hrec.
    assert (Py.len records1 ≤ Z.max 0 count) as Hle1.
    { subst records1. unfold Py.len in *. rewrite length_app. lia. }
    destruct ok; by apply IH.
Qed.

(** When the listing honours the limit it is asked for, [collect] returns
    at most [count] records (none for a count that is not positive). *)
Theorem collect_at_most_count fuel mime_type count self w :
  Py.len
    (collect http_get hiro_listing latency sha256_hexdigest fuel mime_type
       count self w).1.1.1
  ≤ Z.max 0 count.
Proof.
  unfold collect.
  pose proof (collect_loop_bounded fuel mime_type count [] 0 self
                (print (LHeader mime_type count) w)) as Hle.
  destruct (collect_loop _ _ _ _ _ _ _ _ _ _ _) as [[[records self1] w1] finished].
  cbn [fst snd] in Hle.
  destruct finished; cbn [fst snd]; apply Hle; unfold Py.len; cbn; lia.
Qed.

End HonouredLimit.

End Servers.

End CollectRecords.

Section CollectRuns.
Import World RobustCollector.

(** The bound at a listing that serves [limit] of five inscriptions: a run
    for three of them. *)
Lemma collect_at_most_count_three :
  Py.len
    (collect Samples.serves_png Samples.lists_within_limit Samples.no_latency
       Samples.toy_hexdigest 10 "image/png" 3 __init__ Samples.fresh_world).1.1.1
  ≤ Z.max 0 3.
Proof.
  apply (collect_at_most_count Samples.serves_png Samples.lists_within_limit
           Samples.no_latency Samples.toy_hexdigest).
  intros n mime_type offset limit l Hlimit Hlisting.
  unfold Samples.lists_within_limit in Hlisting.
  destruct (offset =? 0); injection Hlisting as <-; unfold Py.len.
  - rewrite length_take. lia.
  - cbn [length]. lia.
Defined.

End CollectRuns.

(** ** [collect_by_type]: records and files, and the bound *)

Section CollectByType.
Import World ArweaveCollector.

Section Servers.
Variable http_get : nat → string → HttpResult.
Variable graphql : nat → string → Z → Failure + list Transaction.
Variable latency : nat → Q.
Variable sha256_hexdigest : Py.bytes → string.

Lemma fetch_content_from_writes gws tx_id w :
  writes (trace (fetch_content_from http_get latency gws tx_id w).2)
  = writes (trace w).
Proof.
  revert w. induction gws as [|gateway rest IH]; intros w; [done|].
  cbn [fetch_content_from].
  assert (∀ w', writes (trace (advance (latency (length (trace w)))
                                 (emit (HttpGet (gateway_url tx_id gateway) []) w')))
                = writes (trace w')) as Hget.
  { intros w'. unfold advance, emit. cbn [trace]. rewrite writes_app.
    apply app_nil_r. }
  destruct (http_get _ _) as [status_code content|e];
    [destruct (status_code =? 200)|]; cbn [snd]; rewrite ?IH; apply Hget.
Qed.

(** One pass through the body of the loop: at most one record, written to
    its [local_path] as the only file of the pass. *)
Lemma collect_one_saves tx records w :
  let after := collect_one http_get latency sha256_hexdigest tx records w in
  ∃ new,
    after.1 = records ++ new
    ∧ (length new <= 1)%nat
    ∧ writes (trace after.2) = writes (trace w) ++ (local_path <$> new)
    ∧ Forall (λ r, chain r = "arweave" ∧ 0 < content_length r) new.
Proof.
  cbv zeta. unfold collect_one, fetch_content.
  pose proof (fetch_content_from_writes gateways (tx_id tx) w) as Hfetch.
  destruct (fetch_content_from http_get latency gateways (tx_id tx) w)
    as [content w1].
  cbn [snd] in Hfetch.
  destruct content as [[|b body]|].
  - exists []. cbn [fst snd length fmap list_fmap].
    rewrite writes_sleep, writes_print, Hfetch, !app_nil_r.
    split; [done|]. split; [lia|]. split; [done|constructor].
  - destruct (save_transaction sha256_hexdigest tx (b :: body) w1)
      as [[record w2]|] eqn:Hsave.
    + exists [record]. cbn [fst snd length fmap list_fmap].
      rewrite writes_sleep, writes_print.
      destruct (save_transaction_writes _ _ _ _ _ _ Hsave) as [-> _].
      rewrite write_bytes_writes, Hfetch.
      split; [done|]. split; [lia|]. split; [done|].
      constructor; [|constructor].
      destruct (save_transaction_fields _ _ _ _ _ _ Hsave) as [-> ->].
      split; [done|]. unfold Py.len. cbn [length]. lia.
    + exists []. cbn [fst snd length fmap list_fmap].
      rewrite writes_print, Hfetch, !app_nil_r.
      split; [done|]. split; [lia|]. split; [done|constructor].
  - exists []. cbn [fst snd length fmap list_fmap].
    rewrite writes_sleep, writes_print, Hfetch, !app_nil_r.
    split; [done|]. split; [lia|]. split; [done|constructor].
Qed.

Lemma collect_each_saves txs count records w :
  let after :=
    collect_each http_get latency sha256_hexdigest txs count records w in
  ∃ new,
    after.1 = records ++ new
    ∧ (length new <= length txs)%nat
    ∧ writes (trace after.2) = writes (trace w) ++ (local_path <$> new)
    ∧ Forall (λ r, chain r = "arweave" ∧ 0 < content_length r) new.
Proof.
  cbv zeta. revert records w.
  induction txs as [|tx rest IH]; intros records w.
  { exists []. cbn. rewrite !app_nil_r. split; [done|]. split; [lia|].
    split; [done|constructor]. }
  cbn [collect_each]. destruct (size_verdict tx) as [n| |].
  - destruct (IH records (print (LSkipping (Py.slice_to 16 (tx_id tx)) n) w))
      as (new & Hrec & Hlen & Hwr & Hall).
    exists new. rewrite Hrec, Hwr, writes_print.
    repeat split; [|done..]. cbn [length]. lia.
  - destruct (collect_one_saves tx records w)
      as (new1 & Hrec1 & Hlen1 & Hwr1 & Hall1).
    destruct (collect_one http_get latency sha256_hexdigest tx records w)
      as [records1 w1].
    cbn [fst snd] in Hrec1, Hwr1.
    destruct (count <=? Py.len records1).
    + exists new1. cbn [fst snd length].
      split; [done|]. split; [lia|done].
    + destruct (IH records1 w1) as (new & Hrec & Hlen & Hwr & Hall).
      exists (new1 ++ new).
      rewrite Hrec, Hwr, Hrec1, Hwr1, fmap_app, length_app, <- !app_assoc.
      cbn [length]. split; [done|]. split; [lia|]. split; [done|].
      by apply Forall_app.
  - destruct (count <=? Py.len records).
    + exists []. cbn [fst snd length fmap list_fmap].
      rewrite writes_print, !app_nil_r.
      split; [done|]. split; [lia|]. split; [done|constructor].
    + destruct (IH records (print LError w))
        as (new & Hrec & Hlen & Hwr & Hall).
      exists new. rewrite Hrec, Hwr, writes_print.
      repeat split; [|done..]. cbn [length]. lia.
Qed.

Lemma collect_by_type_saves content_type count w :
  let after :=
    collect_by_type http_get graphql latency sha256_hexdigest content_type
      count w in
  (length after.1 <= length (Py.list_slice_to count
                               (match graphql
                                        (length (trace
                                                   (print (LHeader content_type
                                                             count) w)))
                                        content_type (count * 2)
                                with inr txs => txs | inl _ => [] end)))%nat
  ∧ writes (trace after.2) = writes (trace w) ++ (local_path <$> after.1)
  ∧ Forall (λ r, chain r = "arweave" ∧ 0 < content_length r) after.1.
Proof.
  cbv zeta. unfold collect_by_type, search_by_content_type.
  set (w0 := print (LHeader content_type count) w).
  set (w1 := advance _ (emit (HttpPost _ _) w0)).
  assert (writes (trace w1) = writes (trace w)) as Hw1.
  { unfold w1, w0, advance, emit, print, emit. cbn [trace].
    rewrite !writes_app. cbn. by rewrite !app_nil_r. }
  destruct (graphql (length (trace w0)) content_type (count * 2))
    as [e|transactions].
  - cbn [fst snd length fmap list_fmap].
    rewrite !writes_print, Hw1, app_nil_r.
    split; [lia|]. split; [done|constructor].
  - destruct (collect_each_saves (Py.list_slice_to count transactions) count []
                (print (LFound (Py.len transactions)) w1))
      as (new & Hrec & Hlen & Hwr & Hall).
    destruct (collect_each _ _ _ _ _ _ _) as [records w2].
    cbn [fst snd app] in *. subst new.
    rewrite writes_print, Hwr, writes_print, Hw1. done.
Qed.

(** A run of [collect_by_type] writes exactly one file per record it
    returns, in the order of the records and at their [local_path], and
    nothing else; every record is marked as of chain "arweave" and is of
    content that is not empty. This holds however the gateways and the
    search answer. *)
Theorem collect_by_type_records_are_files content_type count w :
  let after :=
    collect_by_type http_get graphql latency sha256_hexdigest content_type
      count w in
  writes (trace after.2) = writes (trace w) ++ (local_path <$> after.1)
  ∧ Forall (λ r, chain r = "arweave" ∧ 0 < content_length r) after.1.
Proof. apply collect_by_type_saves. Qed.

Lemma collect_by_type_bounded content_type count w :
  0 ≤ count →
  Py.len
    (collect_by_type http_get graphql latency sha256_hexdigest content_type
       count w).1
  ≤ count.
Proof.
  intros Hcount.
  destruct (collect_by_type_saves content_type count w) as (Hlen & _).
  unfold Py.list_slice_to in Hlen.
  destruct (Z.leb_spec 0 count) as [_|]; [|lia].
  rewrite length_take in Hlen. unfold Py.len. lia.
Qed.

(** For a target that is not negative, [collect_by_type] returns at most
    [count] records, whatever the search lists: it visits the first
    [count] transactions only. *)
Theorem collect_by_type_at_most_count content_type count w :
  0 ≤ count →
  Py.len
    (collect_by_type http_get graphql latency sha256_hexdigest content_type
       count w).1
  ≤ count.
Proof. apply collect_by_type_bounded. Qed.

End Servers.

(** The bound at a search that lists an oversized transaction and a
    picture, for a target of five. *)
Lemma collect_by_type_at_most_count_five :
  Py.len
    (collect_by_type Samples.serves_png Samples.lists_big_and_png
       Samples.no_latency
       Samples.toy_hexdigest "image/png" 5 Samples.fresh_world).1
  ≤ 5.
Proof.
  apply (collect_by_type_at_most_count Samples.serves_png
           Samples.lists_big_and_png
           Samples.no_latency Samples.toy_hexdigest "image/png" 5
           Samples.fresh_world).
  lia.
Defined.

End CollectByType.

(** ** A transaction [save_transaction] raises on *)

Section RaisingSave.
Import World ArweaveCollector.

(** [save_transaction] raises, before it writes anything, whenever [tags],
    [data] or [block] of the transaction is [null], or the content type
    comes out as [None] (there is no [Content-Type] tag, and [data.type]
    is [null]). The loop of [collect_by_type] then keeps no record of the
    transaction and writes no file for it, whatever the gateways sent. So
    a transaction that is not yet in a block, with [block: null], is
    never saved. *)
Theorem save_transaction_raises sha256_hexdigest tx content w :
  tags tx = Null
  ∨ data tx = Null
  ∨ block tx = Null
  ∨ (tags_dict (match tags tx with Present l => l | _ => [] end)
       !! "Content-Type" = None
     ∧ ∃ d, data tx = Present d ∧ type d = Null) →
  save_transaction sha256_hexdigest tx content w = None
  ∧ ∀ http_get latency records v,
      let after :=
        collect_one http_get latency sha256_hexdigest tx records v in
      after.1 = records ∧ writes (trace after.2) = writes (trace v).
Proof.
  intros Hwhy. split; [by apply save_transaction_shape_raises|].
  intros http_get latency records v. cbv zeta.
  unfold collect_one, fetch_content.
  pose proof (fetch_content_from_writes http_get latency gateways (tx_id tx) v)
    as Hfetch.
  destruct (fetch_content_from http_get latency gateways (tx_id tx) v)
    as [fetched v1].
  cbn [snd] in Hfetch.
  destruct fetched as [[|b body]|]; cbn [fst snd].
  - by rewrite writes_sleep, writes_print.
  - rewrite (save_transaction_shape_raises sha256_hexdigest tx (b :: body) v1
               Hwhy).
    cbn [fst snd]. by rewrite writes_print.
  - by rewrite writes_sleep, writes_print.
Qed.

(** The theorem at the sample transaction before it is mined. *)
Lemma save_transaction_raises_pending :
  save_transaction Samples.toy_hexdigest Samples.pending_tx Samples.png_bytes
    Samples.fresh_world
  = None.
Proof.
  apply (save_transaction_raises Samples.toy_hexdigest Samples.pending_tx).
  right. right. left. reflexivity.
Defined.

End RaisingSave.

(** ** The counters of [collect_bitcoin_ordinals] *)

Section OvernightCounters.
Import World OvernightCollect.

Lemma content_length_sum (records : list RobustCollector.Saved) :
  Forall (λ r, 0 < RobustCollector.content_length r) records →
  Py.len records
  ≤ foldr (λ r acc, RobustCollector.content_length r + acc) 0 records.
Proof.
  unfold Py.len. induction 1 as [|r records Hr _ IH]; cbn [foldr length]; lia.
Qed.

Section Servers.
Variable http_get : nat → string → HttpResult.
Variable hiro_listing :
  nat → string → Z → Z → Failure + list RobustCollector.Inscription.
Variable latency : nat → Q.
Variable sha256_hexdigest : Py.bytes → string.

Lemma bitcoin_batches_counters fuel batches collector self w :
  let after :=
    bitcoin_batches http_get hiro_listing latency sha256_hexdigest fuel batches
      collector self w in
  let files :=
    Py.len (writes (trace after.1.2)) - Py.len (writes (trace w)) in
  let items :=
    bitcoin_ordinals (stats after.1.1) - bitcoin_ordinals (stats self) in
  0 ≤ items ≤ files
  ∧ (after.2 = true → items = files)
  ∧ items ≤ total_bytes (stats after.1.1) - total_bytes (stats self)
  ∧ end_time after.1.1 = end_time self
  ∧ arweave (stats after.1.1) = arweave (stats self)
  ∧ solana (stats after.1.1) = solana (stats self).
Proof.
  cbv zeta. revert collector self w.
  induction batches as [|[mime_type count] rest IH]; intros collector self w.
  { cbn [bitcoin_batches fst snd]. split; [lia|]. split; [lia|].
    split; [lia|done]. }
  cbn [bitcoin_batches]. destruct (should_continue self w).
  2:{ cbn [fst snd]. rewrite writes_print. split; [lia|]. split; [lia|].
      split; [lia|done]. }
  pose proof (collect_saves http_get hiro_listing latency sha256_hexdigest
                fuel mime_type count collector
                (print (LCollecting count mime_type) w)) as [Hwr Hpos].
  destruct (RobustCollector.collect _ _ _ _ _ _ _ collector _)
    as [[[records collector1] w1] finished].
  cbn [fst snd] in Hwr, Hpos. rewrite writes_print in Hwr.
  apply content_length_sum in Hpos.
  assert (Py.len (writes (trace w1))
          = Py.len (writes (trace w)) + Py.len records) as Hfiles.
  { rewrite Hwr. unfold Py.len. rewrite length_app, length_fmap. lia. }
  assert (0 ≤ Py.len records) as Hlen by (unfold Py.len; lia).
  destruct finished.
  - match goal with
    | |- context [bitcoin_batches _ _ _ _ fuel rest collector1 ?self1 ?w2] =>
        destruct (IH collector1 self1 w2)
          as (Hitems & Hexact & Hbytes & Hend & Harweave & Hsolana)
    end.
    rewrite writes_sleep, writes_print in Hitems, Hexact.
    assert (bitcoin_ordinals (stats (add_bitcoin records self))
            = bitcoin_ordinals (stats self) + Py.len records) as Hb
      by reflexivity.
    assert (total_bytes (stats (add_bitcoin records self))
            = total_bytes (stats self)
              + foldr (λ r acc, RobustCollector.content_length r + acc) 0
                  records) as Ht
      by reflexivity.
    split; [lia|]. split; [intros Hfin; specialize (Hexact Hfin); lia|].
    split; [lia|]. split; [exact Hend|]. split; [exact Harweave|exact Hsolana].
  - cbn [fst snd]. split; [lia|]. split; [discriminate|]. split; [lia|done].
Qed.

(** [collect_bitcoin_ordinals] keeps its books: the counter
    [bitcoin_ordinals] never goes down and never grows by more than the
    number of files the run wrote, and by exactly that number when the run
    returns; [total_bytes] grows by at least as much, since no saved file
    is empty; and the deadline and the counters of the other chains are
    left as they were. *)
Theorem collect_bitcoin_ordinals_counters fuel self w :
  let after :=
    collect_bitcoin_ordinals http_get hiro_listing latency sha256_hexdigest
      fuel self w in
  let files :=
    Py.len (writes (trace after.1.2)) - Py.len (writes (trace w)) in
  let items :=
    bitcoin_ordinals (stats after.1.1) - bitcoin_ordinals (stats self) in
  0 ≤ items ≤ files
  ∧ (after.2 = true → items = files)
  ∧ items ≤ total_bytes (stats after.1.1) - total_bytes (stats self)
  ∧ end_time after.1.1 = end_time self
  ∧ arweave (stats after.1.1) = arweave (stats self)
  ∧ solana (stats after.1.1) = solana (stats self).
Proof.
  cbv zeta. unfold collect_bitcoin_ordinals.
  pose proof (bitcoin_batches_counters fuel content_types
                RobustCollector.__init__ self (print LStarting w)) as Hloop.
  cbv zeta in Hloop.
  destruct (bitcoin_batches _ _ _ _ _ _ _ _ _) as [[self1 w1] finished].
  cbn [fst snd] in Hloop. rewrite writes_print in Hloop.
  destruct Hloop as (Hitems & Hexact & Hbytes & Hend & Harweave & Hsolana).
  destruct finished; cbn [fst snd]; rewrite ?writes_print.
  - split; [lia|]. split; [intros _; apply Hexact; reflexivity|].
    split; [lia|]. split; [exact Hend|]. split; [exact Harweave|exact Hsolana].
  - split; [lia|]. split; [discriminate|].
    split; [lia|]. split; [exact Hend|]. split; [exact Harweave|exact Hsolana].
Qed.

End Servers.

End OvernightCounters.

(** ** [time_remaining] *)

Section TimeRemaining.
Import World OvernightCollect.

Lemma Qfloor_add_Z (x : Q) (n : Z) : Qfloor (x + inject_Z n) = Qfloor x + n.
Proof.
  pose proof (Qfloor_le x) as Hlo. pose proof (Qlt_floor x) as Hhi.
  pose proof (Qfloor_le (x + inject_Z n)) as Hlo'.
  pose proof (Qlt_floor (x + inject_Z n)) as Hhi'.
  rewrite inject_Z_plus in Hhi, Hhi'.
  assert (inject_Z (Qfloor (x + inject_Z n)) < inject_Z (Qfloor x + n + 1))%Q
    as Hup by (rewrite !inject_Z_plus; lra).
  assert (inject_Z (Qfloor x + n) < inject_Z (Qfloor (x + inject_Z n) + 1))%Q
    as Hdown by (rewrite !inject_Z_plus; lra).
  rewrite <- Zlt_Qlt in Hup, Hdown. lia.
Qed.

(** What [time_remaining] shows is the time to the deadline with its whole
    days dropped: hours below 24 and minutes below 60, which together are
    the whole minutes of the seconds to the deadline taken modulo one day.
    So a deadline a day (or any number of days) further away reads the
    same, and past the deadline the reading does not go to zero: it
    starts again from just under 24 hours. *)
Theorem time_remaining_wraps self w :
  let seconds := Qfloor (end_time self - clock w) in
  (∃ hours minutes,
     time_remaining self w
     = Py.str_of_int hours +:+ "h " +:+ Py.str_of_int minutes +:+ "m"
     ∧ 0 ≤ hours < 24 ∧ 0 ≤ minutes < 60
     ∧ 3600 * hours + 60 * minutes ≤ seconds `mod` 86400
       < 3600 * hours + 60 * minutes + 60)
  ∧ (∀ days,
       time_remaining
         {| end_time := end_time self + inject_Z (86400 * days);
            stats := stats self |} w
       = time_remaining self w)
  ∧ (-86400 ≤ seconds < 0 →
     delta_seconds self w = 86400 + seconds).
Proof.
  cbv zeta. split; [|split].
  - exists (delta_seconds self w / 3600),
      ((delta_seconds self w `mod` 3600) / 60).
    split; [reflexivity|]. unfold delta_seconds.
    generalize (Qfloor (end_time self - clock w)). intros seconds.
    Z.div_mod_to_equations. lia.
  - intros days. unfold time_remaining, delta_seconds. cbn [end_time].
    assert (Qfloor (end_time self + inject_Z (86400 * days) - clock w)
            = Qfloor (end_time self - clock w) + 86400 * days) as ->.
    { rewrite <- Qfloor_add_Z. apply Qfloor_comp. ring. }
    assert ((Qfloor (end_time self - clock w) + 86400 * days) `mod` 86400
            = Qfloor (end_time self - clock w) `mod` 86400) as ->.
    { rewrite (Z.mul_comm 86400). apply Z.mod_add. lia. }
    reflexivity.
  - unfold delta_seconds.
    generalize (Qfloor (end_time self - clock w)). intros seconds Hpast.
    Z.div_mod_to_equations. lia.
Qed.

End TimeRemaining.

(** ** [collect_arweave]: its counters and its deadline *)

Section ArweaveNight.
Import World OvernightCollect.

Lemma arweave_content_length_sum (records : list ArweaveCollector.Saved) :
  Forall (λ r, ArweaveCollector.chain r = "arweave"
               ∧ 0 < ArweaveCollector.content_length r) records →
  Py.len records
  ≤ foldr (λ r acc, ArweaveCollector.content_length r + acc) 0 records.
Proof.
  unfold Py.len.
  induction 1 as [|r records [_ Hr] _ IH]; cbn [foldr length]; lia.
Qed.

(** One event that is no search, appended; and several of them. *)
Ltac silent_step :=
  first [apply extends_print | apply extends_sleep
        | apply extends_write_bytes | apply extends_emit];
  reflexivity.

Ltac silent_steps :=
  first
    [ apply extends_refl
    | silent_step
    | eapply extends_trans; [|silent_step]; silent_steps
    | eapply extends_trans; [|apply extends_advance]; silent_steps ].

Lemma batches_total_nonneg (batches : list (string * Z)) :
  Forall (λ batch, 0 ≤ batch.2) batches →
  0 ≤ foldr (λ batch acc, batch.2 + acc) 0 batches.
Proof. induction 1 as [|batch rest Hbatch _ IH]; cbn [foldr]; lia. Qed.

Section Servers.
Variable http_get : nat → string → HttpResult.
Variable graphql :
  nat → string → Z → Failure + list ArweaveCollector.Transaction.
Variable latency : nat → Q.
Variable sha256_hexdigest : Py.bytes → string.

Lemma arweave_batches_counters batches self w :
  Forall (λ batch, 0 ≤ batch.2) batches →
  let after :=
    arweave_batches http_get graphql latency sha256_hexdigest batches self w in
  let files := Py.len (writes (trace after.2)) - Py.len (writes (trace w)) in
  let items := arweave (stats after.1) - arweave (stats self) in
  items = files
  ∧ 0 ≤ items ≤ foldr (λ batch acc, batch.2 + acc) 0 batches
  ∧ items ≤ total_bytes (stats after.1) - total_bytes (stats self)
  ∧ end_time after.1 = end_time self
  ∧ bitcoin_ordinals (stats after.1) = bitcoin_ordinals (stats self)
  ∧ solana (stats after.1) = solana (stats self).
Proof.
  cbv zeta. intros Hcounts. revert self w.
  induction Hcounts as [|[ct count] rest Hcount Hrest IH]; intros self w.
  { cbn [arweave_batches fst snd foldr]. split; [lia|]. split; [lia|].
    split; [lia|done]. }
  cbn [snd] in Hcount. cbn [arweave_batches foldr snd].
  apply batches_total_nonneg in Hrest.
  destruct (should_continue self w).
  2:{ cbn [fst snd]. split; [lia|]. split; [lia|]. split; [lia|done]. }
  pose proof (collect_by_type_saves http_get graphql latency sha256_hexdigest
                ct count w) as (_ & Hwr & Hpos).
  pose proof (collect_by_type_bounded http_get graphql latency
                sha256_hexdigest ct count w Hcount) as Hbound.
  destruct (ArweaveCollector.collect_by_type _ _ _ _ ct count w)
    as [records w1].
  cbn [fst snd] in Hwr, Hpos, Hbound.
  apply arweave_content_length_sum in Hpos.
  assert (Py.len (writes (trace w1))
          = Py.len (writes (trace w)) + Py.len records) as Hfiles.
  { rewrite Hwr. unfold Py.len. rewrite length_app, length_fmap. lia. }
  assert (0 ≤ Py.len records) as Hlen by (unfold Py.len; lia).
  destruct (IH (add_arweave records self) (sleep 5 w1))
    as (Hitems & Hmost & Hbytes & Hend & Hbitcoin & Hsolana).
  rewrite writes_sleep in Hitems.
  assert (arweave (stats (add_arweave records self))
          = arweave (stats self) + Py.len records) as Ha by reflexivity.
  assert (total_bytes (stats (add_arweave records self))
          = total_bytes (stats self)
            + foldr (λ r acc, ArweaveCollector.content_length r + acc) 0
                records) as Ht
    by reflexivity.
  split; [lia|]. split; [lia|]. split; [lia|].
  split; [exact Hend|]. split; [exact Hbitcoin|exact Hsolana].
Qed.

(** [collect_arweave] keeps its books: the counter [arweave] grows by
    exactly the number of files the call wrote, which is at most 30 (three
    batches of ten); [total_bytes] grows by at least as much, since no
    saved file is empty; and the deadline and the counters of the other
    chains are left as they were. *)
Theorem collect_arweave_counters self w :
  let after :=
    collect_arweave http_get graphql latency sha256_hexdigest self w in
  let files := Py.len (writes (trace after.2)) - Py.len (writes (trace w)) in
  let items := arweave (stats after.1) - arweave (stats self) in
  items = files
  ∧ 0 ≤ items ≤ 30
  ∧ items ≤ total_bytes (stats after.1) - total_bytes (stats self)
  ∧ end_time after.1 = end_time self
  ∧ bitcoin_ordinals (stats after.1) = bitcoin_ordinals (stats self)
  ∧ solana (stats after.1) = solana (stats self).
Proof.
  cbv zeta. unfold collect_arweave.
  destruct (should_continue self (print LStarting w)).
  2:{ cbn [fst snd]. rewrite writes_print. split; [lia|]. split; [lia|].
      split; [lia|done]. }
  pose proof (arweave_batches_counters arweave_content_types self
                (print LStarting w)) as Hloop.
  cbv zeta in Hloop.
  destruct (arweave_batches _ _ _ _ _ _ _) as [self1 w1].
  cbn [fst snd] in Hloop |- *. rewrite writes_print in Hloop.
  rewrite writes_print.
  destruct Hloop as (Hitems & Hmost & Hbytes & Hrest).
  { repeat constructor; cbn; lia. }
  change (foldr _ 0 arweave_content_types) with 30 in Hmost.
  split; [lia|]. split; [lia|]. split; [lia|exact Hrest].
Qed.

Lemma fetch_content_from_silent gws tx_id w :
  extends (λ e, is_search e.2 = false) w
    (ArweaveCollector.fetch_content_from http_get latency gws tx_id w).2.
Proof.
  revert w. induction gws as [|gateway rest IH]; intros w;
    [apply extends_refl|].
  cbn [ArweaveCollector.fetch_content_from].
  assert (extends (λ e, is_search e.2 = false) w
            (advance (latency (length (trace w)))
               (emit (HttpGet (ArweaveCollector.gateway_url tx_id gateway) [])
                  w))) as Hget by silent_steps.
  destruct (http_get _ _) as [status_code content|e];
    [destruct (status_code =? 200)|]; cbn [snd];
    [exact Hget|eapply extends_trans; [exact Hget|apply IH]..].
Qed.

Lemma collect_one_silent tx records w :
  extends (λ e, is_search e.2 = false) w
    (ArweaveCollector.collect_one http_get latency sha256_hexdigest tx
       records w).2.
Proof.
  unfold ArweaveCollector.collect_one, ArweaveCollector.fetch_content.
  pose proof (fetch_content_from_silent ArweaveCollector.gateways
                (ArweaveCollector.tx_id tx) w) as Hfetch.
  destruct (ArweaveCollector.fetch_content_from _ _ _ _ w) as [content w1].
  cbn [snd] in Hfetch. eapply extends_trans; [exact Hfetch|].
  destruct content as [[|b body]|]; cbn [snd]; [silent_steps| |silent_steps].
  destruct (ArweaveCollector.save_transaction sha256_hexdigest tx (b :: body) w1)
    as [[record w2]|] eqn:Hsave; cbn [snd]; [|silent_steps].
  destruct (save_transaction_writes _ _ _ _ _ _ Hsave) as [-> _].
  silent_steps.
Qed.

Lemma collect_each_silent txs count records w :
  extends (λ e, is_search e.2 = false) w
    (ArweaveCollector.collect_each http_get latency sha256_hexdigest txs
       count records w).2.
Proof.
  revert records w. induction txs as [|tx rest IH]; intros records w;
    [apply extends_refl|].
  cbn [ArweaveCollector.collect_each].
  destruct (ArweaveCollector.size_verdict tx) as [n| |].
  - eapply extends_trans; [|apply IH]. silent_steps.
  - pose proof (collect_one_silent tx records w) as Hone.
    destruct (ArweaveCollector.collect_one _ _ _ tx records w)
      as [records1 w1].
    cbn [snd] in Hone.
    destruct (count <=? Py.len records1); [exact Hone|].
    eapply extends_trans; [exact Hone|apply IH].
  - destruct (count <=? Py.len records); cbn [snd]; [silent_steps|].
    eapply extends_trans; [|apply IH]. silent_steps.
Qed.

(** A run of [collect_by_type] sends one search, as it begins. *)
Lemma collect_by_type_search_first content_type count (deadline : Q) w :
  (clock w < deadline)%Q →
  extends (λ e, is_search e.2 = true → (e.1 < deadline)%Q) w
    (ArweaveCollector.collect_by_type http_get graphql latency
       sha256_hexdigest content_type count w).2.
Proof.
  intros Hbefore.
  unfold ArweaveCollector.collect_by_type,
    ArweaveCollector.search_by_content_type.
  set (w0 := print (LHeader content_type count) w).
  set (w1 := advance _ (emit (HttpPost _ _) w0)).
  assert (extends (λ e, is_search e.2 = true → (e.1 < deadline)%Q) w w1)
    as Hsearch.
  { unfold w1, w0.
    eapply extends_trans; [|apply extends_advance].
    eapply extends_trans; [apply extends_print; discriminate|].
    apply extends_emit. intros _. exact Hbefore. }
  assert (∀ v v', extends (λ e, is_search e.2 = false) v v' →
                  extends (λ e, is_search e.2 = true → (e.1 < deadline)%Q) v v')
    as Hweak.
  { intros v v'. apply extends_weaken. intros e He. rewrite He. discriminate. }
  destruct (graphql _ _ _) as [e|transactions].
  - cbn [snd]. eapply extends_trans; [exact Hsearch|].
    apply Hweak. silent_steps.
  - pose proof (collect_each_silent
                  (Py.list_slice_to count transactions) count []
                  (print (LFound (Py.len transactions)) w1)) as Heach.
    destruct (ArweaveCollector.collect_each _ _ _ _ _ _ _) as [records w2].
    cbn [snd] in Heach |- *.
    eapply extends_trans; [exact Hsearch|]. apply Hweak.
    eapply extends_trans; [|silent_step].
    eapply extends_trans; [|exact Heach]. silent_steps.
Qed.

Lemma arweave_batches_deadline batches self w :
  extends (λ e, is_search e.2 = true → (e.1 < end_time self)%Q) w
    (arweave_batches http_get graphql latency sha256_hexdigest batches self
       w).2.
Proof.
  revert self w. induction batches as [|[ct count] rest IH]; intros self w;
    [apply extends_refl|].
  cbn [arweave_batches].
  destruct (should_continue self w) eqn:Hgo; [|apply extends_refl].
  apply Qlt_bool_true in Hgo.
  pose proof (collect_by_type_search_first ct count (end_time self) w Hgo)
    as Hbatch.
  destruct (ArweaveCollector.collect_by_type _ _ _ _ ct count w)
    as [records w1].
  cbn [snd] in Hbatch.
  eapply extends_trans; [exact Hbatch|].
  eapply extends_trans; [|apply (IH (add_arweave records self))].
  apply extends_sleep. discriminate.
Qed.

(** The deadline in [collect_arweave]: every search the call sends to the
    GraphQL endpoint, it sends strictly before [end_time]; and called at
    or after the deadline it does nothing but log that it starts. *)
Theorem collect_arweave_deadline self w :
  let after :=
    collect_arweave http_get graphql latency sha256_hexdigest self w in
  extends (λ e, is_search e.2 = true → (e.1 < end_time self)%Q) w after.2
  ∧ (should_continue self w = false → after = (self, print LStarting w)).
Proof.
  cbv zeta. unfold collect_arweave.
  change (should_continue self (print LStarting w))
    with (should_continue self w).
  destruct (should_continue self w); [|split; [|done]].
  - split; [|discriminate].
    pose proof (arweave_batches_deadline arweave_content_types self
                  (print LStarting w)) as Hloop.
    destruct (arweave_batches _ _ _ _ _ _ _) as [self1 w1].
    cbn [snd] in Hloop |- *.
    eapply extends_trans; [apply extends_print; discriminate|].
    eapply extends_trans; [exact Hloop|].
    apply extends_print. discriminate.
  - cbn [snd]. apply extends_print. discriminate.
Qed.

End Servers.

End ArweaveNight.

(** ** [collect_by_app] beside [collect_by_type] *)

Section ByAppByType.
Import World ArweaveCollector.

(** Two worlds with the same files, the same requests sent and the same
    files written so far. *)
#[local] Abbreviation same_effects w w' :=
  (disk w = disk w'
   ∧ gets (trace w) = gets (trace w')
   ∧ writes (trace w) = writes (trace w')).

Lemma same_effects_print_left line w w' :
  same_effects w w' → same_effects (print line w) w'.
Proof. intros (Hd & Hg & Hw). by rewrite gets_print, writes_print. Qed.

Lemma same_effects_print_right line w w' :
  same_effects w w' → same_effects w (print line w').
Proof. intros (Hd & Hg & Hw). by rewrite gets_print, writes_print. Qed.

Lemma same_effects_sleep_left seconds w w' :
  same_effects w w' → same_effects (sleep seconds w) w'.
Proof. intros (Hd & Hg & Hw). by rewrite gets_sleep, writes_sleep. Qed.

Lemma same_effects_sleep_right seconds w w' :
  same_effects w w' → same_effects w (sleep seconds w').
Proof. intros (Hd & Hg & Hw). by rewrite gets_sleep, writes_sleep. Qed.

Lemma same_effects_get url seconds seconds' w w' :
  same_effects w w' →
  same_effects (advance seconds (emit (HttpGet url []) w))
    (advance seconds' (emit (HttpGet url []) w')).
Proof.
  intros (Hd & Hg & Hw). unfold advance. cbn [disk trace].
  rewrite !gets_emit_get, Hg. split; [exact Hd|]. split; [done|].
  unfold emit. cbn [trace]. rewrite !writes_app, Hw. done.
Qed.

Lemma same_effects_post url variables variables' seconds seconds' w w' :
  same_effects w w' →
  same_effects (advance seconds (emit (HttpPost url variables) w))
    (advance seconds' (emit (HttpPost url variables') w')).
Proof.
  intros (Hd & Hg & Hw). unfold advance, emit. cbn [disk trace].
  rewrite !gets_app, !writes_app, Hg, Hw. done.
Qed.

Lemma same_effects_write_bytes path content w w' :
  same_effects w w' →
  same_effects (write_bytes path content w) (write_bytes path content w').
Proof.
  intros (Hd & Hg & Hw).
  rewrite !gets_write_bytes, !write_bytes_writes, Hg, Hw.
  split; [|done]. unfold write_bytes. cbn [disk emit]. by rewrite Hd.
Qed.

Section Servers.
Variable http_get : nat → string → HttpResult.
Variable graphql : nat → string → Z → Failure + list Transaction.
Variable graphql_app : nat → string → Z → Failure + list Transaction.
Variable latency : nat → Q.
Variable sha256_hexdigest : Py.bytes → string.

(** Gateways whose answer to a request does not depend on the moment it is
    sent at. *)
Hypothesis steady : ∀ n m url, http_get n url = http_get m url.

Lemma fetch_content_from_same gws tx_id w w' :
  same_effects w w' →
  (fetch_content_from http_get latency gws tx_id w).1
  = (fetch_content_from http_get latency gws tx_id w').1
  ∧ same_effects (fetch_content_from http_get latency gws tx_id w).2
      (fetch_content_from http_get latency gws tx_id w').2.
Proof.
  revert w w'. induction gws as [|gateway rest IH]; intros w w' Hsame;
    [done|].
  cbn [fetch_content_from].
  rewrite (steady (length (trace w)) (length (trace w'))).
  pose proof (same_effects_get (gateway_url tx_id gateway)
                (latency (length (trace w))) (latency (length (trace w')))
                w w' Hsame) as Hget.
  destruct (http_get _ _) as [status_code content|e];
    [destruct (status_code =? 200)|]; cbn [fst snd];
    [done|by apply IH..].
Qed.

Lemma collect_one_same tx records w w' :
  same_effects w w' →
  (collect_one_app http_get latency sha256_hexdigest tx records w).1
  = (collect_one http_get latency sha256_hexdigest tx records w').1
  ∧ same_effects
      (collect_one_app http_get latency sha256_hexdigest tx records w).2
      (collect_one http_get latency sha256_hexdigest tx records w').2.
Proof.
  intros Hsame. unfold collect_one_app, collect_one, fetch_content.
  destruct (fetch_content_from_same gateways (tx_id tx) w w' Hsame)
    as [Hcontent Hfetched].
  destruct (fetch_content_from http_get latency gateways (tx_id tx) w)
    as [content w1].
  destruct (fetch_content_from http_get latency gateways (tx_id tx) w')
    as [content' w1'].
  cbn [fst snd] in Hcontent, Hfetched. subst content'.
  destruct content as [[|b body]|]; cbn [fst snd].
  - split; [done|].
    by apply same_effects_sleep_left, same_effects_sleep_right,
      same_effects_print_right.
  - destruct (save_transaction sha256_hexdigest tx (b :: body) w1)
      as [[record w2]|] eqn:Hsave.
    + destruct (save_transaction_writes _ _ _ _ _ _ Hsave) as [-> Hany].
      rewrite (Hany w1'). cbn [fst snd]. split; [done|].
      by apply same_effects_sleep_left, same_effects_sleep_right,
        same_effects_print_left, same_effects_print_right,
        same_effects_write_bytes.
    + destruct (save_transaction sha256_hexdigest tx (b :: body) w1')
        as [[record' w2']|] eqn:Hsave'.
      * destruct (save_transaction_writes _ _ _ _ _ _ Hsave') as [_ Hany].
        rewrite (Hany w1) in Hsave. discriminate.
      * cbn [fst snd]. split; [done|].
        by apply same_effects_print_left, same_effects_print_right.
  - split; [done|].
    by apply same_effects_sleep_left, same_effects_sleep_right,
      same_effects_print_right.
Qed.

Lemma collect_each_same txs count records w w' :
  same_effects w w' →
  (collect_each_app http_get latency sha256_hexdigest txs count records w).1
  = (collect_each http_get latency sha256_hexdigest txs count records w').1
  ∧ same_effects
      (collect_each_app http_get latency sha256_hexdigest txs count records w).2
      (collect_each http_get latency sha256_hexdigest txs count records w').2.
Proof.
  revert records w w'. induction txs as [|tx rest IH];
    intros records w w' Hsame; [done|].
  cbn [collect_each_app collect_each].
  destruct (size_verdict tx) as [n| |].
  - by apply IH, same_effects_print_right.
  - destruct (collect_one_same tx records w w' Hsame) as [Hrecords Hone].
    destruct (collect_one_app http_get latency sha256_hexdigest tx records w)
      as [records1 w1].
    destruct (collect_one http_get latency sha256_hexdigest tx records w')
      as [records1' w1'].
    cbn [fst snd] in Hrecords, Hone. subst records1'.
    destruct (count <=? Py.len records1); [done|]. by apply IH.
  - assert (same_effects (print LError w) (print LError w')) as Herror
      by (by apply same_effects_print_left, same_effects_print_right).
    destruct (count <=? Py.len records); [done|]. by apply IH.
Qed.

(** [collect_by_app] does what [collect_by_type] does, less some lines on
    the console. With gateways whose answers do not depend on the moment,
    and the two searches answered alike, both calls return the same
    records, send the same requests to the gateways, write the same files
    and leave the same disk. *)
Theorem collect_by_app_as_by_type app_name content_type count w :
  graphql_app (length (trace w) + 1)%nat app_name (count * 2)
  = graphql (length (trace w) + 1)%nat content_type (count * 2) →
  let by_app :=
    collect_by_app http_get graphql_app latency sha256_hexdigest app_name
      count w in
  let by_type :=
    collect_by_type http_get graphql latency sha256_hexdigest content_type
      count w in
  by_app.1 = by_type.1
  ∧ disk by_app.2 = disk by_type.2
  ∧ gets (trace by_app.2) = gets (trace by_type.2)
  ∧ writes (trace by_app.2) = writes (trace by_type.2).
Proof.
  cbv zeta. intros Hlisting.
  unfold collect_by_app, collect_by_type, search_by_app,
    search_by_content_type.
  assert (∀ line, length (trace (print line w)) = (length (trace w) + 1)%nat)
    as Hlen by (intros line; unfold print, emit; cbn [trace];
                by rewrite length_app).
  rewrite !Hlen, Hlisting.
  match goal with
  | |- context [collect_each_app _ _ _ _ _ _ (print _ ?wa)] =>
      match goal with
      | |- context [collect_each _ _ _ _ _ _ (print _ ?wt)] =>
          assert (same_effects wa wt) as Hsame
            by (apply same_effects_post;
                by apply same_effects_print_left, same_effects_print_right)
      end
  end.
  destruct (graphql _ _ _) as [e|transactions].
  - cbn [fst snd]. split; [done|].
    by apply same_effects_print_left, same_effects_print_right,
      same_effects_print_right.
  - match goal with
    | |- context [collect_each_app _ _ _ ?txs count [] ?wa] =>
        match goal with
        | |- context [collect_each _ _ _ txs count [] ?wt] =>
            destruct (collect_each_same txs count [] wa wt) as [Hrecords Hrun];
              [by apply same_effects_print_left, same_effects_print_right|];
            destruct (collect_each_app http_get latency sha256_hexdigest txs
                        count [] wa) as [records_a w_a];
            destruct (collect_each http_get latency sha256_hexdigest txs
                        count [] wt) as [records_t w_t]
        end
    end.
    cbn [fst snd] in Hrecords, Hrun |- *. split; [done|].
    by apply same_effects_print_right.
Qed.

End Servers.

(** The theorem at gateways that always serve the sample picture, and an
    endpoint that lists an oversized transaction and the picture for both
    searches. *)
Lemma collect_by_app_as_by_type_png :
  (collect_by_app Samples.serves_png Samples.lists_big_and_png
     Samples.no_latency Samples.toy_hexdigest "ArDrive" 5
     Samples.fresh_world).1
  = (collect_by_type Samples.serves_png Samples.lists_big_and_png
       Samples.no_latency Samples.toy_hexdigest "image/png" 5
       Samples.fresh_world).1.
Proof.
  apply (collect_by_app_as_by_type Samples.serves_png
           Samples.lists_big_and_png Samples.lists_big_and_png
           Samples.no_latency Samples.toy_hexdigest).
  - reflexivity.
  - reflexivity.
Defined.

End ByAppByType.

(** ** The per-chain files of [export] *)

Section ExportChains.
Import UnifiedDataset.

Lemma add_to_chain_lookup record (chains : gmap string (list UnifiedRecord)) c :
  add_to_chain chains record !! c
  = if decide (chain record = c)
    then Some (default [] (chains !! c) ++ [record])
    else chains !! c.
Proof.
  unfold add_to_chain. case_decide as Hc.
  - subst c. rewrite lookup_alter_eq.
    destruct (chains !! chain record) as [l|] eqn:Hm.
    + by rewrite Hm.
    + by rewrite lookup_insert_eq.
  - rewrite lookup_alter_ne by done.
    destruct (chains !! chain record); [done|]. by rewrite lookup_insert_ne.
Qed.

Lemma export_loop_lookup records (chains : gmap string (list UnifiedRecord)) c :
  foldl add_to_chain chains records !! c
  = match filter (λ r, chain r = c) records with
    | [] => chains !! c
    | of_chain => Some (default [] (chains !! c) ++ of_chain)
    end.
Proof.
  revert chains. induction records as [|record rest IH]; intros chains.
  - reflexivity.
  - cbn [foldl]. rewrite IH, add_to_chain_lookup, filter_cons.
    destruct (decide (chain record = c)) as [Hc|Hc]; [|reflexivity].
    destruct (filter (λ r, chain r = c) rest) as [|r1 others];
      cbn [from_option Datatypes.id]; [done|].
    by rewrite <- app_assoc.
Qed.

(** What [export] puts into the per-chain files. The file of a chain holds
    the records of that chain, all of them, in their order, and a chain
    without records has no file. After [deduplicate], as [run] calls them,
    no two lines of one file have the same content hash. And the [count]
    of a chain in the statistics is the number of lines of its file. *)
Theorem export_chains_files records :
  (∀ c,
     export_chains records !! c
     = match filter (λ r, chain r = c) records with
       | [] => None
       | of_chain => Some of_chain
       end)
  ∧ (∀ c of_chain,
       export_chains (deduplicate records) !! c = Some of_chain →
       NoDup (content_hash <$> of_chain))
  ∧ (∀ now_iso c,
       count <$> (by_chain (generate_stats now_iso records) !! c)
       = Py.len <$> (export_chains records !! c)).
Proof.
  assert (∀ l c,
            export_chains l !! c
            = match filter (λ r, chain r = c) l with
              | [] => None
              | of_chain => Some of_chain
              end) as Hfiles.
  { intros l c. unfold export_chains. rewrite export_loop_lookup, lookup_empty.
    by destruct (filter _ l). }
  split; [exact (Hfiles records)|]. split.
  - intros c of_chain. rewrite Hfiles.
    pose proof (deduplicate_loop_NoDup records ∅) as Hnodup.
    fold (deduplicate records) in Hnodup.
    intros Hsome.
    assert (of_chain = filter (λ r, chain r = c) (deduplicate records)) as ->.
    { destruct (filter _ (deduplicate records)); [done|]. by injection Hsome. }
    clear Hsome. induction (deduplicate records) as [|r l IH]; [constructor|].
    rewrite fmap_cons in Hnodup. apply NoDup_cons in Hnodup as [Hhead Htail].
    rewrite filter_cons. destruct (decide (chain r = c)) as [Hc|Hc];
      [|by apply IH].
    rewrite fmap_cons. constructor; [|by apply IH].
    intros (r' & Hhash & [Hc' Hr']%list_elem_of_filter)%list_elem_of_fmap.
    apply Hhead, list_elem_of_fmap. exists r'. split; [|done].
    unfold dedup_key. by rewrite Hhash, Hc, Hc'.
  - intros now_iso c. rewrite Hfiles. unfold generate_stats. cbn [by_chain].
    rewrite stats_loop_by_chain. cbn [by_chain]. rewrite lookup_empty.
    destruct (filter _ records); [done|].
    cbn [from_option Datatypes.id count fmap option_fmap option_map].
    f_equal; lia.
Qed.

End ExportChains.

(** ** [collect] with the listing down *)

Section ListingDown.
Import World RobustCollector.

Section Servers.
Variable http_get : nat → string → HttpResult.
Variable hiro_listing : nat → string → Z → Z → Failure + list Inscription.
Variable latency : nat → Q.
Variable sha256_hexdigest : Py.bytes → string.

Hypothesis listing_fails :
  ∀ n mime_type offset limit, ∃ e, hiro_listing n mime_type offset limit = inl e.

Lemma collect_loop_keeps_asking fuel mime_type count offset self w :
  0 < count →
  let after :=
    collect_loop http_get hiro_listing latency sha256_hexdigest fuel mime_type
      count [] offset self w in
  after.2 = false
  ∧ after.1.1.1 = []
  ∧ gets (trace after.1.2)
    = gets (trace w)
      ++ replicate fuel (base (apis self hiro) +:+ "/inscriptions").
Proof.
  cbv zeta. intros Hcount. revert self w.
  induction fuel as [|fuel IH]; intros self w.
  { cbn. by rewrite app_nil_r. }
  cbn [collect_loop].
  destruct (Z.ltb_spec (Py.len (@nil Saved)) count) as [_|Hle];
    [|unfold Py.len in Hle; cbn in Hle; lia].
  unfold fetch_inscriptions_hiro.
  pose proof (wait_for_rate_limit_gets hiro self w) as Hgets.
  pose proof (wait_for_rate_limit_base hiro self w) as Hbase.
  destruct (_wait_for_rate_limit hiro self w) as [self1 w1].
  cbn [fst snd] in Hgets, Hbase.
  match goal with
  | |- context [hiro_listing ?n ?m ?o ?l] =>
      destruct (listing_fails n m o l) as [e ->]
  end.
  match goal with
  | |- context [collect_loop _ _ _ _ fuel _ _ [] offset self1 ?w2] =>
      destruct (IH self1 w2) as (Hgoing & Hnone & Hasked);
      rewrite Hgoing, Hnone, Hasked
  end.
  split; [done|]. split; [done|].
  rewrite gets_sleep, gets_print. unfold advance. cbn [trace].
  rewrite gets_emit_get, Hgets, Hbase, <- app_assoc. done.
Qed.

(** With Hiro's listing failing at every request, [collect] has no way
    out of its loop: whatever number of rounds it is given, it has sent
    that many listing requests, holds no record, and is still going.
    Nothing bounds the retries. *)
Theorem collect_keeps_asking fuel mime_type count self w :
  0 < count →
  let after :=
    collect http_get hiro_listing latency sha256_hexdigest fuel mime_type count
      self w in
  after.2 = false
  ∧ after.1.1.1 = []
  ∧ gets (trace after.1.2)
    = gets (trace w)
      ++ replicate fuel (base (apis self hiro) +:+ "/inscriptions").
Proof.
  cbv zeta. intros Hcount. unfold collect.
  destruct (collect_loop_keeps_asking fuel mime_type count 0 self
              (print (LHeader mime_type count) w) Hcount)
    as (Hgoing & Hnone & Hasked).
  destruct (collect_loop _ _ _ _ _ _ _ _ _ _ _) as [[[records self1] w1] finished].
  cbn [fst snd] in Hgoing, Hnone, Hasked. subst finished records.
  cbn [fst snd]. rewrite Hasked, gets_print. done.
Qed.

End Servers.

(** The theorem with the listing timing out: three rounds, three requests,
    and the loop goes on. *)
Lemma collect_keeps_asking_timed_out :
  (collect Samples.serves_png Samples.listing_down Samples.no_latency
     Samples.toy_hexdigest 3 "image/png" 5 __init__ Samples.fresh_world).2
  = false.
Proof.
  apply (collect_keeps_asking Samples.serves_png Samples.listing_down
           Samples.no_latency Samples.toy_hexdigest).
  - intros n mime_type offset limit. by eexists.
  - lia.
Defined.

End ListingDown.

(** ** The extension of a saved file *)

Section Extension.
Import World.

Lemma ext_map_no_parameter (content_type : string) :
  Py.char_in ";" content_type = true →
  RobustCollector.ext_map !! content_type = None.
Proof.
  intros Hparameter. apply not_elem_of_list_to_map_1.
  cbn [fmap list_fmap fst]. intros Hin.
  repeat (apply elem_of_cons in Hin as [->|Hin];
          [vm_compute in Hparameter; discriminate|]).
  by apply elem_of_nil in Hin.
Qed.

Variable sha256_hexdigest : Py.bytes → string.

(** [save_inscription] looks the whole content type up in its table of
    extensions, so an inscription whose type carries a parameter, as
    [text/plain;charset=utf-8] does, is saved under a name that ends in
    [.bin]. [save_transaction] cuts the type at its first semicolon before
    it looks, and the parameter makes no difference there. *)
Theorem extension_of_parameterised_type insc tx content w :
  (∀ content_type,
     RobustCollector.insc_content_type insc = Some content_type →
     Py.char_in ";" content_type = true →
     ∃ stem,
       RobustCollector.local_path
         (RobustCollector.save_inscription sha256_hexdigest insc content w).1
       = stem +:+ ".bin")
  ∧ (∀ r w1,
       ArweaveCollector.save_transaction sha256_hexdigest tx content w
       = Some (r, w1) →
       ∃ stem,
         ArweaveCollector.local_path r
         = stem
           +:+ default ".bin"
                 (ArweaveCollector.ext_map
                    !! Py.split_head ";" (ArweaveCollector.content_type r))).
Proof.
  split.
  - intros content_type Htype Hparameter.
    unfold RobustCollector.save_inscription.
    cbn [fst RobustCollector.local_path]. rewrite Htype.
    cbn [default from_option Datatypes.id].
    rewrite (ext_map_no_parameter _ Hparameter).
    cbn [default from_option Datatypes.id].
    destruct (str_of_int_not_empty
                (default 0 (RobustCollector.insc_number insc)))
      as (c & s & Hnumber).
    cbn [default from_option Datatypes.id] in Hnumber.
    rewrite path_join_file_name by (by rewrite Hnumber).
    eexists. rewrite <- !append_assoc. reflexivity.
  - intros r w1 Hsave. unfold ArweaveCollector.save_transaction in Hsave.
    apply bind_Some in Hsave as (tag_list & Htags & Hsave).
    apply bind_Some in Hsave as (data_type & Hdata & Hsave).
    apply bind_Some in Hsave as (content_type & Htype & Hsave).
    apply bind_Some in Hsave as (blk & Hblock & Hsave).
    injection Hsave as <- <-.
    cbn [ArweaveCollector.local_path ArweaveCollector.content_type].
    assert (from_option Py.str_of_int "None" blk.1 ≠ "") as Hheight.
    { destruct blk.1 as [h|]; [|done]. cbn [from_option].
      by destruct (str_of_int_not_empty h) as (c & s & ->). }
    rewrite path_join_file_name by exact Hheight.
    eexists. rewrite <- !append_assoc. reflexivity.
Qed.

End Extension.
